(** * Procedural grass: terrain height fields, blade placement and wind

    A shallow embedding of [src/components/3D/grass-component/grass.tsx].

    Numbers.  JavaScript numbers and GLSL floats are idealised as real
    numbers: every arithmetic operation is the exact one, [Math.sqrt],
    [Math.cos], [Math.sin] and [Math.exp] are the functions of the
    standard library of reals.  The model therefore has no rounding and
    no overflow.  A division is the real one where the divisor is not
    zero.  The hill code divides by [radius], by [1 - plateau] and by a
    vector length that is at least one, none of which is zero where the
    division is reached, and by the two components of [asymmetry], which
    can be zero: there JavaScript answers an infinity or NaN.  The height
    fields are therefore modelled twice: over the reals, which is exact
    for every hill whose asymmetry has no zero component, and in module
    [Ext] over the numbers extended with the infinities and NaN, for
    every configuration.  The properties relate the two.

    Effects.  [Math.random] is a supply of numbers of [[0, 1)] consumed in
    program order; a typed array is a list of numbers (stored unrounded)
    whose allocation is the one operation that can throw, modelled in an
    error monad; the renderer's clock is an input of the per-frame
    callback, and mounting, unmounting and frames are events of a small
    transition system. *)

From Stdlib Require Import Reals Zfloor Lra Lia List ZArith Bool Permutation.
From Stdlib Require String.
Import ListNotations.

Open Scope R_scope.

(** ** JavaScript numbers and [Math] *)

Module Js.

Definition number : Type := R.

(** Relational operators, as booleans. *)
Definition ltb (a b : number) : bool := if Rlt_dec a b then true else false.
Definition gtb (a b : number) : bool := ltb b a.
Definition geb (a b : number) : bool := if Rle_dec b a then true else false.

(** [a || b] on numbers: [a] unless it is falsy, that is zero. *)
Definition or_else (a b : number) : number :=
  if Req_dec_T a 0 then b else a.

(** Thrown values. *)
Inductive error : Type :=
| RangeError.

(** A computation that returns or throws. *)
Inductive result (A : Type) : Type :=
| Ok (a : A)
| Throw (e : error).
Arguments Ok {A} a.
Arguments Throw {A} e.

Definition bind {A B : Type} (m : result A) (k : A -> result B) : result B :=
  match m with
  | Ok a => k a
  | Throw e => Throw e
  end.

End Js.

Notation "a <? b" := (Js.ltb a b) : R_scope.
Notation "a >? b" := (Js.gtb a b) : R_scope.
Notation "a >=? b" := (Js.geb a b) : R_scope.
Notation "a '||' b" := (Js.or_else a b) (at level 50, left associativity) : R_scope.

Module Math.

Definition sqrt : R -> R := R_sqrt.sqrt.
Definition cos : R -> R := Rtrigo_def.cos.
Definition sin : R -> R := Rtrigo_def.sin.
Definition exp : R -> R := Rtrigo_def.exp.
Definition abs : R -> R := Rabs.
Definition PI : R := Rtrigo1.PI.

(** [Math.pow base exponent].  For a positive base this is
    [exp (exponent * ln base)], which gives 1 for exponent 0.  For a base
    that is not positive JavaScript answers 0, an infinity, NaN or a signed
    integer power depending on the exponent; the real-number model keeps
    only [pow b 0 = 1] and [pow 0 e = 0] there.  The hill code never
    reaches that case: its base lies in (0, 1]. *)
Definition pow (base exponent : R) : R :=
  if Rlt_dec 0 base then Rpower base exponent
  else if Req_dec_T exponent 0 then 1
  else 0.

End Math.

(** ** Height samples and height fields *)

(** The tuple [[height, nx, ny, nz]] returned by a height function. *)
Definition HeightSample : Type := (R * R * R * R)%type.

Definition sample_height (s : HeightSample) : R :=
  let '(y, _, _, _) := s in y.

Definition sample_normal (s : HeightSample) : R * R * R :=
  let '(_, nx, ny, nz) := s in (nx, ny, nz).

(** [(x: number, z: number) => [number, number, number, number]] *)
Definition HeightFunction : Type := R -> R -> HeightSample.

(** [HillConfig]: every field is optional. *)
Record HillConfig : Type := mkHillConfig {
  centerX : option R;
  centerZ : option R;
  radius : option R;
  height : option R;
  roundness : option R;
  plateau : option R;
  skirt : option R;
  asymmetry : option (R * R);
  rotation : option R;
  ridge : option R;
  ridgeDirection : option R
}.

(** [Required<HillConfig>] *)
Record RequiredHillConfig : Type := mkRequiredHillConfig {
  r_centerX : R;
  r_centerZ : R;
  r_radius : R;
  r_height : R;
  r_roundness : R;
  r_plateau : R;
  r_skirt : R;
  r_asymmetry : R * R;
  r_rotation : R;
  r_ridge : R;
  r_ridgeDirection : R
}.

Definition DEFAULT_HILL : RequiredHillConfig :=
  {| r_centerX := 0;
     r_centerZ := 0;
     r_radius := 10;
     r_height := 3;
     r_roundness := 2;
     r_plateau := 0;
     r_skirt := 0;
     r_asymmetry := (1, 1);
     r_rotation := 0;
     r_ridge := 0;
     r_ridgeDirection := 0 |}.

(** The empty configuration [{}]. *)
Definition emptyHillConfig : HillConfig :=
  mkHillConfig None None None None None None None None None None None.

Definition override {A : Type} (d : A) (o : option A) : A :=
  match o with
  | Some a => a
  | None => d
  end.

(** [{ ...d, ...config }] *)
Definition spread (d : RequiredHillConfig) (config : HillConfig)
  : RequiredHillConfig :=
  {| r_centerX := override (r_centerX d) (centerX config);
     r_centerZ := override (r_centerZ d) (centerZ config);
     r_radius := override (r_radius d) (radius config);
     r_height := override (r_height d) (height config);
     r_roundness := override (r_roundness d) (roundness config);
     r_plateau := override (r_plateau d) (plateau config);
     r_skirt := override (r_skirt d) (skirt config);
     r_asymmetry := override (r_asymmetry d) (asymmetry config);
     r_rotation := override (r_rotation d) (rotation config);
     r_ridge := override (r_ridge d) (ridge config);
     r_ridgeDirection := override (r_ridgeDirection d) (ridgeDirection config) |}.

(** The sample of flat ground: height 0, normal up. *)
Definition flatSample : HeightSample := (0, 0, 1, 0).

(** [createFlatTerrain()] *)
Definition createFlatTerrain : HeightFunction :=
  fun _ _ => (0, 0, 1, 0).

Section Hill.

Variable c : RequiredHillConfig.

Let cosRot := Math.cos (- r_rotation c).
Let sinRot := Math.sin (- r_rotation c).
Let cosRidge := Math.cos (- r_ridgeDirection c).
Let sinRidge := Math.sin (- r_ridgeDirection c).

(** Hill-local coordinates of a ground point: translated to the centre,
    rotated, divided by the asymmetry.  The quotient is the code's where
    the component of the asymmetry is not zero; [Ext.hill_adx] and
    [Ext.hill_adz] give the infinity or NaN of the code where it is. *)
Definition hill_adx (x z : R) : R :=
  let dx := x - r_centerX c in
  let dz := z - r_centerZ c in
  let rdx := dx * cosRot - dz * sinRot in
  rdx / fst (r_asymmetry c).

Definition hill_adz (x z : R) : R :=
  let dx := x - r_centerX c in
  let dz := z - r_centerZ c in
  let rdz := dx * sinRot + dz * cosRot in
  rdz / snd (r_asymmetry c).

(** [dist]: the scaled radial distance of a ground point. *)
Definition hill_dist (x z : R) : R :=
  let adx := hill_adx x z in
  let adz := hill_adz x z in
  Math.sqrt (adx * adx + adz * adz).

(** The plateau remapping of the normalised distance [t]. *)
Definition plateau_remap (t : R) : R :=
  if (r_plateau c >? 0) && (t <? r_plateau c) then 0
  else if r_plateau c >? 0 then (t - r_plateau c) / (1 - r_plateau c)
  else t.

(** The ridge factor at hill-local coordinates. *)
Definition ridge_factor (adx adz : R) : R :=
  if r_ridge c >? 0 then
    let rx := adx * cosRidge - adz * sinRidge in
    1 - r_ridge c * (1 - Math.exp (- Math.abs rx * 2))
  else 1.

(** The inner helper [getHeight] used for the numerical gradient. *)
Definition getHeight (px pz : R) : R :=
  let ladx := hill_adx px pz in
  let ladz := hill_adz px pz in
  let ldist := Math.sqrt (ladx * ladx + ladz * ladz) in
  if ldist >=? r_radius c then 0
  else
    let lt := plateau_remap (ldist / r_radius c) in
    let lridgeFactor := ridge_factor ladx ladz in
    r_height c * Math.pow (1 - lt) (r_roundness c) * lridgeFactor.

(** The function returned by [createHillTerrain]. *)
Definition hillTerrain (x z : R) : HeightSample :=
  let adx := hill_adx x z in
  let adz := hill_adz x z in
  let dist := Math.sqrt (adx * adx + adz * adz) in
  let effectiveRadius := r_radius c + r_skirt c in
  if dist >=? effectiveRadius then (0, 0, 1, 0)
  else if dist >=? r_radius c then (0, 0, 1, 0)
  else
    let t := plateau_remap (dist / r_radius c) in
    let ridgeFactor := ridge_factor adx adz in
    let factor := Math.pow (1 - t) (r_roundness c) * ridgeFactor in
    let y := r_height c * factor in
    let eps := 0.01 in
    let dhdx := (getHeight (x + eps) z - getHeight (x - eps) z) / (2 * eps) in
    let dhdz := (getHeight x (z + eps) - getHeight x (z - eps)) / (2 * eps) in
    let len := Math.sqrt (dhdx * dhdx + 1 + dhdz * dhdz) in
    (y, - dhdx / len, 1 / len, - dhdz / len).

End Hill.

(** [createHillTerrain(config)] *)
Definition createHillTerrain (config : HillConfig) : HeightFunction :=
  hillTerrain (spread DEFAULT_HILL config).

(** The loop of [combineTerrains]: the running totals after the terrains
    of the list, starting from [(totalY, totalNx, totalNz)]. *)
Fixpoint combine_loop (terrains : list HeightFunction) (x z : R)
    (acc : R * R * R) : R * R * R :=
  match terrains with
  | [] => acc
  | terrain :: rest =>
      let '(totalY, totalNx, totalNz) := acc in
      let '(y, nx, _, nz) := terrain x z in
      combine_loop rest x z (totalY + y, totalNx + nx, totalNz + nz)
  end.

(** [combineTerrains(...terrains)] *)
Definition combineTerrains (terrains : list HeightFunction) : HeightFunction :=
  fun x z =>
    let '(totalY, totalNx, totalNz) := combine_loop terrains x z (0, 0, 0) in
    let len := Math.sqrt (totalNx * totalNx + 1 + totalNz * totalNz) in
    (totalY, totalNx / len, 1 / len, totalNz / len).

(** ** The three.js values the component uses

    three.js is an external dependency.  What the component reads back from
    it is modelled after the library: vectors, [Vector3.normalize] and
    [Vector3.lengthSq], [Matrix4.compose] and [Matrix4.toArray], the vertex
    grid of [PlaneGeometry], the rotation of an [Object3D] about its X axis
    and the allocation of a [Float32Array].  The quaternion constructors,
    whose results the component only passes on, stay parameters of the
    generator below; reference versions are given here for concrete runs. *)

Module THREE.

Definition Vector3 : Type := (R * R * R)%type.
Definition Vector2 : Type := (R * R)%type.
(** [(x, y, z, w)] *)
Definition Quaternion : Type := (R * R * R * R)%type.

Definition lengthSq (v : Vector3) : R :=
  let '(x, y, z) := v in x * x + y * y + z * z.

Definition length (v : Vector3) : R := Math.sqrt (lengthSq v).

Definition multiplyScalar (v : Vector3) (s : R) : Vector3 :=
  let '(x, y, z) := v in (x * s, y * s, z * s).

Definition divideScalar (v : Vector3) (s : R) : Vector3 :=
  multiplyScalar v (1 / s).

(** [normalize() { return this.divideScalar( this.length() || 1 ) }] *)
Definition normalize (v : Vector3) : Vector3 :=
  divideScalar v (length v || 1).

(** [Matrix4.compose(position, quaternion, scale)], as the sixteen
    elements in column-major order, which is also the order in which
    [Matrix4.toArray] writes them. *)
Definition compose (position : Vector3) (quaternion : Quaternion)
    (scale : Vector3) : list R :=
  let '(x, y, z, w) := quaternion in
  let x2 := x + x in let y2 := y + y in let z2 := z + z in
  let xx := x * x2 in let xy := x * y2 in let xz := x * z2 in
  let yy := y * y2 in let yz := y * z2 in let zz := z * z2 in
  let wx := w * x2 in let wy := w * y2 in let wz := w * z2 in
  let '(sx, sy, sz) := scale in
  let '(px, py, pz) := position in
  [ (1 - (yy + zz)) * sx; (xy + wz) * sx; (xz - wy) * sx; 0;
    (xy - wz) * sy; (1 - (xx + zz)) * sy; (yz + wx) * sy; 0;
    (xz + wy) * sz; (yz - wx) * sz; (1 - (xx + yy)) * sz; 0;
    px; py; pz; 1 ].

(** [new Float32Array(length)]: zero-filled; a negative length throws. *)
Definition new_Float32Array (length : Z) : Js.result (list R) :=
  if (length <? 0)%Z then Js.Throw Js.RangeError
  else Js.Ok (repeat 0 (Z.to_nat length)).

(** [array[i] = v] on a typed array: a write past the end is ignored. *)
Fixpoint array_set (array : list R) (i : nat) (v : R) : list R :=
  match array, i with
  | [], _ => []
  | _ :: rest, O => v :: rest
  | a :: rest, S i' => a :: array_set rest i' v
  end.

(** [Matrix4.toArray(array, offset)]: element [k] goes to
    [array[offset + k]]. *)
Fixpoint toArray (te : list R) (array : list R) (offset : nat) : list R :=
  match te with
  | [] => array
  | e :: te' => toArray te' (array_set array offset e) (S offset)
  end.

(** Reference quaternion constructors. *)
Definition quaternion_normalize (q : Quaternion) : Quaternion :=
  let '(x, y, z, w) := q in
  let l := Math.sqrt (x * x + y * y + z * z + w * w) in
  if Req_dec_T l 0 then (0, 0, 0, 1)
  else let l := 1 / l in (x * l, y * l, z * l, w * l).

Definition setFromUnitVectors (eps : R) (vFrom vTo : Vector3) : Quaternion :=
  let '(fx, fy, fz) := vFrom in
  let '(tx, ty, tz) := vTo in
  let r := fx * tx + fy * ty + fz * tz + 1 in
  if r <? eps then
    if Math.abs fx >? Math.abs fz
    then quaternion_normalize (- fy, fx, 0, 0)
    else quaternion_normalize (0, - fz, fy, 0)
  else
    quaternion_normalize
      (fy * tz - fz * ty, fz * tx - fx * tz, fx * ty - fy * tx, r).

Definition setFromAxisAngle (axis : Vector3) (angle : R) : Quaternion :=
  let '(ax, ay, az) := axis in
  let halfAngle := angle / 2 in
  let s := Math.sin halfAngle in
  (ax * s, ay * s, az * s, Math.cos halfAngle).

Definition multiply (a b : Quaternion) : Quaternion :=
  let '(qax, qay, qaz, qaw) := a in
  let '(qbx, qby, qbz, qbw) := b in
  (qax * qbw + qaw * qbx + qay * qbz - qaz * qby,
   qay * qbw + qaw * qby + qaz * qbx - qax * qbz,
   qaz * qbw + qaw * qbz + qax * qby - qay * qbx,
   qaw * qbw - qax * qbx - qay * qby - qaz * qbz).

End THREE.

(** ** The instance transform generator ([instanceMatrices]) *)

(** What one iteration hands to [matrix.compose]. *)
Record Transform : Type := mkTransform {
  position3 : THREE.Vector3;
  quaternion : THREE.Quaternion;
  scaleVec : THREE.Vector3
}.

Definition up : THREE.Vector3 := (0, 1, 0).

(** [normal.set(nx, ny, nz).normalize()] followed by
    [if (normal.lengthSq() < 0.001) normal.set(0, 1, 0)]. *)
Definition blade_normal (nx ny nz : R) : THREE.Vector3 :=
  let normal := THREE.normalize (nx, ny, nz) in
  if THREE.lengthSq normal <? 0.001 then (0, 1, 0) else normal.

Section Generator.

(** [random k] is the result of the [k]-th call of [Math.random()]. *)
Variable random : nat -> R.

Variable setFromUnitVectors : THREE.Vector3 -> THREE.Vector3 -> THREE.Quaternion.
Variable setFromAxisAngle : THREE.Vector3 -> R -> THREE.Quaternion.
Variable multiply : THREE.Quaternion -> THREE.Quaternion -> THREE.Quaternion.

Variable size : R * R.
Variable bladeHeight : R * R.
Variable heightFunction : HeightFunction.

(** [Math.random()] with the number of calls made so far as state. *)
Definition Math_random (calls : nat) : R * nat := (random calls, S calls).

(** The body of the loop: one blade, from the state of the random
    supply to the transform and the next state. *)
Definition blade (calls : nat) : Transform * nat :=
  let '(r, calls) := Math_random calls in
  let x := (r - 0.5) * fst size in
  let '(r, calls) := Math_random calls in
  let z := (r - 0.5) * snd size in
  let '(height, nx, ny, nz) := heightFunction x z in
  let '(r, calls) := Math_random calls in
  let scaleY := fst bladeHeight + r * (snd bladeHeight - fst bladeHeight) in
  let '(r, calls) := Math_random calls in
  let rotationY := r * Math.PI * 2 in
  let position3 := (x, height, z) in
  let normal := blade_normal nx ny nz in
  let quaternion := setFromUnitVectors up normal in
  let rotQuat := setFromAxisAngle normal rotationY in
  let quaternion := multiply quaternion rotQuat in
  let scaleVec := (1, scaleY, 1) in
  (mkTransform position3 quaternion scaleVec, calls).

Definition matrix_of (t : Transform) : list R :=
  THREE.compose (position3 t) (quaternion t) (scaleVec t).

(** [for (let i = ...; i < bladeCount; i++)] with [remaining] iterations
    to go: each composes one matrix and writes it at [i * 16]. *)
Fixpoint generate_loop (remaining i calls : nat) (matrices : list R)
  : list R :=
  match remaining with
  | O => matrices
  | S remaining' =>
      let '(t, calls') := blade calls in
      generate_loop remaining' (S i) calls'
        (THREE.toArray (matrix_of t) matrices (i * 16))
  end.

(** [instanceMatrices]: the buffer of [bladeCount * 16] numbers. *)
Definition instanceMatrices (bladeCount : Z) : Js.result (list R) :=
  Js.bind (THREE.new_Float32Array (bladeCount * 16))
    (fun matrices =>
       Js.Ok (generate_loop (Z.to_nat bladeCount) 0 0 matrices)).

(** The transforms composed by the loop, in order. *)
Fixpoint blades (remaining calls : nat) : list Transform :=
  match remaining with
  | O => []
  | S remaining' =>
      let '(t, calls') := blade calls in
      t :: blades remaining' calls'
  end.

Definition instanceTransforms (bladeCount : Z) : list Transform :=
  blades (Z.to_nat bladeCount) 0.

End Generator.

(** ** The three variants of height field of the specification *)

#[local] Unset Elimination Schemes.
Inductive HeightField : Type :=
| Flat
| Hill (config : HillConfig)
| Composite (children : list HeightField).
#[local] Set Elimination Schemes.

Fixpoint heightFunctionOf (f : HeightField) : HeightFunction :=
  match f with
  | Flat => createFlatTerrain
  | Hill config => createHillTerrain config
  | Composite children => combineTerrains (map heightFunctionOf children)
  end.

(** ** Height fields over the numbers with infinities and NaN

    The divisions by [asymmetry[0]] and [asymmetry[1]] are the one place
    where the height-field code can leave the finite numbers: JavaScript
    answers an infinity for [x / 0] with [x] not zero, and NaN for [0 / 0],
    and both values then flow through the rest of the function.  This
    module follows [createFlatTerrain], [createHillTerrain] and
    [combineTerrains] again, operation by operation, over numbers extended
    with the two infinities and NaN.  Finite values stay exact reals: as
    in the rest of the development there is no rounding and no overflow,
    and the sign of a zero is not kept (it could only choose the sign of
    an infinity, which the hill code squares).  The arguments [x] and [z]
    and the configuration are finite numbers. *)

Module Ext.

Inductive number : Type :=
| Finite (r : R)
| PosInfinity
| NegInfinity
| NaN.

Definition neg (a : number) : number :=
  match a with
  | Finite x => Finite (- x)
  | PosInfinity => NegInfinity
  | NegInfinity => PosInfinity
  | NaN => NaN
  end.

Definition add (a b : number) : number :=
  match a, b with
  | NaN, _ | _, NaN => NaN
  | Finite x, Finite y => Finite (x + y)
  | PosInfinity, NegInfinity | NegInfinity, PosInfinity => NaN
  | PosInfinity, _ | _, PosInfinity => PosInfinity
  | NegInfinity, _ | _, NegInfinity => NegInfinity
  end.

Definition sub (a b : number) : number :=
  match a, b with
  | NaN, _ | _, NaN => NaN
  | Finite x, Finite y => Finite (x - y)
  | PosInfinity, PosInfinity | NegInfinity, NegInfinity => NaN
  | PosInfinity, _ | _, NegInfinity => PosInfinity
  | NegInfinity, _ | _, PosInfinity => NegInfinity
  end.

(** An infinity times a finite number: NaN for zero, otherwise the
    infinity with the product of the signs. *)
Definition scale_infinity (positive : bool) (x : R) : number :=
  if Req_dec_T x 0 then NaN
  else if Rlt_dec 0 x
       then (if positive then PosInfinity else NegInfinity)
       else (if positive then NegInfinity else PosInfinity).

Definition mul (a b : number) : number :=
  match a, b with
  | NaN, _ | _, NaN => NaN
  | Finite x, Finite y => Finite (x * y)
  | Finite x, PosInfinity | PosInfinity, Finite x => scale_infinity true x
  | Finite x, NegInfinity | NegInfinity, Finite x => scale_infinity false x
  | PosInfinity, PosInfinity | NegInfinity, NegInfinity => PosInfinity
  | PosInfinity, NegInfinity | NegInfinity, PosInfinity => NegInfinity
  end.

(** [a / b]: a finite number divided by zero is NaN when it is zero and an
    infinity of its sign otherwise. *)
Definition div (a b : number) : number :=
  match a, b with
  | NaN, _ | _, NaN => NaN
  | Finite x, Finite y =>
      if Req_dec_T y 0 then
        if Req_dec_T x 0 then NaN
        else if Rlt_dec 0 x then PosInfinity else NegInfinity
      else Finite (x / y)
  | Finite _, PosInfinity | Finite _, NegInfinity => Finite 0
  | PosInfinity, Finite y => if Rlt_dec y 0 then NegInfinity else PosInfinity
  | NegInfinity, Finite y => if Rlt_dec y 0 then PosInfinity else NegInfinity
  | PosInfinity, PosInfinity | PosInfinity, NegInfinity
  | NegInfinity, PosInfinity | NegInfinity, NegInfinity => NaN
  end.

(** [Math.sqrt], [Math.abs] and [Math.exp] *)
Definition sqrt (a : number) : number :=
  match a with
  | Finite x => if Rlt_dec x 0 then NaN else Finite (Math.sqrt x)
  | PosInfinity => PosInfinity
  | NegInfinity => NaN
  | NaN => NaN
  end.

Definition abs (a : number) : number :=
  match a with
  | Finite x => Finite (Math.abs x)
  | PosInfinity => PosInfinity
  | NegInfinity => PosInfinity
  | NaN => NaN
  end.

Definition exp (a : number) : number :=
  match a with
  | Finite x => Finite (Math.exp x)
  | PosInfinity => PosInfinity
  | NegInfinity => Finite 0
  | NaN => NaN
  end.

Definition is_integer (e : R) : bool :=
  if Req_dec_T (IZR (Zfloor e)) e then true else false.

Definition is_odd_integer (e : R) : bool :=
  is_integer e && Z.odd (Zfloor e).

(** [Math.pow(base, exponent)] for a finite exponent: 1 for the exponent
    0 whatever the base (NaN included), NaN for the base NaN and for a
    negative base with an exponent that is not an integer. *)
Definition pow (base : number) (exponent : R) : number :=
  if Req_dec_T exponent 0 then Finite 1
  else
    match base with
    | NaN => NaN
    | PosInfinity => if Rlt_dec 0 exponent then PosInfinity else Finite 0
    | NegInfinity =>
        if Rlt_dec 0 exponent
        then (if is_odd_integer exponent then NegInfinity else PosInfinity)
        else Finite 0
    | Finite b =>
        if Rlt_dec 0 b then Finite (Rpower b exponent)
        else if Req_dec_T b 0
        then (if Rlt_dec 0 exponent then Finite 0 else PosInfinity)
        else if is_integer exponent
        then Finite (if Z.odd (Zfloor exponent)
                     then - Rpower (- b) exponent
                     else Rpower (- b) exponent)
        else NaN
    end.

(** The relational operators: every comparison with NaN is false. *)
Definition ltb (a b : number) : bool :=
  match a, b with
  | NaN, _ | _, NaN => false
  | Finite x, Finite y => Js.ltb x y
  | PosInfinity, _ | _, NegInfinity => false
  | NegInfinity, _ | _, PosInfinity => true
  end.

Definition geb (a b : number) : bool :=
  match a, b with
  | NaN, _ | _, NaN => false
  | Finite x, Finite y => Js.geb x y
  | PosInfinity, _ | _, NegInfinity => true
  | NegInfinity, _ | _, PosInfinity => false
  end.

Definition leb (a b : number) : bool := geb b a.

Declare Scope ext_scope.
Delimit Scope ext_scope with ext.
Bind Scope ext_scope with number.
Notation "- a" := (neg a) : ext_scope.
Notation "a + b" := (add a b) : ext_scope.
Notation "a - b" := (sub a b) : ext_scope.
Notation "a * b" := (mul a b) : ext_scope.
Notation "a / b" := (div a b) : ext_scope.
Notation "a <? b" := (ltb a b) : ext_scope.
Notation "a >=? b" := (geb a b) : ext_scope.

(** The tuple [[height, nx, ny, nz]], and a height function. *)
Definition Sample : Type := (number * number * number * number)%type.

Definition Field : Type := R -> R -> Sample.

Definition sample_height (s : Sample) : number :=
  let '(y, _, _, _) := s in y.

Definition sample_normal (s : Sample) : number * number * number :=
  let '(_, nx, ny, nz) := s in (nx, ny, nz).

(** A sample, and a vector, of finite numbers. *)
Definition of_sample (s : HeightSample) : Sample :=
  let '(y, nx, ny, nz) := s in (Finite y, Finite nx, Finite ny, Finite nz).

Definition of_vector (v : THREE.Vector3) : number * number * number :=
  let '(x, y, z) := v in (Finite x, Finite y, Finite z).

(** [createFlatTerrain()] *)
Definition createFlatTerrain : Field :=
  fun _ _ => (Finite 0, Finite 0, Finite 1, Finite 0).

Section Hill.

Variable c : RequiredHillConfig.

Let cosRot := Math.cos (- r_rotation c).
Let sinRot := Math.sin (- r_rotation c).
Let cosRidge := Math.cos (- r_ridgeDirection c).
Let sinRidge := Math.sin (- r_ridgeDirection c).

(** [rdx] and [rdz]: the ground point translated to the centre and
    rotated. *)
Definition hill_rdx (x z : R) : R :=
  let dx := x - r_centerX c in
  let dz := z - r_centerZ c in
  dx * cosRot - dz * sinRot.

Definition hill_rdz (x z : R) : R :=
  let dx := x - r_centerX c in
  let dz := z - r_centerZ c in
  dx * sinRot + dz * cosRot.

(** [adx = rdx / asymmetry[0]] and [adz = rdz / asymmetry[1]] *)
Definition hill_adx (x z : R) : number :=
  (Finite (hill_rdx x z) / Finite (fst (r_asymmetry c)))%ext.

Definition hill_adz (x z : R) : number :=
  (Finite (hill_rdz x z) / Finite (snd (r_asymmetry c)))%ext.

(** [dist = Math.sqrt(adx * adx + adz * adz)] *)
Definition hill_dist (x z : R) : number :=
  let adx := hill_adx x z in
  let adz := hill_adz x z in
  sqrt (adx * adx + adz * adz).

Definition plateau_remap (t : number) : number :=
  if (r_plateau c >? 0) && (t <? Finite (r_plateau c))%ext then Finite 0
  else if r_plateau c >? 0
       then ((t - Finite (r_plateau c)) / (Finite 1 - Finite (r_plateau c)))%ext
       else t.

Definition ridge_factor (adx adz : number) : number :=
  if r_ridge c >? 0 then
    let rx := (adx * Finite cosRidge - adz * Finite sinRidge)%ext in
    (Finite 1 - Finite (r_ridge c) * (Finite 1 - exp (- abs rx * Finite 2)))%ext
  else Finite 1.

Definition getHeight (px pz : R) : number :=
  let ladx := hill_adx px pz in
  let ladz := hill_adz px pz in
  let ldist := sqrt (ladx * ladx + ladz * ladz) in
  if (ldist >=? Finite (r_radius c))%ext then Finite 0
  else
    let lt := plateau_remap (ldist / Finite (r_radius c)) in
    let lridgeFactor := ridge_factor ladx ladz in
    (Finite (r_height c) * pow (Finite 1 - lt) (r_roundness c) * lridgeFactor)%ext.

(** The function returned by [createHillTerrain]. *)
Definition hillTerrain (x z : R) : Sample :=
  let adx := hill_adx x z in
  let adz := hill_adz x z in
  let dist := sqrt (adx * adx + adz * adz) in
  let effectiveRadius := r_radius c + r_skirt c in
  if (dist >=? Finite effectiveRadius)%ext
  then (Finite 0, Finite 0, Finite 1, Finite 0)
  else if (dist >=? Finite (r_radius c))%ext
  then (Finite 0, Finite 0, Finite 1, Finite 0)
  else
    let t := plateau_remap (dist / Finite (r_radius c)) in
    let ridgeFactor := ridge_factor adx adz in
    let factor := (pow (Finite 1 - t) (r_roundness c) * ridgeFactor)%ext in
    let y := (Finite (r_height c) * factor)%ext in
    let eps := 0.01 in
    let dhdx :=
      ((getHeight (x + eps) z - getHeight (x - eps) z) / Finite (2 * eps))%ext in
    let dhdz :=
      ((getHeight x (z + eps) - getHeight x (z - eps)) / Finite (2 * eps))%ext in
    let len := sqrt (dhdx * dhdx + Finite 1 + dhdz * dhdz) in
    (y, (- dhdx / len)%ext, (Finite 1 / len)%ext, (- dhdz / len)%ext).

End Hill.

(** [createHillTerrain(config)] *)
Definition createHillTerrain (config : HillConfig) : Field :=
  hillTerrain (spread DEFAULT_HILL config).

(** The loop of [combineTerrains] and the function it returns. *)
Fixpoint combine_loop (terrains : list Field) (x z : R)
    (acc : number * number * number) : number * number * number :=
  match terrains with
  | [] => acc
  | terrain :: rest =>
      let '(totalY, totalNx, totalNz) := acc in
      let '(y, nx, _, nz) := terrain x z in
      combine_loop rest x z
        ((totalY + y)%ext, (totalNx + nx)%ext, (totalNz + nz)%ext)
  end.

Definition combineTerrains (terrains : list Field) : Field :=
  fun x z =>
    let '(totalY, totalNx, totalNz) :=
      combine_loop terrains x z (Finite 0, Finite 0, Finite 0) in
    let len := sqrt (totalNx * totalNx + Finite 1 + totalNz * totalNz) in
    (totalY, (totalNx / len)%ext, (Finite 1 / len)%ext, (totalNz / len)%ext).

(** The three variants of height field. *)
Fixpoint heightFunctionOf (f : HeightField) : Field :=
  match f with
  | Flat => createFlatTerrain
  | Hill config => createHillTerrain config
  | Composite children => combineTerrains (map heightFunctionOf children)
  end.

End Ext.

(** The asymmetry of a hill has no zero component; for a field, this holds
    of every hill in it. *)
Definition nonzero_asymmetry (c : RequiredHillConfig) : Prop :=
  fst (r_asymmetry c) <> 0 /\ snd (r_asymmetry c) <> 0.

Fixpoint all_asymmetry_nonzero (f : HeightField) : Prop :=
  match f with
  | Flat => True
  | Hill config => nonzero_asymmetry (spread DEFAULT_HILL config)
  | Composite children =>
      fold_right (fun child rest => all_asymmetry_nonzero child /\ rest) True children
  end.

(** ** The terrain mesh ([terrainGeometry] and the mesh that shows it) *)

Module Plane.

(** The vertex rows of [new THREE.PlaneGeometry(width, height,
    widthSegments, heightSegments)]: row [iy], column [ix] is
    [(ix * segment_width - width_half, - (iy * segment_height -
    height_half), 0)], rows first.  The coordinates are those of three.js
    for at least one segment in each direction; with no segment the
    library divides by zero, and the single vertex it returns has NaN for
    its x and y. *)
Definition vertex (width height : R) (gridX gridY : nat) (iy ix : nat)
  : THREE.Vector3 :=
  let width_half := width / 2 in
  let height_half := height / 2 in
  let segment_width := width / INR gridX in
  let segment_height := height / INR gridY in
  let y := INR iy * segment_height - height_half in
  let x := INR ix * segment_width - width_half in
  (x, - y, 0).

Definition vertices (width height : R) (gridX gridY : nat)
  : list THREE.Vector3 :=
  flat_map
    (fun iy => map (vertex width height gridX gridY iy) (seq 0 (gridX + 1)))
    (seq 0 (gridY + 1)).

(** The triangles [(a, b, d)] and [(b, c, d)] of each grid cell. *)
Definition indices (gridX gridY : nat) : list nat :=
  flat_map
    (fun iy =>
       flat_map
         (fun ix =>
            let gridX1 := (gridX + 1)%nat in
            let a := (ix + gridX1 * iy)%nat in
            let b := (ix + gridX1 * (iy + 1))%nat in
            let c := ((ix + 1) + gridX1 * (iy + 1))%nat in
            let d := ((ix + 1) + gridX1 * iy)%nat in
            [a; b; d; b; c; d])
         (seq 0 gridX))
    (seq 0 gridY).

End Plane.

(** A [BufferGeometry]: the attributes the component touches. *)
Record BufferGeometry : Type := mkBufferGeometry {
  geo_position : list THREE.Vector3;
  geo_index : list nat;
  geo_normal : list THREE.Vector3
}.

Definition PlaneGeometry (width height : R) (widthSegments heightSegments : nat)
  : BufferGeometry :=
  let vs := Plane.vertices width height widthSegments heightSegments in
  {| geo_position := vs;
     geo_index := Plane.indices widthSegments heightSegments;
     geo_normal := map (fun _ => (0, 0, 1)) vs |}.

(** The loop over the vertices: [vertices[i * 3 + 2] = height] where
    [height] is sampled at [(vertices[i * 3], vertices[i * 3 + 1])]. *)
Fixpoint displace (heightFunction : HeightFunction)
    (vertices : list THREE.Vector3) : list THREE.Vector3 :=
  match vertices with
  | [] => []
  | (x, z, _) :: rest =>
      let '(height, _, _, _) := heightFunction x z in
      (x, z, height) :: displace heightFunction rest
  end.

(** Rotation of an object about its X axis, the matrix three.js builds for
    [rotation = [angle, 0, 0]]: [(x, y, z)] goes to
    [(x, cos angle * y - sin angle * z, sin angle * y + cos angle * z)]. *)
Definition rotateX (angle : R) (v : THREE.Vector3) : THREE.Vector3 :=
  let '(x, y, z) := v in
  let a := Math.cos angle in
  let b := Math.sin angle in
  (x, a * y - b * z, b * y + a * z).

Section TerrainMesh.

(** [BufferGeometry.computeVertexNormals]: the normals it derives from the
    positions and the index of the geometry. *)
Variable computeVertexNormals : BufferGeometry -> list THREE.Vector3.

Variable size : R * R.
Variable terrainSegments : nat.
Variable heightFunction : HeightFunction.

(** [terrainGeometry] *)
Definition terrainGeometry : BufferGeometry :=
  let geo := PlaneGeometry (fst size) (snd size) terrainSegments terrainSegments in
  let geo :=
    {| geo_position := displace heightFunction (geo_position geo);
       geo_index := geo_index geo;
       geo_normal := geo_normal geo |} in
  {| geo_position := geo_position geo;
     geo_index := geo_index geo;
     geo_normal := computeVertexNormals geo |}.

(** The vertices of the terrain as the scene shows them, in the frame of
    the group that also holds the blades:
    [<mesh rotation={[-Math.PI / 2, 0, 0]} geometry={terrainGeometry}>]. *)
Definition terrainMeshVertices : list THREE.Vector3 :=
  map (rotateX (- Math.PI / 2)) (geo_position terrainGeometry).

End TerrainMesh.

(** ** The noise of the vertex shader

    GLSL vectors as tuples, with the built-in functions the shader's
    [snoise] uses, applied component by component. *)

Module Glsl.

Definition vec3 : Type := (R * R * R)%type.
Definition vec4 : Type := (R * R * R * R)%type.

Definition floor (a : R) : R := IZR (Zfloor a).
(** [step(edge, a)] *)
Definition step (edge a : R) : R := if a <? edge then 0 else 1.
Definition min (a b : R) : R := if b <? a then b else a.
Definition max (a b : R) : R := if a <? b then b else a.

Definition map3 (f : R -> R) (v : vec3) : vec3 :=
  let '(a, b, c) := v in (f a, f b, f c).
Definition map4 (f : R -> R) (v : vec4) : vec4 :=
  let '(a, b, c, d) := v in (f a, f b, f c, f d).
Definition zip3 (f : R -> R -> R) (v w : vec3) : vec3 :=
  let '(a, b, c) := v in let '(a', b', c') := w in (f a a', f b b', f c c').
Definition zip4 (f : R -> R -> R) (v w : vec4) : vec4 :=
  let '(a, b, c, d) := v in
  let '(a', b', c', d') := w in (f a a', f b b', f c c', f d d').

Definition dot3 (v w : vec3) : R :=
  let '(a, b, c) := v in let '(a', b', c') := w in a * a' + b * b' + c * c'.
Definition dot4 (v w : vec4) : R :=
  let '(a, b, c, d) := v in
  let '(a', b', c', d') := w in a * a' + b * b' + c * c' + d * d'.

(** [x - floor(x * (1.0 / 289.0)) * 289.0] *)
Definition mod289 (a : R) : R := a - floor (a * (1.0 / 289.0)) * 289.0.

(** [mod289(((x*34.0)+1.0)*x)] *)
Definition permute (v : vec4) : vec4 :=
  map4 (fun a => mod289 (((a * 34.0) + 1.0) * a)) v.

(** [1.79284291400159 - 0.85373472095314 * r] *)
Definition taylorInvSqrt (v : vec4) : vec4 :=
  map4 (fun r => 1.79284291400159 - 0.85373472095314 * r) v.

Definition snoise (v : vec3) : R :=
  let C_x := 1.0 / 6.0 in
  let C_y := 1.0 / 3.0 in
  let '(D_x, D_y, D_z, D_w) := ((0.0, 0.5, 1.0, 2.0) : vec4) in
  (* vec3 i = floor(v + dot(v, C.yyy)); *)
  let i := map3 (fun a => floor (a + dot3 v (C_y, C_y, C_y))) v in
  (* vec3 x0 = v - i + dot(i, C.xxx); *)
  let x0 := map3 (fun a => a + dot3 i (C_x, C_x, C_x)) (zip3 Rminus v i) in
  let '(x0_x, x0_y, x0_z) := x0 in
  (* vec3 g = step(x0.yzx, x0.xyz); *)
  let g := zip3 step (x0_y, x0_z, x0_x) (x0_x, x0_y, x0_z) in
  let '(g_x, g_y, g_z) := g in
  (* vec3 l = 1.0 - g; *)
  let '(l_x, l_y, l_z) := map3 (fun a => 1.0 - a) g in
  (* vec3 i1 = min(g.xyz, l.zxy); vec3 i2 = max(g.xyz, l.zxy); *)
  let i1 := zip3 min (g_x, g_y, g_z) (l_z, l_x, l_y) in
  let i2 := zip3 max (g_x, g_y, g_z) (l_z, l_x, l_y) in
  let '(i1_x, i1_y, i1_z) := i1 in
  let '(i2_x, i2_y, i2_z) := i2 in
  (* vec3 x1 = x0 - i1 + C.xxx; x2 = x0 - i2 + C.yyy; x3 = x0 - D.yyy; *)
  let x1 := map3 (fun a => a + C_x) (zip3 Rminus x0 i1) in
  let x2 := map3 (fun a => a + C_y) (zip3 Rminus x0 i2) in
  let x3 := map3 (fun a => a - D_y) x0 in
  (* i = mod289(i); *)
  let '(i_x, i_y, i_z) := map3 mod289 i in
  (* vec4 p = permute(permute(permute(
       i.z + vec4(0.0, i1.z, i2.z, 1.0))
       + i.y + vec4(0.0, i1.y, i2.y, 1.0))
       + i.x + vec4(0.0, i1.x, i2.x, 1.0)); *)
  let p := permute (map4 (fun a => i_z + a) (0.0, i1_z, i2_z, 1.0)) in
  let p := permute (zip4 Rplus (map4 (fun a => a + i_y) p) (0.0, i1_y, i2_y, 1.0)) in
  let p := permute (zip4 Rplus (map4 (fun a => a + i_x) p) (0.0, i1_x, i2_x, 1.0)) in
  let n_ := 0.142857142857 in
  (* vec3 ns = n_ * D.wyz - D.xzx; *)
  let '(ns_x, ns_y, ns_z) :=
    zip3 Rminus (map3 (fun a => n_ * a) (D_w, D_y, D_z)) (D_x, D_z, D_x) in
  (* vec4 j = p - 49.0 * floor(p * ns.z * ns.z); *)
  let j := map4 (fun a => a - 49.0 * floor (a * ns_z * ns_z)) p in
  (* vec4 x_ = floor(j * ns.z); vec4 y_ = floor(j - 7.0 * x_); *)
  let x_ := map4 (fun a => floor (a * ns_z)) j in
  let y_ := zip4 (fun a b => floor (a - 7.0 * b)) j x_ in
  (* vec4 x = x_ *ns.x + ns.yyyy; vec4 y = y_ *ns.x + ns.yyyy; *)
  let x := map4 (fun a => a * ns_x + ns_y) x_ in
  let y := map4 (fun a => a * ns_x + ns_y) y_ in
  (* vec4 h = 1.0 - abs(x) - abs(y); *)
  let h := zip4 (fun a b => 1.0 - Rabs a - Rabs b) x y in
  let '(x_x, x_y, x_z, x_w) := x in
  let '(y_x, y_y, y_z, y_w) := y in
  let '(h_x, h_y, h_z, h_w) := h in
  (* vec4 b0 = vec4(x.xy, y.xy); vec4 b1 = vec4(x.zw, y.zw); *)
  let '(b0_x, b0_y, b0_z, b0_w) := ((x_x, x_y, y_x, y_y) : vec4) in
  let '(b1_x, b1_y, b1_z, b1_w) := ((x_z, x_w, y_z, y_w) : vec4) in
  (* vec4 s0 = floor(b0)*2.0 + 1.0; vec4 s1 = floor(b1)*2.0 + 1.0; *)
  let '(s0_x, s0_y, s0_z, s0_w) :=
    map4 (fun a => floor a * 2.0 + 1.0) (b0_x, b0_y, b0_z, b0_w) in
  let '(s1_x, s1_y, s1_z, s1_w) :=
    map4 (fun a => floor a * 2.0 + 1.0) (b1_x, b1_y, b1_z, b1_w) in
  (* vec4 sh = -step(h, vec4(0.0)); *)
  let '(sh_x, sh_y, sh_z, sh_w) := map4 (fun a => - step a 0.0) h in
  (* vec4 a0 = b0.xzyw + s0.xzyw*sh.xxyy; vec4 a1 = b1.xzyw + s1.xzyw*sh.zzww; *)
  let '(a0_x, a0_y, a0_z, a0_w) :=
    ((b0_x + s0_x * sh_x, b0_z + s0_z * sh_x,
      b0_y + s0_y * sh_y, b0_w + s0_w * sh_y) : vec4) in
  let '(a1_x, a1_y, a1_z, a1_w) :=
    ((b1_x + s1_x * sh_z, b1_z + s1_z * sh_z,
      b1_y + s1_y * sh_w, b1_w + s1_w * sh_w) : vec4) in
  let p0 : vec3 := (a0_x, a0_y, h_x) in
  let p1 : vec3 := (a0_z, a0_w, h_y) in
  let p2 : vec3 := (a1_x, a1_y, h_z) in
  let p3 : vec3 := (a1_z, a1_w, h_w) in
  (* vec4 norm = taylorInvSqrt(vec4(dot(p0,p0), dot(p1,p1), dot(p2,p2), dot(p3,p3))); *)
  let '(norm_x, norm_y, norm_z, norm_w) :=
    taylorInvSqrt (dot3 p0 p0, dot3 p1 p1, dot3 p2 p2, dot3 p3 p3) in
  let p0 := map3 (fun a => a * norm_x) p0 in
  let p1 := map3 (fun a => a * norm_y) p1 in
  let p2 := map3 (fun a => a * norm_z) p2 in
  let p3 := map3 (fun a => a * norm_w) p3 in
  (* vec4 m = max(0.6 - vec4(dot(x0,x0), dot(x1,x1), dot(x2,x2), dot(x3,x3)), 0.0); *)
  let m :=
    map4 (fun a => max (0.6 - a) 0.0)
         (dot3 x0 x0, dot3 x1 x1, dot3 x2 x2, dot3 x3 x3) in
  let m := zip4 Rmult m m in
  42.0 * dot4 (zip4 Rmult m m)
              (dot3 p0 x0, dot3 p1 x1, dot3 p2 x2, dot3 p3 x3).

End Glsl.


(** ** The wind: uniforms, the per-frame update and the vertex shader *)

(** [WindConfig]: every field is optional. *)
Record WindConfig : Type := mkWindConfig {
  strength : option R;
  speed : option R;
  direction : option R;
  turbulence : option R;
  gustFrequency : option R;
  gustStrength : option R
}.

Record RequiredWindConfig : Type := mkRequiredWindConfig {
  r_strength : R;
  r_speed : R;
  r_direction : R;
  r_turbulence : R;
  r_gustFrequency : R;
  r_gustStrength : R
}.

Definition DEFAULT_WIND : RequiredWindConfig :=
  {| r_strength := 0.3;
     r_speed := 1;
     r_direction := 0;
     r_turbulence := 0.3;
     r_gustFrequency := 0.5;
     r_gustStrength := 0.5 |}.

(** [{ ...DEFAULT_WIND, ...wind }] *)
Definition windConfigOf (wind : WindConfig) : RequiredWindConfig :=
  {| r_strength := override (r_strength DEFAULT_WIND) (strength wind);
     r_speed := override (r_speed DEFAULT_WIND) (speed wind);
     r_direction := override (r_direction DEFAULT_WIND) (direction wind);
     r_turbulence := override (r_turbulence DEFAULT_WIND) (turbulence wind);
     r_gustFrequency := override (r_gustFrequency DEFAULT_WIND) (gustFrequency wind);
     r_gustStrength := override (r_gustStrength DEFAULT_WIND) (gustStrength wind) |}.

(** [new THREE.Vector2(Math.cos(direction), Math.sin(direction))] *)
Definition windDirectionOf (windConfig : RequiredWindConfig) : THREE.Vector2 :=
  (Math.cos (r_direction windConfig), Math.sin (r_direction windConfig)).

(** The wind uniforms of the shader material. *)
Record Uniforms : Type := mkUniforms {
  uTime : R;
  uWindStrength : R;
  uWindSpeed : R;
  uWindDirection : THREE.Vector2;
  uTurbulence : R;
  uGustFrequency : R;
  uGustStrength : R
}.

(** The uniforms of the material built by [useMemo]. *)
Definition material (windConfig : RequiredWindConfig)
    (windDirection : THREE.Vector2) : Uniforms :=
  {| uTime := 0;
     uWindStrength := r_strength windConfig;
     uWindSpeed := r_speed windConfig;
     uWindDirection := windDirection;
     uTurbulence := r_turbulence windConfig;
     uGustFrequency := r_gustFrequency windConfig;
     uGustStrength := r_gustStrength windConfig |}.

(** The part of the renderer's state the frame callback reads:
    [state.clock.elapsedTime]. *)
Record RootState : Type := mkRootState {
  clock_elapsedTime : R
}.

(** [useFrame((state) => { material.uniforms.uTime.value =
    state.clock.elapsedTime })] *)
Definition useFrame (state : RootState) (m : Uniforms) : Uniforms :=
  {| uTime := clock_elapsedTime state;
     uWindStrength := uWindStrength m;
     uWindSpeed := uWindSpeed m;
     uWindDirection := uWindDirection m;
     uTurbulence := uTurbulence m;
     uGustFrequency := uGustFrequency m;
     uGustStrength := uGustStrength m |}.

Section VertexShader.

(** The noise function; the shader's is [Glsl.snoise]. *)
Variable snoise : Glsl.vec3 -> R.

Variable u : Uniforms.
(** [instanceMatrix], sixteen numbers in column-major order. *)
Variable instanceMatrix : list R.

Let m (k : nat) : R := nth k instanceMatrix 0.

(** [(instanceMatrix * vec4(position, 1.0)).xz] *)
Definition worldPos_xz (position : THREE.Vector3) : R * R :=
  let '(x, y, z) := position in
  (m 0 * x + m 4 * y + m 8 * z + m 12 * 1,
   m 2 * x + m 6 * y + m 10 * z + m 14 * 1).

Definition dot2 (a b : R * R) : R := fst a * fst b + snd a * snd b.

(** The displaced vertex [pos] of [main()]. *)
Definition displaced (position : THREE.Vector3) : THREE.Vector3 :=
  let '(position_x, position_y, position_z) := position in
  let worldPos := worldPos_xz position in
  let windTime := uTime u * uWindSpeed u in
  let windPhase := dot2 worldPos (uWindDirection u) * 0.3 in
  let baseWind := Math.sin (windTime * 2.0 + windPhase) in
  let turbulence :=
    snoise (fst worldPos * 0.1, snd worldPos * 0.1, windTime * 0.5)
    * uTurbulence u in
  let gust := Math.sin (windTime * uGustFrequency u) * 0.5 + 0.5 in
  let gust := Math.pow gust 4.0 * uGustStrength u in
  let windEffect :=
    (baseWind + turbulence + gust) * uWindStrength u * position_y * position_y in
  let pos_x := position_x + windEffect * fst (uWindDirection u) in
  let pos_z := position_z + windEffect * snd (uWindDirection u) in
  let sway :=
    snoise (fst worldPos * 0.2, snd worldPos * 0.2, windTime)
    * uWindStrength u * position_y * 0.3 in
  let pos_x := pos_x + sway * snd (uWindDirection u) in
  let pos_z := pos_z - sway * fst (uWindDirection u) in
  (pos_x, position_y, pos_z).

(** The horizontal displacement the wind gives to a vertex. *)
Definition windDisplacement (position : THREE.Vector3) : R * R :=
  let '(position_x, _, position_z) := position in
  let '(pos_x, _, pos_z) := displaced position in
  (pos_x - position_x, pos_z - position_z).

End VertexShader.

(** [pos] and the displacement as the vertex shader computes them. *)
Definition vertexShader_pos : Uniforms -> list R -> THREE.Vector3 -> THREE.Vector3 :=
  displaced Glsl.snoise.

Definition vertexShader_displacement : Uniforms -> list R -> THREE.Vector3 -> R * R :=
  windDisplacement Glsl.snoise.

(** ** The component in the render loop

    The renderer owns a clock that starts with the canvas; every frame it
    advances the clock and then runs the frame callbacks of the mounted
    components.  Mounting the grass builds its material; unmounting drops
    it. *)

Record Scene : Type := mkScene {
  clock : RootState;
  grass : option Uniforms
}.

Inductive event : Type :=
| Mount (wind : WindConfig)
| Unmount
| Frame (delta : R).

Definition step (s : Scene) (e : event) : Scene :=
  match e with
  | Mount wind =>
      let windConfig := windConfigOf wind in
      {| clock := clock s;
         grass := Some (material windConfig (windDirectionOf windConfig)) |}
  | Unmount => {| clock := clock s; grass := None |}
  | Frame delta =>
      let state := mkRootState (clock_elapsedTime (clock s) + delta) in
      {| clock := state; grass := option_map (useFrame state) (grass s) |}
  end.

Definition run (s : Scene) (events : list event) : Scene :=
  fold_left step events s.

(** The canvas as created: clock at zero, nothing mounted. *)
Definition initialScene : Scene :=
  {| clock := mkRootState 0; grass := None |}.

(** ** Configurations used in the examples *)

(** [createHillTerrain({ radius: 5, skirt: 2 })] *)
Definition skirtedHill : HillConfig :=
  {| centerX := None; centerZ := None; radius := Some 5; height := None;
     roundness := None; plateau := None; skirt := Some 2; asymmetry := None;
     rotation := None; ridge := None; ridgeDirection := None |}.


(** The sum of a finite sequence of numbers. *)
Definition total (l : list R) : R := fold_right Rplus 0 l.

(** ** Notions used to state the properties *)

(** A hill that is neither rotated, stretched, flattened nor ridged. *)
Record plain (c : RequiredHillConfig) : Prop := mkPlain {
  plain_rotation : r_rotation c = 0;
  plain_asymmetry : r_asymmetry c = (1, 1);
  plain_plateau : r_plateau c <= 0;
  plain_ridge : r_ridge c <= 0
}.


(** A transform lies in the area and has its blade height in range. *)
Definition in_bounds (size bladeHeight : R * R) (t : Transform) : Prop :=
  let '(x, _, z) := position3 t in
  let '(_, scaleY, _) := scaleVec t in
  (- fst size / 2 <= x <= fst size / 2)
  /\ (- snd size / 2 <= z <= snd size / 2)
  /\ (fst bladeHeight <= scaleY <= snd bladeHeight).

(** The test the generator applies to the normalised normal. *)
Definition degenerate (normal : THREE.Vector3) : Prop :=
  THREE.lengthSq (THREE.normalize normal) < 0.001.

(** A supply of random numbers for concrete runs: 1/2, 1/3, 1/4, ... *)
Definition harmonic (k : nat) : R := 1 / (INR k + 2).

(** A custom height function whose normal has length zero everywhere. *)
Definition zeroNormalTerrain : HeightFunction :=
  fun _ _ => (0, 0, 0, 0).

(** A custom height function whose normal has length 0.01 everywhere. *)
Definition shortNormalTerrain : HeightFunction :=
  fun _ _ => (0, 0.01, 0, 0).

(** [Number.EPSILON], the threshold of older three.js releases in
    [setFromUnitVectors]. *)
Definition Number_EPSILON : R := / 2 ^ 52.

(** The height of a hill without ridge as a function of the scaled radial
    distance alone. *)
Definition hill_profile (c : RequiredHillConfig) (dist : R) : R :=
  if dist >=? r_radius c + r_skirt c then 0
  else if dist >=? r_radius c then 0
  else r_height c
       * Math.pow (1 - plateau_remap c (dist / r_radius c)) (r_roundness c).

(** [createHillTerrain({ radius: 5, height: 3, roundness: 2 })] *)
Definition scenarioHill : HillConfig :=
  {| centerX := None; centerZ := None; radius := Some 5; height := Some 3;
     roundness := Some 2; plateau := None; skirt := None; asymmetry := None;
     rotation := None; ridge := None; ridgeDirection := None |}.

(** [createHillTerrain({ height: -3 })]: a hollow. *)
Definition hollow : HillConfig :=
  {| centerX := None; centerZ := None; radius := None; height := Some (-3);
     roundness := None; plateau := None; skirt := None; asymmetry := None;
     rotation := None; ridge := None; ridgeDirection := None |}.

(** [createHillTerrain({ centerZ: 5, radius: 3 })]: a hill off the x axis. *)
Definition offCentreHill : HillConfig :=
  {| centerX := None; centerZ := Some 5; radius := Some 3; height := None;
     roundness := None; plateau := None; skirt := None; asymmetry := None;
     rotation := None; ridge := None; ridgeDirection := None |}.

(** A supply whose first two numbers place a blade at [(0, -5)] in an area
    of 20 by 20. *)
Definition drawsFor_0_m5 (k : nat) : R :=
  match k with
  | O => 0.5
  | S O => 0.25
  | _ => 0
  end.

(** The time the renderer's clock has advanced over a run of events. *)
Fixpoint elapsed (events : list event) : R :=
  match events with
  | [] => 0
  | Frame delta :: rest => delta + elapsed rest
  | _ :: rest => elapsed rest
  end.

(** [wind = {}] *)
Definition defaultWind : WindConfig :=
  mkWindConfig None None None None None None.

(** ** Further notions used to state properties *)

(** [{ ...config, skirt: s }] *)
Definition withSkirt (config : HillConfig) (s : R) : HillConfig :=
  {| centerX := centerX config; centerZ := centerZ config;
     radius := radius config; height := height config;
     roundness := roundness config; plateau := plateau config;
     skirt := Some s; asymmetry := asymmetry config;
     rotation := rotation config; ridge := ridge config;
     ridgeDirection := ridgeDirection config |}.

(** [createHillTerrain({ plateau: 0.5, asymmetry: [2, 1], rotation: 1,
    ridge: 0.5, ridgeDirection: 2, skirt: 1 })]: every shape option in use. *)
Definition shapedHill : HillConfig :=
  {| centerX := Some 1; centerZ := Some 2; radius := Some 4; height := Some 3;
     roundness := Some 1.5; plateau := Some 0.5; skirt := Some 1;
     asymmetry := Some (2, 1); rotation := Some 1; ridge := Some 0.5;
     ridgeDirection := Some 2 |}.

(** [createHillTerrain({ asymmetry: [0, 1] })]: no extent along the hill's
    own x axis. *)
Definition zeroAsymmetryHill : HillConfig :=
  {| centerX := None; centerZ := None; radius := None; height := None;
     roundness := None; plateau := None; skirt := None;
     asymmetry := Some (0, 1); rotation := None; ridge := None;
     ridgeDirection := None |}.

(** [combineTerrains(createHillTerrain(shapedHill), createFlatTerrain(),
    createHillTerrain(scenarioHill))] *)
Definition sampleField : HeightField :=
  Composite [Hill shapedHill; Flat; Hill scenarioHill].

(** ** The blade geometry and the fragment shader *)

(** The [position] attribute of [bladeGeometry]: a triangle with its base
    of width [bladeWidth] on the ground and its tip at height 1. *)
Definition bladeGeometry_position (bladeWidth : R) : list THREE.Vector3 :=
  [ (- bladeWidth / 2, 0, 0); (bladeWidth / 2, 0, 0); (0, 1, 0) ].

(** Its [uv] and [normal] attributes. *)
Definition bladeGeometry_uv : list (R * R) := [ (0, 0); (1, 0); (0.5, 1) ].
Definition bladeGeometry_normal : list THREE.Vector3 :=
  [ (0, 0, 1); (0, 0, 1); (0, 0, 1) ].

(** GLSL [normalize] and [mix] on [vec3]. *)
Definition glsl_normalize (v : Glsl.vec3) : Glsl.vec3 :=
  Glsl.map3 (fun a => a / Math.sqrt (Glsl.dot3 v v)) v.

Definition glsl_mix (a b : Glsl.vec3) (t : R) : Glsl.vec3 :=
  Glsl.zip3 (fun p q => p * (1 - t) + q * t) a b.

(** [0.6 + diff * 0.4] with
    [diff = max(dot(normalize(vNormal), lightDir), 0.0)] and
    [lightDir = normalize(vec3(0.5, 1.0, 0.3))]. *)
Definition lighting (vNormal : Glsl.vec3) : R :=
  let lightDir := glsl_normalize (0.5, 1.0, 0.3) in
  let diff := Glsl.max (Glsl.dot3 (glsl_normalize vNormal) lightDir) 0.0 in
  0.6 + diff * 0.4.

(** The colour written by the fragment shader ([gl_FragColor.rgb]). *)
Definition fragmentShader (uBaseColor uTipColor : Glsl.vec3) (vHeight : R)
    (vNormal : Glsl.vec3) : Glsl.vec3 :=
  let color := glsl_mix uBaseColor uTipColor vHeight in
  Glsl.map3 (fun c => c * lighting vNormal) color.

(** Wind uniforms with the direction of a configuration at some time. *)
Definition uniformsAt (wind : WindConfig) (time : R) : Uniforms :=
  useFrame (mkRootState time)
    (material (windConfigOf wind) (windDirectionOf (windConfigOf wind))).

(** [wind = { strength: 0 }] *)
Definition noWind : WindConfig :=
  mkWindConfig (Some 0) None None None None None.

(** [wind = { turbulence: 0 }] *)
Definition steadyWind : WindConfig :=
  mkWindConfig None None None (Some 0) None None.

(** ** The clouds ([InstancedClouds]) *)

(** [CloudInstanceData] *)
Record CloudInstanceData : Type := mkCloud {
  cloud_position : R * R * R;
  cloud_size : R;
  textureIndex : Z;
  driftSpeed : R;
  driftDirection : R;
  initialX : R
}.

Definition MIN_SIZE : R := 20.
Definition MAX_SIZE : R := 40.

(** [Math.floor], as an integer. *)
Definition Math_floor (a : R) : Z := Zfloor a.

Section Clouds.

(** [random k] is the result of the [k]-th call of [Math.random()]. *)
Variable random : nat -> R.
(** [cloudTextures.length] *)
Variable cloudTextures_length : nat.

(** The body of the loop of [instanceData]: one cloud from seven draws. *)
Definition cloud (calls : nat) : CloudInstanceData * nat :=
  let '(r, calls) := Math_random random calls in
  let x := (r - 0.5) * 120 in
  let '(r, calls) := Math_random random calls in
  let y := 15 + r * 15 in
  let '(r, calls) := Math_random random calls in
  let z := -10 - r * 50 in
  let '(r, calls) := Math_random random calls in
  let size := MIN_SIZE + r * (MAX_SIZE - MIN_SIZE) in
  let '(r, calls) := Math_random random calls in
  let textureIndex := Math_floor (r * INR cloudTextures_length) in
  let '(r, calls) := Math_random random calls in
  let driftSpeed := 0.1 + r * 0.3 in
  let '(r, calls) := Math_random random calls in
  let driftDirection := r * Math.PI * 2 in
  ({| cloud_position := (x, y, z);
      cloud_size := size;
      textureIndex := textureIndex;
      driftSpeed := driftSpeed;
      driftDirection := driftDirection;
      initialX := x |}, calls).

(** [for (let i = 0; i < count; i++) { ...; data.push(...) }] with
    [remaining] iterations to go and [data] pushed so far. *)
Fixpoint instanceData_loop (remaining calls : nat)
    (data : list CloudInstanceData) : list CloudInstanceData :=
  match remaining with
  | O => data
  | S remaining' =>
      let '(c, calls') := cloud calls in
      instanceData_loop remaining' calls' (data ++ [c])
  end.

(** [instanceData] *)
Definition instanceData (count : Z) : list CloudInstanceData :=
  instanceData_loop (Z.to_nat count) 0 [].

End Clouds.

(** [materials[data.textureIndex]]: [None] stands for [undefined]. *)
Definition material_at {M : Type} (materials : list M) (index : Z) : option M :=
  if (index <? 0)%Z then None else nth_error materials (Z.to_nat index).

(** The x coordinate the frame callback gives a cloud at a clock time:
    [data.initialX + Math.cos(data.driftDirection) * drift] with
    [drift = Math.sin(clock.elapsedTime * data.driftSpeed) * 3]. *)
Definition cloud_x (data : CloudInstanceData) (elapsedTime : R) : R :=
  let drift := Math.sin (elapsedTime * driftSpeed data) * 3 in
  initialX data + Math.cos (driftDirection data) * drift.

(** What the component promises of a generated cloud. *)
Definition cloud_in_bounds (textures : nat) (data : CloudInstanceData) : Prop :=
  let '(x, y, z) := cloud_position data in
  (-60 <= x < 60) /\ (15 <= y < 30) /\ (-60 < z <= -10)
  /\ (MIN_SIZE <= cloud_size data < MAX_SIZE)
  /\ (0 <= textureIndex data < Z.of_nat textures)%Z
  /\ (0.1 <= driftSpeed data < 0.4)
  /\ (0 <= driftDirection data < 2 * Math.PI)
  /\ initialX data = x.

(** ** The clone patch ([useTheatreTextPatch])

    An [Object3D] with what the patch reads: name, transform, visibility,
    children, and the object's own [clone] method when it has one that
    hides the prototype's.  The argument [recursive?: boolean] may be left
    out ([None] for [undefined]).  A clone returns an object or throws;
    [None] as a result stands for a throw (the thrown value is only
    logged). *)

#[local] Unset Elimination Schemes.
Inductive Object3D : Type :=
| mkObject3D
    (name : String.string)
    (position rotation scale : THREE.Vector3)
    (visible : bool)
    (children : list Object3D)
    (ownClone : option (option bool -> option Object3D)).
#[local] Set Elimination Schemes.

Definition obj_name (o : Object3D) : String.string :=
  let '(mkObject3D name _ _ _ _ _ _) := o in name.
Definition obj_position (o : Object3D) : THREE.Vector3 :=
  let '(mkObject3D _ position _ _ _ _ _) := o in position.
Definition obj_rotation (o : Object3D) : THREE.Vector3 :=
  let '(mkObject3D _ _ rotation _ _ _ _) := o in rotation.
Definition obj_scale (o : Object3D) : THREE.Vector3 :=
  let '(mkObject3D _ _ _ scale _ _ _) := o in scale.
Definition obj_visible (o : Object3D) : bool :=
  let '(mkObject3D _ _ _ _ visible _ _) := o in visible.
Definition obj_children (o : Object3D) : list Object3D :=
  let '(mkObject3D _ _ _ _ _ children _) := o in children.
Definition obj_ownClone (o : Object3D)
  : option (option bool -> option Object3D) :=
  let '(mkObject3D _ _ _ _ _ _ ownClone) := o in ownClone.

(** Whether an optional boolean argument is truthy. *)
Definition truthy (b : option bool) : bool :=
  match b with
  | Some true => true
  | _ => false
  end.

Module Names.
Import String.
Local Open Scope string_scope.

(** [(this.name || 'unknown') + '_placeholder']: the empty name is falsy. *)
Definition placeholder_name (name : string) : string :=
  (if String.eqb name "" then "unknown" else name) ++ "_placeholder".

End Names.

Section ClonePatch.

(** [originalClone.call(this, recursive)] *)
Variable originalClone : Object3D -> option bool -> option Object3D.

(** The function installed as [THREE.Object3D.prototype.clone].  In its
    loop [child.clone(true)] is the child's own method when it has one and
    this function otherwise; a child whose clone throws is skipped. *)
Fixpoint patchedClone (this : Object3D) (recursive : option bool)
  : option Object3D :=
  match originalClone this recursive with
  | Some cloned => Some cloned
  | None =>
      let '(mkObject3D name position rotation scale visible children _) := this in
      let cloned_children :=
        if truthy recursive then
          flat_map
            (fun child =>
               let clonedChild :=
                 match obj_ownClone child with
                 | Some clone => clone (Some true)
                 | None => patchedClone child (Some true)
                 end in
               match clonedChild with
               | Some c => [c]
               | None => []
               end)
            children
        else [] in
      Some (mkObject3D (Names.placeholder_name name) position rotation scale
                       visible cloned_children None)
  end.

End ClonePatch.

(** The tree of placeholders of a tree of objects. *)
Fixpoint placeholder_tree (o : Object3D) : Object3D :=
  let '(mkObject3D name position rotation scale visible children _) := o in
  mkObject3D (Names.placeholder_name name) position rotation scale visible
             (map placeholder_tree children) None.

(** No object of the tree has a [clone] method of its own. *)
Fixpoint inherits_clone (o : Object3D) : bool :=
  let '(mkObject3D _ _ _ _ _ children ownClone) := o in
  match ownClone with
  | Some _ => false
  | None => forallb inherits_clone children
  end.

Module Samples.
Import String.
Local Open Scope string_scope.

Definition sampleTree : Object3D :=
  mkObject3D "" (1, 2, 3) (0, 0, 0) (1, 1, 1) true
    [ mkObject3D "a" (0, 1, 0) (0, 0, 0) (2, 2, 2) false [] None;
      mkObject3D "b" (4, 0, 0) (0, 0, 0) (1, 1, 1) true [] None ]
    None.

End Samples.

(** ** The application store ([appStore.ts]) *)

Module Store.

Import String.
Local Open Scope string_scope.

(** The state part of [AppState]. *)
Record AppState : Type := mkAppState {
  currentSection : string;
  isDarkMode : bool;
  sequencePosition : R
}.

(** A partial state, as passed to or returned for zustand's [set]. *)
Record Partial : Type := mkPartial {
  p_currentSection : option string;
  p_isDarkMode : option bool;
  p_sequencePosition : option R
}.

(** zustand's [set]: the partial state computed from the current state is
    merged into it. *)
Definition set (partial : AppState -> Partial) (state : AppState) : AppState :=
  let p := partial state in
  {| currentSection := override (currentSection state) (p_currentSection p);
     isDarkMode := override (isDarkMode state) (p_isDarkMode p);
     sequencePosition := override (sequencePosition state) (p_sequencePosition p) |}.

Definition initialState : AppState :=
  {| currentSection := "section-1"; isDarkMode := true; sequencePosition := 0 |}.

(** [setCurrentSection: (section) => set({ currentSection: section })] *)
Definition setCurrentSection (section : string) : AppState -> AppState :=
  set (fun _ => mkPartial (Some section) None None).

(** [toggleDarkMode: () => set((state) => ({ isDarkMode: !state.isDarkMode }))] *)
Definition toggleDarkMode : AppState -> AppState :=
  set (fun state => mkPartial None (Some (negb (isDarkMode state))) None).

(** [setSequencePosition: (position) => set({ sequencePosition: position })] *)
Definition setSequencePosition (position : R) : AppState -> AppState :=
  set (fun _ => mkPartial None None (Some position)).

Definition selectCurrentSection (state : AppState) : string := currentSection state.
Definition selectIsDarkMode (state : AppState) : bool := isDarkMode state.
Definition selectSequencePosition (state : AppState) : R := sequencePosition state.

(** A call of one of the three actions. *)
Inductive action : Type :=
| SetCurrentSection (section : string)
| ToggleDarkMode
| SetSequencePosition (position : R).

Definition dispatch (state : AppState) (a : action) : AppState :=
  match a with
  | SetCurrentSection section => setCurrentSection section state
  | ToggleDarkMode => toggleDarkMode state
  | SetSequencePosition position => setSequencePosition position state
  end.

Definition run (state : AppState) (actions : list action) : AppState :=
  fold_left dispatch actions state.

(** What a sequence of actions asks for: the number of toggles, and the
    last section and the last position set, if any. *)
Fixpoint toggles (actions : list action) : nat :=
  match actions with
  | [] => 0
  | ToggleDarkMode :: rest => S (toggles rest)
  | _ :: rest => toggles rest
  end.

Fixpoint lastSection (actions : list action) (default : string) : string :=
  match actions with
  | [] => default
  | SetCurrentSection section :: rest => lastSection rest section
  | _ :: rest => lastSection rest default
  end.

Fixpoint lastPosition (actions : list action) (default : R) : R :=
  match actions with
  | [] => default
  | SetSequencePosition position :: rest => lastPosition rest position
  | _ :: rest => lastPosition rest default
  end.

End Store.

(** ** The responsive settings and the scroll binding ([App], [Experience]) *)

(** The field of view chosen by [handleResize] of [Experience] for a window
    width. *)
Definition fovFor (width : R) : R :=
  if width <? 768 then 110
  else if width <? 1024 then 100
  else 90.

(** The number of scroll pages chosen by [handleResize] of [App]:
    [width >= 1024 ? 5 : 5.25]. *)
Definition pagesFor (width : R) : R :=
  if width >=? 1024 then 5 else 5.25.

Module Controls.

Import String.
Local Open Scope string_scope.

(** [orbitMode] of [App], [enableScrollBinding] of [Experience] and the
    position of the timeline, [sheet.sequence.position]. *)
Record State : Type := mkState {
  orbitMode : bool;
  enableScrollBinding : bool;
  sequence_position : R
}.

(** A key press, or a rendered frame with the sheet's sequence length and
    the scroll offset where the sheet and the scroll data exist. *)
Inductive event : Type :=
| KeyDown (key : string)
| Frame (sequenceLength : option R) (scroll_offset : option R).

(** Both [keydown] listeners: ['o'] or ['O'] toggles the orbit mode,
    ['e'] or ['E'] the scroll binding. *)
Definition handleKeyPress (key : string) (s : State) : State :=
  let s :=
    if (String.eqb key "o" || String.eqb key "O")%bool
    then mkState (negb (orbitMode s)) (enableScrollBinding s) (sequence_position s)
    else s in
  if (String.eqb key "e" || String.eqb key "E")%bool
  then mkState (orbitMode s) (negb (enableScrollBinding s)) (sequence_position s)
  else s.

(** The frame callback of [Experience]:
    [if (!sheet || !enableScrollBinding || !scroll || orbitMode) return;
     sheet.sequence.position = scroll.offset * sequenceLength]. *)
Definition useFrame (sheet scroll : option R) (s : State) : State :=
  match sheet, scroll with
  | Some sequenceLength, Some offset =>
      if (negb (enableScrollBinding s) || orbitMode s)%bool then s
      else mkState (orbitMode s) (enableScrollBinding s) (offset * sequenceLength)
  | _, _ => s
  end.

Definition step (s : State) (e : event) : State :=
  match e with
  | KeyDown key => handleKeyPress key s
  | Frame sheet scroll => useFrame sheet scroll s
  end.

Definition run (s : State) (events : list event) : State :=
  fold_left step events s.

(** The state at mount: scroll mode, binding enabled. *)
Definition initial (position : R) : State := mkState false true position.

(** The number of presses of a key among two spellings. *)
Fixpoint presses (lower upper : string) (events : list event) : nat :=
  match events with
  | [] => 0
  | KeyDown key :: rest =>
      if (String.eqb key lower || String.eqb key upper)%bool
      then S (presses lower upper rest)
      else presses lower upper rest
  | _ :: rest => presses lower upper rest
  end.

(** Every frame of the list has a scroll offset in [[0, 1]] and a sequence
    length in [[0, maxLength]]. *)
Definition frames_in_range (maxLength : R) (events : list event) : Prop :=
  Forall (fun e =>
            match e with
            | Frame (Some sequenceLength) (Some offset) =>
                0 <= offset <= 1 /\ 0 <= sequenceLength <= maxLength
            | _ => True
            end) events.

End Controls.
(** * Properties *)

(** ** Comparisons and elementary facts *)

(** Case analysis on the test of the first conditional of the goal. *)
Ltac case_if :=
  match goal with
  | |- context [if ?b then _ else _] => destruct b
  end.

Lemma geb_true (a b : R) : (a >=? b) = true <-> b <= a.
Proof. unfold Js.geb. destruct (Rle_dec b a); split; intros; try lra; easy. Qed.

Lemma geb_false (a b : R) : (a >=? b) = false <-> a < b.
Proof. unfold Js.geb. destruct (Rle_dec b a); split; intros; try lra; easy. Qed.

Lemma ltb_true (a b : R) : (a <? b) = true <-> a < b.
Proof. unfold Js.ltb. destruct (Rlt_dec a b); split; intros; try lra; easy. Qed.

Lemma ltb_false (a b : R) : (a <? b) = false <-> b <= a.
Proof. unfold Js.ltb. destruct (Rlt_dec a b); split; intros; try lra; easy. Qed.

Lemma gtb_true (a b : R) : (a >? b) = true <-> b < a.
Proof. unfold Js.gtb. apply ltb_true. Qed.

Lemma gtb_false (a b : R) : (a >? b) = false <-> a <= b.
Proof. unfold Js.gtb. apply ltb_false. Qed.

Lemma sqrt_sq_sum_pos (a b : R) :
  let len := Math.sqrt (a * a + 1 + b * b) in
  1 <= len /\ len * len = a * a + 1 + b * b.
Proof.
  intros len. subst len. unfold Math.sqrt.
  assert (Ha : 0 <= a * a) by nra.
  assert (Hb : 0 <= b * b) by nra.
  split.
  - rewrite <- sqrt_1 at 1. apply sqrt_le_1_alt. lra.
  - apply sqrt_sqrt. lra.
Qed.

(** A vector [(a / len, 1 / len, b / len)] with [len] the length of
    [(a, 1, b)] has length one. *)
Lemma renormalised_unit (a b : R) :
  let len := Math.sqrt (a * a + 1 + b * b) in
  THREE.lengthSq (a / len, 1 / len, b / len) = 1.
Proof.
  intros len. destruct (sqrt_sq_sum_pos a b) as [H1 H2]. fold len in H1, H2.
  unfold THREE.lengthSq.
  assert (Hlen : len <> 0) by lra.
  replace (a / len * (a / len) + 1 / len * (1 / len) + b / len * (b / len))
    with ((a * a + 1 + b * b) / (len * len)) by (field; exact Hlen).
  rewrite H2. field. nra.
Qed.

Lemma sample_eq (y nx ny nz y' nx' ny' nz' : R) :
  y = y' -> nx = nx' -> ny = ny' -> nz = nz' ->
  ((y, nx, ny, nz) : HeightSample) = (y', nx', ny', nz').
Proof. intros -> -> -> ->. reflexivity. Qed.

Lemma vector3_eq (x y z x' y' z' : R) :
  x = x' -> y = y' -> z = z' -> ((x, y, z) : THREE.Vector3) = (x', y', z').
Proof. intros -> -> ->. reflexivity. Qed.

(** ** Hill fields *)

Section HillFacts.

Variable c : RequiredHillConfig.

Lemma hillTerrain_flat_beyond (x z : R) :
  r_radius c + r_skirt c <= hill_dist c x z ->
  hillTerrain c x z = (0, 0, 1, 0).
Proof.
  intros H. unfold hillTerrain. cbv zeta.
  assert (E : (hill_dist c x z >=? r_radius c + r_skirt c) = true)
    by (apply geb_true; exact H).
  unfold hill_dist in E. cbv zeta in E. rewrite E. reflexivity.
Qed.

Lemma hillTerrain_flat_skirt (x z : R) :
  r_radius c <= hill_dist c x z ->
  hillTerrain c x z = (0, 0, 1, 0).
Proof.
  intros H. unfold hillTerrain. cbv zeta.
  assert (E : (hill_dist c x z >=? r_radius c) = true)
    by (apply geb_true; exact H).
  unfold hill_dist in E. cbv zeta in E. rewrite E.
  match goal with |- (if ?b then _ else _) = _ => destruct b end; reflexivity.
Qed.

(** The hill's normal has length one wherever it is sampled. *)
Lemma hillTerrain_unit (x z : R) :
  THREE.lengthSq (sample_normal (hillTerrain c x z)) = 1.
Proof.
  unfold hillTerrain. cbv zeta.
  match goal with |- context [if ?b then _ else _] => destruct b end.
  { unfold sample_normal, THREE.lengthSq. ring. }
  match goal with |- context [if ?b then _ else _] => destruct b end.
  { unfold sample_normal, THREE.lengthSq. ring. }
  unfold sample_normal.
  set (dhdx := (getHeight c (x + 0.01) z - getHeight c (x - 0.01) z) / (2 * 0.01)).
  set (dhdz := (getHeight c x (z + 0.01) - getHeight c x (z - 0.01)) / (2 * 0.01)).
  pose proof (renormalised_unit (- dhdx) (- dhdz)) as U. cbv zeta in U.
  replace (- dhdx * - dhdx) with (dhdx * dhdx) in U by ring.
  replace (- dhdz * - dhdz) with (dhdz * dhdz) in U by ring.
  exact U.
Qed.

End HillFacts.

(** C1: a Hill field is flat (height 0, normal up) at every ground point
    whose scaled radial distance [dist] is at least [radius + skirt], and
    also at every point of the skirt band [radius <= dist < radius + skirt]. *)
Theorem hill_flat_outside (config : HillConfig) (x z : R) :
  let c := spread DEFAULT_HILL config in
  let dist := hill_dist c x z in
  dist >= r_radius c + r_skirt c
  \/ (r_radius c <= dist /\ dist < r_radius c + r_skirt c) ->
  sample_height (createHillTerrain config x z) = 0
  /\ sample_normal (createHillTerrain config x z) = (0, 1, 0).
Proof.
  intros c dist H. unfold createHillTerrain. fold c.
  assert (E : hillTerrain c x z = (0, 0, 1, 0)).
  { destruct H as [H | [H _]].
    - apply hillTerrain_flat_beyond. apply Rge_le. exact H.
    - apply hillTerrain_flat_skirt. exact H. }
  rewrite E. split; reflexivity.
Qed.

(** Hills that are neither rotated nor stretched: the local coordinates are
    the offsets from the centre. *)
Lemma plain_hill_adx (c : RequiredHillConfig) (x z : R) :
  r_rotation c = 0 -> r_asymmetry c = (1, 1) ->
  hill_adx c x z = x - r_centerX c.
Proof.
  intros Hr Ha. unfold hill_adx, Math.cos, Math.sin. rewrite Hr, Ha. cbn [fst].
  rewrite Ropp_0, cos_0, sin_0. field.
Qed.

Lemma plain_hill_adz (c : RequiredHillConfig) (x z : R) :
  r_rotation c = 0 -> r_asymmetry c = (1, 1) ->
  hill_adz c x z = z - r_centerZ c.
Proof.
  intros Hr Ha. unfold hill_adz, Math.cos, Math.sin. rewrite Hr, Ha. cbn [snd].
  rewrite Ropp_0, cos_0, sin_0. field.
Qed.

Lemma plain_hill_dist (c : RequiredHillConfig) (x z : R) :
  r_rotation c = 0 -> r_asymmetry c = (1, 1) ->
  hill_dist c x z =
  Math.sqrt ((x - r_centerX c) * (x - r_centerX c)
             + (z - r_centerZ c) * (z - r_centerZ c)).
Proof.
  intros Hr Ha. unfold hill_dist. cbv zeta.
  rewrite (plain_hill_adx c x z Hr Ha), (plain_hill_adz c x z Hr Ha).
  reflexivity.
Qed.

Lemma sqrt_of_square (a b : R) : 0 <= b -> a = b * b -> Math.sqrt a = b.
Proof. intros Hb ->. unfold Math.sqrt. apply sqrt_square. exact Hb. Qed.

Lemma skirtedHill_dist_6 : hill_dist (spread DEFAULT_HILL skirtedHill) 6 0 = 6.
Proof.
  rewrite plain_hill_dist by reflexivity.
  apply sqrt_of_square; [lra | cbn; ring].
Qed.

Lemma hill_flat_outside_witness :
  sample_height (createHillTerrain skirtedHill 6 0) = 0
  /\ sample_normal (createHillTerrain skirtedHill 6 0) = (0, 1, 0).
Proof.
  apply (hill_flat_outside skirtedHill 6 0).
  right. rewrite skirtedHill_dist_6. cbn. lra.
Defined.

(** The scenario of the specification: [Hill(radius=5, height=3)] sampled
    at distance 10 from its centre is flat. *)
Lemma scenarioHill_at_distance_10 :
  createHillTerrain scenarioHill 10 0 = (0, 0, 1, 0).
Proof.
  unfold createHillTerrain. apply hillTerrain_flat_beyond.
  rewrite plain_hill_dist by reflexivity.
  rewrite (sqrt_of_square _ 10) by (cbn; lra). cbn. lra.
Qed.

(** ** Combined fields *)

(** The running totals of [combineTerrains] are the initial totals plus the
    sums of the heights and of the x and z components of the normals. *)
Lemma combine_loop_totals (terrains : list HeightFunction) (x z : R) :
  forall totalY totalNx totalNz,
    combine_loop terrains x z (totalY, totalNx, totalNz) =
    (totalY + total (map (fun t => sample_height (t x z)) terrains),
     totalNx + total (map (fun t => fst (fst (sample_normal (t x z)))) terrains),
     totalNz + total (map (fun t => snd (sample_normal (t x z))) terrains)).
Proof.
  induction terrains as [| t rest IH]; intros totalY totalNx totalNz.
  - cbn. repeat rewrite Rplus_0_r. reflexivity.
  - cbn [combine_loop map total fold_right].
    destruct (t x z) as [[[y nx] ny] nz] eqn:E.
    rewrite IH. cbn [sample_height sample_normal fst snd].
    fold (total (map (fun t => sample_height (t x z)) rest)).
    fold (total (map (fun t => fst (fst (sample_normal (t x z)))) rest)).
    fold (total (map (fun t => snd (sample_normal (t x z))) rest)).
    f_equal; [f_equal |]; ring.
Qed.

Lemma combineTerrains_height (terrains : list HeightFunction) (x z : R) :
  sample_height (combineTerrains terrains x z)
  = total (map (fun terrain => sample_height (terrain x z)) terrains).
Proof.
  unfold combineTerrains. rewrite combine_loop_totals.
  cbn [sample_height]. ring.
Qed.

(** C4: for every finite sequence of child height fields and every ground
    point, the height of the combined field is the sum of the heights of the
    children at that point; this holds for children given as height
    functions and for the [Composite] variant. *)
Theorem combined_height_is_sum :
  (forall (terrains : list HeightFunction) (x z : R),
      sample_height (combineTerrains terrains x z)
      = total (map (fun terrain => sample_height (terrain x z)) terrains))
  /\ (forall (children : list HeightField) (x z : R),
         sample_height (heightFunctionOf (Composite children) x z)
         = total (map (fun child => sample_height (heightFunctionOf child x z))
                      children)).
Proof.
  split.
  - exact combineTerrains_height.
  - intros children x z. cbn [heightFunctionOf].
    rewrite combineTerrains_height, map_map. reflexivity.
Qed.

(** The normal of a combined field has length one, whatever the children
    return. *)
Lemma combineTerrains_unit (terrains : list HeightFunction) (x z : R) :
  THREE.lengthSq (sample_normal (combineTerrains terrains x z)) = 1.
Proof.
  unfold combineTerrains.
  destruct (combine_loop terrains x z (0, 0, 0)) as [[totalY totalNx] totalNz].
  cbn [sample_normal]. apply renormalised_unit.
Qed.

(** ** Wind *)

(** Whatever the noise, both displacement terms vanish with [position.y]. *)
Lemma displaced_at_root (snoise : Glsl.vec3 -> R) (u : Uniforms)
    (instanceMatrix : list R) (position_x position_z : R) :
  displaced snoise u instanceMatrix (position_x, 0, position_z)
  = (position_x, 0, position_z).
Proof.
  unfold displaced. cbv zeta. apply vector3_eq; ring.
Qed.

(** C8: for all wind uniforms (strength, speed, direction, turbulence, gust
    frequency and strength), every elapsed time and every instance matrix,
    the vertex shader leaves a vertex at height 0 along the blade (the root)
    where it is: its displacement is 0 in both horizontal components. *)
Theorem wind_root_pinned (u : Uniforms) (instanceMatrix : list R)
    (position_x position_z : R) :
  vertexShader_pos u instanceMatrix (position_x, 0, position_z)
  = (position_x, 0, position_z)
  /\ vertexShader_displacement u instanceMatrix (position_x, 0, position_z)
     = (0, 0).
Proof.
  unfold vertexShader_pos, vertexShader_displacement, windDisplacement.
  rewrite displaced_at_root. split; [reflexivity |].
  f_equal; ring.
Qed.

(** ** Combining a single field *)

Lemma combine_single (f : HeightFunction) (x z : R) :
  combineTerrains [f] x z =
  (let '(y, nx, _, nz) := f x z in
   let len := Math.sqrt (nx * nx + 1 + nz * nz) in
   (y, nx / len, 1 / len, nz / len)).
Proof.
  unfold combineTerrains. cbn [combine_loop].
  destruct (f x z) as [[[y nx] ny] nz].
  repeat rewrite Rplus_0_l. reflexivity.
Qed.

(** For a child whose normal has length one, combining it alone gives the
    child's sample back exactly when that normal is the up vector. *)
Lemma combine_single_fixed_iff (f : HeightFunction) (x z : R) :
  THREE.lengthSq (sample_normal (f x z)) = 1 ->
  (combineTerrains [f] x z = f x z <-> sample_normal (f x z) = (0, 1, 0)).
Proof.
  rewrite combine_single.
  destruct (f x z) as [[[y nx] ny] nz]. cbn [sample_normal].
  unfold THREE.lengthSq. intros U.
  destruct (sqrt_sq_sum_pos nx nz) as [L1 L2].
  set (len := Math.sqrt (nx * nx + 1 + nz * nz)) in *.
  assert (Hlen : len <> 0) by lra.
  split.
  - intros E. injection E as Ex Ey Ez.
    assert (Hy : ny * len = 1) by (rewrite <- Ey; field; exact Hlen).
    assert (Hq : (ny * ny - 1) * (ny * ny - 1) = 0).
    { assert (H2 : ny * ny * (len * len) = 1).
      { replace (ny * ny * (len * len)) with ((ny * len) * (ny * len)) by ring.
        rewrite Hy. ring. }
      rewrite L2 in H2. nra. }
    assert (Hny : ny * ny = 1) by nra.
    assert (Hnx : nx = 0) by nra.
    assert (Hnz : nz = 0) by nra.
    assert (Hpos : 0 < ny).
    { destruct (Rlt_dec 0 ny) as [P | P]; [exact P | exfalso; nra]. }
    assert (Hone : ny = 1) by nra.
    rewrite Hnx, Hnz, Hone. reflexivity.
  - intros E. injection E as -> -> ->.
    subst len. replace (0 * 0 + 1 + 0 * 0) with 1 by ring.
    unfold Math.sqrt. rewrite sqrt_1. f_equal; [f_equal; [f_equal |] |]; field.
Qed.

(** ** Evaluating a hill that is neither rotated, stretched, flattened nor
    ridged *)

Lemma Rpower_two (a : R) : 0 < a -> Rpower a 2 = a * a.
Proof.
  intros Ha. replace 2 with (INR 2) by (simpl; ring).
  rewrite Rpower_pow by exact Ha. simpl. ring.
Qed.

Lemma pow_pos_base (b e : R) : 0 < b -> Math.pow b e = Rpower b e.
Proof. intros Hb. unfold Math.pow. destruct (Rlt_dec 0 b); [reflexivity | lra]. Qed.

Lemma plateau_remap_off (c : RequiredHillConfig) (t : R) :
  r_plateau c <= 0 -> plateau_remap c t = t.
Proof.
  intros Hp. unfold plateau_remap.
  assert (E : (r_plateau c >? 0) = false) by (apply gtb_false; exact Hp).
  rewrite E. reflexivity.
Qed.

Lemma ridge_factor_off (c : RequiredHillConfig) (adx adz : R) :
  r_ridge c <= 0 -> ridge_factor c adx adz = 1.
Proof.
  intros Hr. unfold ridge_factor.
  assert (E : (r_ridge c >? 0) = false) by (apply gtb_false; exact Hr).
  rewrite E. reflexivity.
Qed.

(** [getHeight] at a point whose distance [d] from the centre is inside the
    radius. *)
Lemma getHeight_plain_inside (c : RequiredHillConfig) (px pz d : R) :
  plain c -> 0 <= d -> d < r_radius c ->
  (px - r_centerX c) * (px - r_centerX c)
  + (pz - r_centerZ c) * (pz - r_centerZ c) = d * d ->
  getHeight c px pz = r_height c * Rpower (1 - d / r_radius c) (r_roundness c).
Proof.
  intros [Hr Ha Hp Hg] Hd HdR Hsq. unfold getHeight. cbv zeta.
  rewrite (plain_hill_adx c px pz Hr Ha), (plain_hill_adz c px pz Hr Ha).
  rewrite (sqrt_of_square _ d Hd Hsq).
  assert (E : (d >=? r_radius c) = false) by (apply geb_false; exact HdR).
  rewrite E, plateau_remap_off, ridge_factor_off by assumption.
  rewrite pow_pos_base.
  - ring.
  - assert (d / r_radius c < 1).
    { apply Rmult_lt_reg_r with (r_radius c); [lra |].
      unfold Rdiv. rewrite Rmult_assoc, Rinv_l by lra. lra. }
    lra.
Qed.

(** The sample of such a hill at a point inside the radius, from the four
    heights around it. *)
Lemma hillTerrain_plain_inside (c : RequiredHillConfig) (x z d : R) :
  plain c -> 0 <= d -> d < r_radius c -> d < r_radius c + r_skirt c ->
  (x - r_centerX c) * (x - r_centerX c)
  + (z - r_centerZ c) * (z - r_centerZ c) = d * d ->
  hillTerrain c x z =
  (let y := r_height c * Rpower (1 - d / r_radius c) (r_roundness c) in
   let dhdx := (getHeight c (x + 0.01) z - getHeight c (x - 0.01) z) / (2 * 0.01) in
   let dhdz := (getHeight c x (z + 0.01) - getHeight c x (z - 0.01)) / (2 * 0.01) in
   let len := Math.sqrt (dhdx * dhdx + 1 + dhdz * dhdz) in
   (y, - dhdx / len, 1 / len, - dhdz / len)).
Proof.
  intros [Hr Ha Hp Hg] Hd HdR HdS Hsq. unfold hillTerrain. cbv zeta.
  rewrite (plain_hill_adx c x z Hr Ha), (plain_hill_adz c x z Hr Ha).
  rewrite (sqrt_of_square _ d Hd Hsq).
  assert (E1 : (d >=? r_radius c + r_skirt c) = false) by (apply geb_false; exact HdS).
  assert (E2 : (d >=? r_radius c) = false) by (apply geb_false; exact HdR).
  rewrite E1, E2, plateau_remap_off, ridge_factor_off by assumption.
  rewrite pow_pos_base.
  - f_equal. f_equal. f_equal. ring.
  - assert (d / r_radius c < 1).
    { apply Rmult_lt_reg_r with (r_radius c); [lra |].
      unfold Rdiv. rewrite Rmult_assoc, Rinv_l by lra. lra. }
    lra.
Qed.

Lemma defaultHill_plain : plain (spread DEFAULT_HILL emptyHillConfig).
Proof. split; cbn; lra || reflexivity. Qed.

(** The default hill, half way up its slope along the x axis. *)
Lemma defaultHill_at_5_0 :
  createHillTerrain emptyHillConfig 5 0
  = (0.75, 0.3 / Math.sqrt 1.09, 1 / Math.sqrt 1.09, 0).
Proof.
  unfold createHillTerrain.
  set (c := spread DEFAULT_HILL emptyHillConfig).
  pose proof defaultHill_plain as P. fold c in P.
  rewrite (hillTerrain_plain_inside c 5 0 5 P) by (cbn; lra).
  rewrite (getHeight_plain_inside c (5 + 0.01) 0 5.01 P) by (cbn; lra).
  rewrite (getHeight_plain_inside c (5 - 0.01) 0 4.99 P) by (cbn; lra).
  assert (Ez : getHeight c 5 (0 + 0.01) = getHeight c 5 (0 - 0.01)).
  { unfold getHeight. cbv zeta.
    destruct P as [Hr Ha Hp Hg].
    rewrite !(plain_hill_adx c _ _ Hr Ha), !(plain_hill_adz c _ _ Hr Ha).
    rewrite !ridge_factor_off by assumption.
    replace ((0 - 0.01 - r_centerZ c) * (0 - 0.01 - r_centerZ c))
      with ((0 + 0.01 - r_centerZ c) * (0 + 0.01 - r_centerZ c)) by (cbn; ring).
    reflexivity. }
  rewrite Ez. cbv zeta. cbn [r_height r_radius r_roundness c spread DEFAULT_HILL
    override emptyHillConfig height radius roundness].
  rewrite !Rpower_two by lra.
  replace ((3 * ((1 - 5.01 / 10) * (1 - 5.01 / 10))
            - 3 * ((1 - 4.99 / 10) * (1 - 4.99 / 10))) / (2 * 0.01))
    with (- 0.3) by lra.
  replace ((getHeight c 5 (0 - 0.01) - getHeight c 5 (0 - 0.01)) / (2 * 0.01))
    with 0 by lra.
  replace (- 0.3 * - 0.3 + 1 + 0 * 0) with 1.09 by lra.
  assert (L : Math.sqrt 1.09 <> 0).
  { unfold Math.sqrt. intros L0. apply sqrt_eq_0 in L0; lra. }
  apply sample_eq; try lra; field; exact L.
Qed.

(** C10: combining a single child keeps the child's height at every point
    and returns the normal [normalize (nx, 1, nz)] built from the x and z
    components of the child's normal; the result differs from the child in
    general (the default hill on its slope), and is the child itself for the
    flat field. *)
Theorem combine_single_flattens_normal :
  (forall (f : HeightFunction) (x z : R),
      sample_height (combineTerrains [f] x z) = sample_height (f x z))
  /\ (forall (f : HeightFunction) (x z : R),
         sample_normal (combineTerrains [f] x z) =
         (let '(nx, _, nz) := sample_normal (f x z) in
          let len := Math.sqrt (nx * nx + 1 + nz * nz) in
          (nx / len, 1 / len, nz / len)))
  /\ (exists x z : R,
         combineTerrains [createHillTerrain emptyHillConfig] x z
         <> createHillTerrain emptyHillConfig x z)
  /\ (forall x z : R,
         combineTerrains [createFlatTerrain] x z = createFlatTerrain x z).
Proof.
  repeat split.
  - intros f x z. rewrite combine_single.
    destruct (f x z) as [[[y nx] ny] nz]. reflexivity.
  - intros f x z. rewrite combine_single.
    destruct (f x z) as [[[y nx] ny] nz]. reflexivity.
  - exists 5, 0. intros E.
    apply combine_single_fixed_iff in E.
    + rewrite defaultHill_at_5_0 in E. cbn [sample_normal] in E.
      injection E as E1 E2.
      assert (L : 1 <= Math.sqrt 1.09).
      { unfold Math.sqrt. rewrite <- sqrt_1 at 1. apply sqrt_le_1_alt. lra. }
      assert (H : 0.3 / Math.sqrt 1.09 * Math.sqrt 1.09 = 0.3) by (field; lra).
      rewrite E1 in H. lra.
    + apply hillTerrain_unit.
  - intros x z. rewrite combine_single. unfold createFlatTerrain.
    replace (0 * 0 + 1 + 0 * 0) with 1 by ring.
    unfold Math.sqrt. rewrite sqrt_1.
    apply sample_eq; lra.
Qed.

(** ** The instance transform generator *)

Lemma array_set_app (done rest : list R) (old e : R) :
  THREE.array_set (done ++ old :: rest) (length done) e = done ++ e :: rest.
Proof.
  induction done as [| d done IH]; cbn.
  - reflexivity.
  - rewrite IH. reflexivity.
Qed.

(** Writing a matrix over a slot of the same size replaces that slot. *)
Lemma toArray_app (te : list R) :
  forall done old rest : list R,
    length old = length te ->
    THREE.toArray te (done ++ old ++ rest) (length done) = done ++ te ++ rest.
Proof.
  induction te as [| e te IH]; intros done old rest Hlen.
  - destruct old; [reflexivity | discriminate].
  - destruct old as [| o old]; [discriminate |].
    cbn [THREE.toArray app]. rewrite array_set_app.
    replace (done ++ e :: old ++ rest) with ((done ++ [e]) ++ old ++ rest)
      by (rewrite <- app_assoc; reflexivity).
    replace (S (length done)) with (length (done ++ [e]))
      by (rewrite length_app; cbn; lia).
    rewrite IH by (cbn in Hlen; lia).
    rewrite <- app_assoc. reflexivity.
Qed.

Lemma compose_length (p : THREE.Vector3) (q : THREE.Quaternion) (s : THREE.Vector3) :
  length (THREE.compose p q s) = 16%nat.
Proof.
  destruct p as [[px py] pz], q as [[[x y] z] w], s as [[sx sy] sz]. reflexivity.
Qed.

Section GeneratorFacts.

Variable random : nat -> R.
Variable setFromUnitVectors : THREE.Vector3 -> THREE.Vector3 -> THREE.Quaternion.
Variable setFromAxisAngle : THREE.Vector3 -> R -> THREE.Quaternion.
Variable multiply : THREE.Quaternion -> THREE.Quaternion -> THREE.Quaternion.
Variable size : R * R.
Variable bladeHeight : R * R.
Variable heightFunction : HeightFunction.

Local Abbreviation blade' :=
  (blade random setFromUnitVectors setFromAxisAngle multiply
     size bladeHeight heightFunction).
Local Abbreviation blades' :=
  (blades random setFromUnitVectors setFromAxisAngle multiply
     size bladeHeight heightFunction).
Local Abbreviation generate_loop' :=
  (generate_loop random setFromUnitVectors setFromAxisAngle multiply
     size bladeHeight heightFunction).

Lemma matrix_of_length (t : Transform) : length (matrix_of t) = 16%nat.
Proof. apply compose_length. Qed.

Lemma blades_length (n calls : nat) : length (blades' n calls) = n.
Proof.
  revert calls. induction n as [| n IH]; intros calls; cbn [blades].
  - reflexivity.
  - destruct (blade' calls) as [t calls'] eqn:E. cbn [length].
    rewrite IH. reflexivity.
Qed.

(** The loop fills the zeroed buffer slot by slot: what it returns is what
    was written before, followed by the matrices of the remaining blades. *)
Lemma generate_loop_fills (n : nat) :
  forall (i calls : nat) (done : list R),
    length done = (i * 16)%nat ->
    generate_loop' n i calls (done ++ repeat 0 (n * 16))
    = done ++ flat_map matrix_of (blades' n calls).
Proof.
  induction n as [| n IH]; intros i calls done Hdone.
  - cbn. reflexivity.
  - cbn [generate_loop blades].
    destruct (blade' calls) as [t calls'] eqn:E.
    cbn [flat_map].
    replace (repeat 0 (S n * 16)) with (repeat 0 16 ++ repeat 0 (n * 16))
      by (rewrite <- repeat_app; f_equal; lia).
    rewrite <- Hdone.
    rewrite toArray_app by (rewrite matrix_of_length, repeat_length; reflexivity).
    replace (done ++ matrix_of t ++ repeat 0 (n * 16))
      with ((done ++ matrix_of t) ++ repeat 0 (n * 16))
      by (rewrite <- app_assoc; reflexivity).
    rewrite IH by (rewrite length_app, matrix_of_length; lia).
    rewrite <- app_assoc. reflexivity.
Qed.

Lemma flat_map_matrix_length (ts : list Transform) :
  length (flat_map matrix_of ts) = (16 * length ts)%nat.
Proof.
  induction ts as [| t ts IH]; cbn [flat_map length].
  - lia.
  - rewrite length_app, matrix_of_length, IH. lia.
Qed.

(** For a count that is not negative the generator returns the buffer made
    of the matrices of its transforms. *)
Lemma instanceMatrices_ok (bladeCount : Z) :
  (0 <= bladeCount)%Z ->
  instanceMatrices random setFromUnitVectors setFromAxisAngle multiply
    size bladeHeight heightFunction bladeCount
  = Js.Ok (flat_map matrix_of
             (instanceTransforms random setFromUnitVectors setFromAxisAngle
                multiply size bladeHeight heightFunction bladeCount)).
Proof.
  intros Hn. unfold instanceMatrices, instanceTransforms, THREE.new_Float32Array.
  destruct (Z.ltb_spec (bladeCount * 16) 0) as [Hneg | _]; [lia |].
  cbn [Js.bind]. f_equal.
  replace (Z.to_nat (bladeCount * 16)) with (Z.to_nat bladeCount * 16)%nat by lia.
  apply (generate_loop_fills (Z.to_nat bladeCount) 0 0 []). reflexivity.
Qed.

(** A negative count throws. *)
Lemma instanceMatrices_negative (bladeCount : Z) :
  (bladeCount < 0)%Z ->
  instanceMatrices random setFromUnitVectors setFromAxisAngle multiply
    size bladeHeight heightFunction bladeCount
  = Js.Throw Js.RangeError.
Proof.
  intros Hn. unfold instanceMatrices, THREE.new_Float32Array.
  destruct (Z.ltb_spec (bladeCount * 16) 0) as [_ | Hpos]; [reflexivity | lia].
Qed.

Hypothesis random_range : forall k, 0 <= random k < 1.
Hypothesis width_pos : 0 < fst size.
Hypothesis depth_pos : 0 < snd size.
Hypothesis height_range : fst bladeHeight <= snd bladeHeight.

Lemma blade_in_bounds (calls : nat) :
  in_bounds size bladeHeight (fst (blade' calls)).
Proof.
  unfold blade, Math_random. cbv zeta.
  destruct (heightFunction _ _) as [[[h nx] ny] nz].
  cbn [fst position3 scaleVec]. unfold in_bounds. cbn [position3 scaleVec].
  pose proof (random_range calls) as R0.
  pose proof (random_range (S calls)) as R1.
  pose proof (random_range (S (S calls))) as R2.
  repeat split; nra.
Qed.

Lemma blades_in_bounds (n : nat) :
  forall calls, Forall (in_bounds size bladeHeight) (blades' n calls).
Proof.
  induction n as [| n IH]; intros calls; cbn [blades].
  - constructor.
  - pose proof (blade_in_bounds calls) as B.
    destruct (blade' calls) as [t calls'] eqn:E.
    constructor; [exact B | apply IH].
Qed.

End GeneratorFacts.

(** The matrix of a transform holds its position in elements 12 to 14. *)
Lemma matrix_of_position (t : Transform) :
  (nth 12 (matrix_of t) 0, nth 13 (matrix_of t) 0, nth 14 (matrix_of t) 0)
  = position3 t.
Proof.
  unfold matrix_of, THREE.compose.
  destruct (position3 t) as [[px py] pz], (quaternion t) as [[[x y] z] w],
           (scaleVec t) as [[sx sy] sz].
  reflexivity.
Qed.

(** C2: for a count [N >= 0], an area with positive width and depth and a
    height range with [hMin <= hMax], the generator returns a buffer holding
    exactly [N] transforms (sixteen numbers each; the empty buffer for
    [N = 0]); each transform's ground position lies in
    [[-width/2, width/2] x [-depth/2, depth/2]] and its scale-Y in
    [[hMin, hMax]]. *)
Theorem instanceMatrices_count_and_bounds
    (random : nat -> R)
    (setFromUnitVectors : THREE.Vector3 -> THREE.Vector3 -> THREE.Quaternion)
    (setFromAxisAngle : THREE.Vector3 -> R -> THREE.Quaternion)
    (multiply : THREE.Quaternion -> THREE.Quaternion -> THREE.Quaternion)
    (size bladeHeight : R * R) (heightFunction : HeightFunction)
    (bladeCount : Z) :
  (forall k, 0 <= random k < 1) ->
  (0 <= bladeCount)%Z ->
  0 < fst size -> 0 < snd size ->
  fst bladeHeight <= snd bladeHeight ->
  let transforms :=
    instanceTransforms random setFromUnitVectors setFromAxisAngle multiply
      size bladeHeight heightFunction bladeCount in
  let matrices := flat_map matrix_of transforms in
  instanceMatrices random setFromUnitVectors setFromAxisAngle multiply
    size bladeHeight heightFunction bladeCount = Js.Ok matrices
  /\ length transforms = Z.to_nat bladeCount
  /\ length matrices = (16 * Z.to_nat bladeCount)%nat
  /\ (bladeCount = 0%Z -> matrices = [])
  /\ Forall (in_bounds size bladeHeight) transforms.
Proof.
  intros Hrandom Hcount Hw Hd Hh transforms matrices.
  assert (Hlen : length transforms = Z.to_nat bladeCount)
    by apply blades_length.
  repeat split.
  - apply instanceMatrices_ok. exact Hcount.
  - exact Hlen.
  - unfold matrices. rewrite flat_map_matrix_length, Hlen. reflexivity.
  - intros ->. reflexivity.
  - apply blades_in_bounds; assumption.
Qed.

Lemma harmonic_range (k : nat) : 0 <= harmonic k < 1.
Proof.
  unfold harmonic. pose proof (pos_INR k) as Hk.
  split.
  - apply Rlt_le. apply Rdiv_lt_0_compat; lra.
  - apply Rmult_lt_reg_r with (INR k + 2); [lra |].
    unfold Rdiv. rewrite Rmult_assoc, Rinv_l by lra. lra.
Qed.

(** The scenario of the specification: a flat field, an area of 10 by 10 and
    100 blades. *)
Lemma instanceMatrices_count_and_bounds_witness :
  let transforms :=
    instanceTransforms harmonic (THREE.setFromUnitVectors Number_EPSILON)
      THREE.setFromAxisAngle THREE.multiply (10, 10) (0.3, 0.8)
      createFlatTerrain 100 in
  let matrices := flat_map matrix_of transforms in
  instanceMatrices harmonic (THREE.setFromUnitVectors Number_EPSILON)
    THREE.setFromAxisAngle THREE.multiply (10, 10) (0.3, 0.8)
    createFlatTerrain 100 = Js.Ok matrices
  /\ length transforms = Z.to_nat 100
  /\ length matrices = (16 * Z.to_nat 100)%nat
  /\ (100%Z = 0%Z -> matrices = [])
  /\ Forall (in_bounds (10, 10) (0.3, 0.8)) transforms.
Proof.
  apply (instanceMatrices_count_and_bounds harmonic
           (THREE.setFromUnitVectors Number_EPSILON)
           THREE.setFromAxisAngle THREE.multiply (10, 10) (0.3, 0.8)
           createFlatTerrain 100).
  - exact harmonic_range.
  - lia.
  - cbn; lra.
  - cbn; lra.
  - cbn; lra.
Defined.

(** On the flat field every blade stands at height 0 and keeps the up
    normal. *)
Lemma flat_blades_on_ground
    (random : nat -> R)
    (setFromUnitVectors : THREE.Vector3 -> THREE.Vector3 -> THREE.Quaternion)
    (setFromAxisAngle : THREE.Vector3 -> R -> THREE.Quaternion)
    (multiply : THREE.Quaternion -> THREE.Quaternion -> THREE.Quaternion)
    (size bladeHeight : R * R) (n : nat) :
  forall calls,
    Forall (fun t => snd (fst (position3 t)) = 0)
           (blades random setFromUnitVectors setFromAxisAngle multiply
              size bladeHeight createFlatTerrain n calls).
Proof.
  induction n as [| n IH]; intros calls; cbn [blades].
  - constructor.
  - destruct (blade random setFromUnitVectors setFromAxisAngle multiply
                size bladeHeight createFlatTerrain calls) as [t calls'] eqn:E.
    constructor; [| apply IH].
    unfold blade, Math_random, createFlatTerrain in E. cbv zeta in E.
    injection E as <- _. reflexivity.
Qed.

(** ** Degenerate normals *)

Lemma lengthSq_nonneg (v : THREE.Vector3) : 0 <= THREE.lengthSq v.
Proof. destruct v as [[x y] z]. unfold THREE.lengthSq. nra. Qed.

Lemma lengthSq_multiplyScalar (v : THREE.Vector3) (s : R) :
  THREE.lengthSq (THREE.multiplyScalar v s) = THREE.lengthSq v * (s * s).
Proof. destruct v as [[x y] z]. unfold THREE.lengthSq, THREE.multiplyScalar. ring. Qed.

(** A vector that is not the zero vector is normalised to length one. *)
Lemma normalize_unit (v : THREE.Vector3) :
  THREE.length v <> 0 -> THREE.lengthSq (THREE.normalize v) = 1.
Proof.
  intros Hv. unfold THREE.normalize, THREE.divideScalar, Js.or_else.
  destruct (Req_dec_T (THREE.length v) 0) as [E | _]; [contradiction |].
  rewrite lengthSq_multiplyScalar.
  assert (Hsq : THREE.length v * THREE.length v = THREE.lengthSq v).
  { unfold THREE.length, Math.sqrt. apply sqrt_sqrt. apply lengthSq_nonneg. }
  rewrite <- Hsq. field. exact Hv.
Qed.

(** The zero vector is left as it is. *)
Lemma normalize_zero (v : THREE.Vector3) :
  THREE.length v = 0 -> THREE.normalize v = (0, 0, 0).
Proof.
  intros Hv.
  assert (H0 : THREE.lengthSq v = 0).
  { unfold THREE.length, Math.sqrt in Hv.
    apply sqrt_eq_0 in Hv; [exact Hv | apply lengthSq_nonneg]. }
  unfold THREE.normalize, THREE.divideScalar, Js.or_else.
  destruct (Req_dec_T (THREE.length v) 0) as [_ | N]; [| contradiction].
  destruct v as [[x y] z]. unfold THREE.lengthSq in H0.
  assert (x = 0) by nra. assert (y = 0) by nra. assert (z = 0) by nra.
  subst. unfold THREE.multiplyScalar. f_equal; [f_equal |]; ring.
Qed.

(** In exact arithmetic the generator's test singles out the normals of
    length zero: any other normal, however short, is normalised to length
    one and kept. *)
Lemma degenerate_iff_zero_length (n : THREE.Vector3) :
  degenerate n <-> THREE.length n = 0.
Proof.
  unfold degenerate. split.
  - intros D. destruct (Req_dec_T (THREE.length n) 0) as [E | N]; [exact E |].
    rewrite (normalize_unit n N) in D. lra.
  - intros E. rewrite (normalize_zero n E). unfold THREE.lengthSq. lra.
Qed.

Lemma blade_normal_degenerate (nx ny nz : R) :
  degenerate (nx, ny, nz) -> blade_normal nx ny nz = up.
Proof.
  unfold degenerate, blade_normal. intros D. cbv zeta.
  apply ltb_true in D. rewrite D. reflexivity.
Qed.

(** A normal that passes the test is used normalised. *)
Lemma blade_normal_regular (nx ny nz : R) :
  ~ degenerate (nx, ny, nz) ->
  blade_normal nx ny nz = THREE.normalize (nx, ny, nz)
  /\ THREE.lengthSq (blade_normal nx ny nz) = 1.
Proof.
  intros D. unfold blade_normal. cbv zeta.
  assert (E : (THREE.lengthSq (THREE.normalize (nx, ny, nz)) <? 0.001) = false).
  { apply ltb_false. unfold degenerate in D. lra. }
  rewrite E. split; [reflexivity |].
  apply normalize_unit. intros Z. apply D. apply degenerate_iff_zero_length. exact Z.
Qed.

(** A normal of length zero is replaced by the up axis. *)
Lemma blade_normal_zero (nx ny nz : R) :
  THREE.length (nx, ny, nz) = 0 -> blade_normal nx ny nz = up.
Proof.
  intros Z. apply blade_normal_degenerate.
  apply degenerate_iff_zero_length. exact Z.
Qed.

(** A normal of any other length is divided by its length, and kept. *)
Lemma blade_normal_nonzero (nx ny nz : R) :
  THREE.length (nx, ny, nz) <> 0 ->
  blade_normal nx ny nz
  = THREE.divideScalar (nx, ny, nz) (THREE.length (nx, ny, nz))
  /\ THREE.lengthSq (blade_normal nx ny nz) = 1.
Proof.
  intros N.
  assert (D : ~ degenerate (nx, ny, nz)).
  { intros D. apply N. apply degenerate_iff_zero_length. exact D. }
  destruct (blade_normal_regular nx ny nz D) as [E U].
  split; [| exact U].
  rewrite E. unfold THREE.normalize, Js.or_else.
  destruct (Req_dec_T (THREE.length (nx, ny, nz)) 0) as [Z | _];
    [contradiction | reflexivity].
Qed.




(** ** The shape of a hill without ridge *)

Section HillShape.

Variable c : RequiredHillConfig.
Hypothesis no_ridge : r_ridge c <= 0.

Lemma hill_dist_nonneg (x z : R) : 0 <= hill_dist c x z.
Proof. unfold hill_dist, Math.sqrt. cbv zeta. apply sqrt_pos. Qed.

Lemma div_radius_range (d : R) :
  0 <= d -> d < r_radius c -> 0 <= d / r_radius c < 1.
Proof.
  intros H0 H1. assert (HR : 0 < r_radius c) by lra.
  split.
  - apply Rmult_le_reg_r with (r_radius c); [exact HR |].
    unfold Rdiv. rewrite Rmult_assoc, Rinv_l by lra. lra.
  - apply Rmult_lt_reg_r with (r_radius c); [exact HR |].
    unfold Rdiv. rewrite Rmult_assoc, Rinv_l by lra. lra.
Qed.

Lemma plateau_remap_range (t : R) :
  0 <= t < 1 -> 0 <= plateau_remap c t < 1.
Proof.
  intros [H0 H1]. unfold plateau_remap.
  destruct (r_plateau c >? 0) eqn:Ep; cbn [andb].
  - apply gtb_true in Ep.
    destruct (t <? r_plateau c) eqn:Et.
    + lra.
    + apply ltb_false in Et.
      assert (Hp : 0 < 1 - r_plateau c) by lra.
      split.
      * apply Rmult_le_reg_r with (1 - r_plateau c); [exact Hp |].
        unfold Rdiv. rewrite Rmult_assoc, Rinv_l by lra. lra.
      * apply Rmult_lt_reg_r with (1 - r_plateau c); [exact Hp |].
        unfold Rdiv. rewrite Rmult_assoc, Rinv_l by lra. lra.
  - lra.
Qed.

Lemma plateau_remap_mono (t1 t2 : R) :
  0 <= t1 -> t1 <= t2 -> t2 < 1 ->
  plateau_remap c t1 <= plateau_remap c t2.
Proof.
  intros H0 H12 H1.
  pose proof (plateau_remap_range t2 (conj (Rle_trans _ _ _ H0 H12) H1)) as [R2 _].
  unfold plateau_remap in *.
  destruct (r_plateau c >? 0) eqn:Ep; cbn [andb] in *.
  - apply gtb_true in Ep.
    destruct (t1 <? r_plateau c) eqn:Et1.
    + exact R2.
    + apply ltb_false in Et1.
      assert (Et2 : (t2 <? r_plateau c) = false) by (apply ltb_false; lra).
      rewrite Et2.
      assert (Hp : 0 < 1 - r_plateau c) by lra.
      apply Rmult_le_reg_r with (1 - r_plateau c); [exact Hp |].
      unfold Rdiv. rewrite !Rmult_assoc, Rinv_l by lra. lra.
  - exact H12.
Qed.

(** Without ridge the height depends on the distance only. *)
Lemma hillTerrain_height_profile (x z : R) :
  sample_height (hillTerrain c x z) = hill_profile c (hill_dist c x z).
Proof.
  unfold hillTerrain, hill_profile, hill_dist. cbv zeta.
  repeat case_if; try reflexivity.
  cbn [sample_height]. rewrite ridge_factor_off by exact no_ridge. ring.
Qed.

Lemma pow_nonneg (b e : R) : 0 <= Math.pow b e.
Proof.
  unfold Math.pow. destruct (Rlt_dec 0 b).
  - unfold Rpower. apply Rlt_le, exp_pos.
  - destruct (Req_dec_T e 0); lra.
Qed.

Lemma hill_profile_nonneg (d : R) : 0 <= r_height c -> 0 <= hill_profile c d.
Proof.
  intros HH. unfold hill_profile.
  repeat case_if; try lra.
  apply Rmult_le_pos; [exact HH | apply pow_nonneg].
Qed.

(** Farther from the centre the hill is not higher. *)
Lemma hill_profile_mono (d1 d2 : R) :
  0 <= r_height c -> 0 <= r_roundness c ->
  0 <= d1 -> d1 <= d2 ->
  hill_profile c d2 <= hill_profile c d1.
Proof.
  intros HH Hrho H0 H12.
  pose proof (hill_profile_nonneg d1 HH) as N1.
  unfold hill_profile in *.
  destruct (d2 >=? r_radius c + r_skirt c) eqn:E2; [exact N1 |].
  destruct (d2 >=? r_radius c) eqn:E2'; [exact N1 |].
  apply geb_false in E2. apply geb_false in E2'.
  assert (E1 : (d1 >=? r_radius c + r_skirt c) = false) by (apply geb_false; lra).
  assert (E1' : (d1 >=? r_radius c) = false) by (apply geb_false; lra).
  rewrite E1, E1'.
  pose proof (div_radius_range d1 H0 ltac:(lra)) as T1.
  pose proof (div_radius_range d2 ltac:(lra) E2') as T2.
  assert (T12 : d1 / r_radius c <= d2 / r_radius c).
  { unfold Rdiv. apply Rmult_le_compat_r; [| exact H12].
    apply Rlt_le, Rinv_0_lt_compat. lra. }
  pose proof (plateau_remap_range _ T1) as P1.
  pose proof (plateau_remap_range _ T2) as P2.
  pose proof (plateau_remap_mono _ _ (proj1 T1) T12 (proj2 T2)) as P12.
  rewrite !pow_pos_base by lra.
  apply Rmult_le_compat_l; [exact HH |].
  apply Rle_Rpower_l; [exact Hrho | lra].
Qed.

(** The four heights sampled around the centre are equal in pairs. *)
Lemma getHeight_symmetric (e f : R) :
  getHeight c (r_centerX c + e) (r_centerZ c + f)
  = getHeight c (r_centerX c - e) (r_centerZ c - f).
Proof.
  unfold getHeight. cbv zeta.
  rewrite !ridge_factor_off by exact no_ridge.
  assert (Ex : hill_adx c (r_centerX c + e) (r_centerZ c + f)
               = - hill_adx c (r_centerX c - e) (r_centerZ c - f))
    by (unfold hill_adx, Rdiv; cbv zeta; ring).
  assert (Ez : hill_adz c (r_centerX c + e) (r_centerZ c + f)
               = - hill_adz c (r_centerX c - e) (r_centerZ c - f))
    by (unfold hill_adz, Rdiv; cbv zeta; ring).
  rewrite Ex, Ez.
  set (a := hill_adx c (r_centerX c - e) (r_centerZ c - f)).
  set (b := hill_adz c (r_centerX c - e) (r_centerZ c - f)).
  replace (- a * - a + - b * - b) with (a * a + b * b) by ring.
  reflexivity.
Qed.

Lemma Rpower_one_base (e : R) : Rpower 1 e = 1.
Proof. unfold Rpower. rewrite ln_1, Rmult_0_r. apply exp_0. Qed.

(** At its centre the hill has its configured height and the normal up. *)
Lemma hillTerrain_centre :
  0 < r_radius c -> 0 < r_radius c + r_skirt c ->
  hillTerrain c (r_centerX c) (r_centerZ c) = (r_height c, 0, 1, 0).
Proof.
  intros HR HS. unfold hillTerrain. cbv zeta.
  assert (Ax : hill_adx c (r_centerX c) (r_centerZ c) = 0)
    by (unfold hill_adx, Rdiv; cbv zeta; ring).
  assert (Az : hill_adz c (r_centerX c) (r_centerZ c) = 0)
    by (unfold hill_adz, Rdiv; cbv zeta; ring).
  rewrite Ax, Az.
  replace (0 * 0 + 0 * 0) with 0 by ring.
  unfold Math.sqrt at 1 2 3. rewrite sqrt_0.
  assert (E1 : (0 >=? r_radius c + r_skirt c) = false) by (apply geb_false; lra).
  assert (E2 : (0 >=? r_radius c) = false) by (apply geb_false; lra).
  rewrite E1, E2, ridge_factor_off by exact no_ridge.
  assert (T : plateau_remap c (0 / r_radius c) = 0).
  { replace (0 / r_radius c) with 0 by (unfold Rdiv; ring).
    unfold plateau_remap.
    destruct (r_plateau c >? 0) eqn:Ep; cbn [andb]; [| reflexivity].
    apply gtb_true in Ep.
    assert (Et : (0 <? r_plateau c) = true) by (apply ltb_true; exact Ep).
    rewrite Et. reflexivity. }
  rewrite T.
  replace (getHeight c (r_centerX c) (r_centerZ c + 0.01))
    with (getHeight c (r_centerX c + 0) (r_centerZ c + 0.01))
    by (rewrite Rplus_0_r; reflexivity).
  replace (getHeight c (r_centerX c) (r_centerZ c - 0.01))
    with (getHeight c (r_centerX c - 0) (r_centerZ c - 0.01))
    by (rewrite Rminus_0_r; reflexivity).
  replace (getHeight c (r_centerX c + 0.01) (r_centerZ c))
    with (getHeight c (r_centerX c + 0.01) (r_centerZ c + 0))
    by (rewrite Rplus_0_r; reflexivity).
  replace (getHeight c (r_centerX c - 0.01) (r_centerZ c))
    with (getHeight c (r_centerX c - 0.01) (r_centerZ c - 0))
    by (rewrite Rminus_0_r; reflexivity).
  rewrite !getHeight_symmetric.
  set (gx := getHeight c (r_centerX c - 0.01) (r_centerZ c - 0)).
  set (gz := getHeight c (r_centerX c - 0) (r_centerZ c - 0.01)).
  replace ((gx - gx) / (2 * 0.01)) with 0 by lra.
  replace ((gz - gz) / (2 * 0.01)) with 0 by lra.
  replace (0 * 0 + 1 + 0 * 0) with 1 by ring.
  unfold Math.sqrt. rewrite sqrt_1.
  rewrite pow_pos_base by lra.
  replace (1 - 0) with 1 by ring. rewrite Rpower_one_base.
  apply sample_eq; lra.
Qed.

End HillShape.

(** C3 (amended): for a Hill field whose asymmetry has no zero component,
    with peak height [>= 0], positive radius, [radius + skirt > 0],
    roundness [>= 1] and ridge [= 0], the sample at the hill centre is the
    peak height with the normal up, and the height does not increase as the
    scaled radial distance from the centre grows. *)
Theorem hill_peak_and_monotone (config : HillConfig) :
  let c := spread DEFAULT_HILL config in
  nonzero_asymmetry c ->
  0 <= r_height c ->
  0 < r_radius c -> 0 < r_radius c + r_skirt c ->
  1 <= r_roundness c -> r_ridge c = 0 ->
  createHillTerrain config (r_centerX c) (r_centerZ c) = (r_height c, 0, 1, 0)
  /\ (forall x1 z1 x2 z2 : R,
         hill_dist c x1 z1 <= hill_dist c x2 z2 ->
         sample_height (createHillTerrain config x2 z2)
         <= sample_height (createHillTerrain config x1 z1)).
Proof.
  intros c _ HH HR HS Hrho Hridge.
  assert (no_ridge : r_ridge c <= 0) by lra.
  split.
  - apply hillTerrain_centre; assumption.
  - intros x1 z1 x2 z2 Hd. unfold createHillTerrain. fold c.
    rewrite !hillTerrain_height_profile by exact no_ridge.
    apply hill_profile_mono; try assumption; try lra.
    apply hill_dist_nonneg.
Qed.

(** The scenario of the specification: [Hill(radius=5, height=3,
    roundness=2)] sampled at its centre gives height 3 and the normal up. *)
Lemma hill_peak_and_monotone_witness :
  createHillTerrain scenarioHill 0 0 = (3, 0, 1, 0)
  /\ (forall x1 z1 x2 z2 : R,
         hill_dist (spread DEFAULT_HILL scenarioHill) x1 z1
         <= hill_dist (spread DEFAULT_HILL scenarioHill) x2 z2 ->
         sample_height (createHillTerrain scenarioHill x2 z2)
         <= sample_height (createHillTerrain scenarioHill x1 z1)).
Proof.
  apply (hill_peak_and_monotone scenarioHill);
    try (cbn; lra); split; cbn; lra.
Defined.

(** A hill configured with a negative height is lowest at its centre: the
    height rises from -3 at distance 0 to 0 at distance 20, with roundness 2
    and no ridge. *)
Lemma hollow_rises_outwards :
  1 <= r_roundness (spread DEFAULT_HILL hollow)
  /\ r_ridge (spread DEFAULT_HILL hollow) = 0
  /\ hill_dist (spread DEFAULT_HILL hollow) 0 0
     <= hill_dist (spread DEFAULT_HILL hollow) 20 0
  /\ sample_height (createHillTerrain hollow 0 0) = -3
  /\ sample_height (createHillTerrain hollow 20 0) = 0
  /\ sample_height (createHillTerrain hollow 0 0)
     < sample_height (createHillTerrain hollow 20 0).
Proof.
  set (c := spread DEFAULT_HILL hollow).
  assert (D0 : hill_dist c 0 0 = 0).
  { rewrite plain_hill_dist by reflexivity. apply sqrt_of_square; [lra | cbn; ring]. }
  assert (D20 : hill_dist c 20 0 = 20).
  { rewrite plain_hill_dist by reflexivity. apply sqrt_of_square; [lra | cbn; ring]. }
  assert (H0 : createHillTerrain hollow 0 0 = (-3, 0, 1, 0)).
  { unfold createHillTerrain. fold c.
    apply (hillTerrain_centre c); cbn; lra. }
  assert (H20 : createHillTerrain hollow 20 0 = (0, 0, 1, 0)).
  { unfold createHillTerrain. fold c.
    apply hillTerrain_flat_beyond. rewrite D20. cbn. lra. }
  rewrite H0, H20, D0, D20. cbn [sample_height].
  repeat split; cbn; lra.
Qed.

(** ** The terrain mesh *)

Lemma displace_map (heightFunction : HeightFunction) (vs : list THREE.Vector3) :
  displace heightFunction vs
  = map (fun v => let '(x, z, _) := v in (x, z, sample_height (heightFunction x z))) vs.
Proof.
  induction vs as [| [[x z] y] vs IH]; cbn [displace map].
  - reflexivity.
  - rewrite IH. destruct (heightFunction x z) as [[[h nx] ny] nz]. reflexivity.
Qed.

(** In the geometry's own frame every vertex [(x, y, z)] carries the height
    sampled at its first two coordinates. *)
Lemma displace_heights (heightFunction : HeightFunction) (vs : list THREE.Vector3) :
  Forall (fun v => let '(x, y, z) := v in z = sample_height (heightFunction x y))
         (displace heightFunction vs).
Proof.
  rewrite displace_map. apply Forall_forall. intros v Hv.
  apply in_map_iff in Hv. destruct Hv as [[[x y] z0] [<- _]]. reflexivity.
Qed.

(** The mesh rotation takes [(x, y, z)] to [(x, z, -y)]. *)
Lemma rotateX_quarter (x y z : R) :
  rotateX (- Math.PI / 2) (x, y, z) = (x, z, - y).
Proof.
  unfold rotateX, Math.cos, Math.sin, Math.PI.
  replace (- PI / 2) with (- (PI / 2)) by field.
  rewrite cos_neg, sin_neg, cos_PI2, sin_PI2.
  apply vector3_eq; ring.
Qed.

Section TerrainFacts.

Variable computeVertexNormals : BufferGeometry -> list THREE.Vector3.
Variable size : R * R.
Variable terrainSegments : nat.

(** The normals of the terrain geometry are those computed from the
    displaced geometry. *)
Lemma terrainGeometry_normals (heightFunction : HeightFunction) :
  geo_normal (terrainGeometry computeVertexNormals size terrainSegments heightFunction)
  = computeVertexNormals
      {| geo_position :=
           displace heightFunction
             (Plane.vertices (fst size) (snd size) terrainSegments terrainSegments);
         geo_index := Plane.indices terrainSegments terrainSegments;
         geo_normal :=
           map (fun _ => (0, 0, 1))
             (Plane.vertices (fst size) (snd size) terrainSegments terrainSegments) |}.
Proof. reflexivity. Qed.

(** They do not depend on the normals the height function returns: two
    height functions with the same heights give the same geometry. *)
Lemma terrainGeometry_ignores_sampled_normals (f g : HeightFunction) :
  (forall x z, sample_height (f x z) = sample_height (g x z)) ->
  terrainGeometry computeVertexNormals size terrainSegments f
  = terrainGeometry computeVertexNormals size terrainSegments g.
Proof.
  intros Hfg. unfold terrainGeometry. cbv zeta. cbn [geo_position geo_index geo_normal].
  assert (E : forall vs, displace f vs = displace g vs).
  { intros vs. rewrite !displace_map. apply map_ext.
    intros [[x z] y]. rewrite Hfg. reflexivity. }
  rewrite E. reflexivity.
Qed.

(** In the frame of the group, where the blades are placed at
    [(x, height (x, z), z)], a terrain vertex above the ground point [(X, Z)]
    has the height the field gives at [(X, -Z)]. *)
Lemma terrainMeshVertices_heights (heightFunction : HeightFunction) :
  Forall (fun v => let '(X, Y, Z) := v in
                   Y = sample_height (heightFunction X (- Z)))
         (terrainMeshVertices computeVertexNormals size terrainSegments heightFunction).
Proof.
  unfold terrainMeshVertices, terrainGeometry. cbv zeta. cbn [geo_position].
  apply Forall_forall. intros v Hv.
  apply in_map_iff in Hv. destruct Hv as [[[x y] z] [<- Hin]].
  rewrite rotateX_quarter.
  pose proof (displace_heights heightFunction
                (geo_position (PlaneGeometry (fst size) (snd size)
                                 terrainSegments terrainSegments))) as F.
  rewrite Forall_forall in F. specialize (F _ Hin). cbn in F.
  rewrite Ropp_involutive. exact F.
Qed.

End TerrainFacts.

Lemma plane_vertex_7 : Plane.vertex 20 20 4 4 1 2 = (0, 5, 0).
Proof.
  unfold Plane.vertex. cbv zeta. cbn [INR].
  apply vector3_eq; lra.
Qed.

Lemma offCentreHill_centre : createHillTerrain offCentreHill 0 5 = (3, 0, 1, 0).
Proof.
  unfold createHillTerrain.
  apply (hillTerrain_centre (spread DEFAULT_HILL offCentreHill)); cbn; lra.
Qed.

Lemma offCentreHill_far : createHillTerrain offCentreHill 0 (-5) = (0, 0, 1, 0).
Proof.
  unfold createHillTerrain. apply hillTerrain_flat_beyond.
  rewrite plain_hill_dist by reflexivity.
  rewrite (sqrt_of_square _ 10) by (cbn; lra). cbn. lra.
Qed.

(** C5 at a concrete terrain: with a hill centred at [(0, 5)], an area of
    20 by 20 and 4 segments, vertex 7 of the terrain geometry is
    [(0, 5, 3)] in the geometry's own frame (the height sampled at
    [(0, 5)]), and the mesh shows it in the group's frame at [(0, 3, -5)]:
    above the ground point [(0, -5)], where the height field is flat
    (height 0) and where a blade is planted at height 0. *)
Theorem terrain_vertex_mirrored
    (computeVertexNormals : BufferGeometry -> list THREE.Vector3)
    (setFromUnitVectors : THREE.Vector3 -> THREE.Vector3 -> THREE.Quaternion)
    (setFromAxisAngle : THREE.Vector3 -> R -> THREE.Quaternion)
    (multiply : THREE.Quaternion -> THREE.Quaternion -> THREE.Quaternion) :
  let heightFunction := createHillTerrain offCentreHill in
  nth_error
    (geo_position (terrainGeometry computeVertexNormals (20, 20) 4 heightFunction)) 7
  = Some (0, 5, 3)
  /\ nth_error
       (terrainMeshVertices computeVertexNormals (20, 20) 4 heightFunction) 7
     = Some (0, 3, -5)
  /\ sample_height (heightFunction 0 (-5)) = 0
  /\ position3
       (fst (blade drawsFor_0_m5 setFromUnitVectors setFromAxisAngle multiply
               (20, 20) (0.3, 0.8) heightFunction 0))
     = (0, 0, -5).
Proof.
  intros heightFunction.
  assert (V : nth_error
                (geo_position
                   (terrainGeometry computeVertexNormals (20, 20) 4 heightFunction)) 7
              = Some (0, 5, 3)).
  { unfold terrainGeometry. cbv zeta.
    cbn [geo_position PlaneGeometry fst snd].
    rewrite displace_map, nth_error_map.
    change (nth_error (Plane.vertices 20 20 4 4) 7)
      with (Some (Plane.vertex 20 20 4 4 1 2)).
    rewrite plane_vertex_7. cbn [option_map].
    unfold heightFunction. rewrite offCentreHill_centre. reflexivity. }
  repeat split.
  - exact V.
  - unfold terrainMeshVertices. rewrite nth_error_map, V. cbn [option_map].
    rewrite rotateX_quarter. reflexivity.
  - unfold heightFunction. rewrite offCentreHill_far. reflexivity.
  - unfold blade, Math_random. cbv zeta. cbn [drawsFor_0_m5 fst snd].
    replace ((0.5 - 0.5) * 20) with 0 by lra.
    replace ((0.25 - 0.5) * 20) with (- 5) by lra.
    unfold heightFunction. rewrite offCentreHill_far. reflexivity.
Qed.

(** ** The wind time in the render loop *)

Lemma run_app (s : Scene) (es fs : list event) :
  run s (es ++ fs) = run (run s es) fs.
Proof. unfold run. apply fold_left_app. Qed.

(** Mounting and unmounting leave the renderer's clock alone; a frame
    advances it. *)
Lemma run_clock (events : list event) :
  forall s : Scene,
    clock_elapsedTime (clock (run s events))
    = clock_elapsedTime (clock s) + elapsed events.
Proof.
  induction events as [| e rest IH]; intros s.
  - cbn. ring.
  - change (run s (e :: rest)) with (run (step s e) rest).
    rewrite IH. destruct e; cbn [step clock clock_elapsedTime elapsed]; ring.
Qed.

(** After any frame the uniform of a mounted grass holds the clock's time. *)
Lemma frame_sets_uTime (s : Scene) (delta : R) :
  option_map uTime (grass (step s (Frame delta)))
  = option_map (fun _ => clock_elapsedTime (clock s) + delta) (grass s).
Proof. cbn. destruct (grass s); reflexivity. Qed.



(** * Further properties of the terrain functions *)

(** ** The skirt *)

(** Two resolved configurations that differ in the skirt only, both skirts
    not negative, give the same hill. *)
Lemma hillTerrain_skirt_irrelevant (c : RequiredHillConfig) (s x z : R) :
  0 <= r_skirt c -> 0 <= s ->
  hillTerrain c x z
  = hillTerrain
      {| r_centerX := r_centerX c; r_centerZ := r_centerZ c;
         r_radius := r_radius c; r_height := r_height c;
         r_roundness := r_roundness c; r_plateau := r_plateau c;
         r_skirt := s; r_asymmetry := r_asymmetry c;
         r_rotation := r_rotation c; r_ridge := r_ridge c;
         r_ridgeDirection := r_ridgeDirection c |} x z.
Proof.
  intros Hc Hs. destruct c as [cx cz rad h rho p sk asym rot rdg rdir].
  cbn [r_skirt] in Hc.
  unfold hillTerrain, getHeight, plateau_remap, ridge_factor, hill_adx, hill_adz.
  cbv zeta.
  cbn [r_centerX r_centerZ r_radius r_height r_roundness r_plateau r_skirt
       r_asymmetry r_rotation r_ridge r_ridgeDirection].
  set (dist := Math.sqrt _).
  destruct (dist >=? rad) eqn:E.
  - destruct (dist >=? rad + sk), (dist >=? rad + s); reflexivity.
  - apply geb_false in E.
    assert (E1 : (dist >=? rad + sk) = false) by (apply geb_false; lra).
    assert (E2 : (dist >=? rad + s) = false) by (apply geb_false; lra).
    rewrite E1, E2. reflexivity.
Qed.

(** X1: a skirt that is not negative has no effect on the hill: replacing
    it by any other non-negative skirt leaves every sample unchanged. *)
Theorem nonnegative_skirt_has_no_effect (config : HillConfig) (s x z : R) :
  0 <= r_skirt (spread DEFAULT_HILL config) -> 0 <= s ->
  createHillTerrain (withSkirt config s) x z = createHillTerrain config x z.
Proof.
  intros Hc Hs. unfold createHillTerrain. symmetry.
  apply (hillTerrain_skirt_irrelevant (spread DEFAULT_HILL config) s x z Hc Hs).
Qed.

Lemma nonnegative_skirt_has_no_effect_witness :
  createHillTerrain (withSkirt skirtedHill 7) 4 3 = createHillTerrain skirtedHill 4 3.
Proof.
  apply (nonnegative_skirt_has_no_effect skirtedHill 7 4 3); cbn; lra.
Defined.

(** X2: when the skirt is not negative, the height a hill returns is the
    value of the helper [getHeight] whose central differences give the
    normal, at every ground point. *)
Theorem hill_height_is_getHeight (config : HillConfig) (x z : R) :
  0 <= r_skirt (spread DEFAULT_HILL config) ->
  sample_height (createHillTerrain config x z)
  = getHeight (spread DEFAULT_HILL config) x z.
Proof.
  intros Hs. unfold createHillTerrain.
  set (c := spread DEFAULT_HILL config) in *.
  unfold hillTerrain, getHeight. cbv zeta.
  set (dist := Math.sqrt _).
  destruct (dist >=? r_radius c) eqn:E.
  - destruct (dist >=? r_radius c + r_skirt c); reflexivity.
  - apply geb_false in E.
    assert (E1 : (dist >=? r_radius c + r_skirt c) = false) by (apply geb_false; lra).
    rewrite E1. cbn [sample_height]. ring.
Qed.

Lemma hill_height_is_getHeight_witness :
  sample_height (createHillTerrain shapedHill 2 3)
  = getHeight (spread DEFAULT_HILL shapedHill) 2 3.
Proof.
  apply (hill_height_is_getHeight shapedHill 2 3). cbn. lra.
Defined.

(** ** Bounds on the height *)

Lemma exp_nonpos_le_1 (a : R) : a <= 0 -> exp a <= 1.
Proof.
  intros Ha. destruct (Req_dec_T a 0) as [-> | N].
  - rewrite exp_0. lra.
  - rewrite <- exp_0. apply Rlt_le, exp_increasing. lra.
Qed.

(** A power of a base in (0, 1] with an exponent that is not negative lies
    in (0, 1]. *)
Lemma pow_unit_interval (b e : R) :
  0 < b <= 1 -> 0 <= e -> 0 < Math.pow b e <= 1.
Proof.
  intros [Hb0 Hb1] He. rewrite pow_pos_base by exact Hb0. unfold Rpower.
  split; [apply exp_pos |].
  apply exp_nonpos_le_1.
  assert (Hln : ln b <= 0).
  { destruct (Req_dec_T b 1) as [-> | N]; [rewrite ln_1; lra |].
    rewrite <- ln_1. apply Rlt_le, ln_increasing; lra. }
  nra.
Qed.

(** The ridge factor lies between [1 - ridge] and 1 when the ridge option is
    in use, and is 1 otherwise. *)
Lemma ridge_factor_range (c : RequiredHillConfig) (adx adz : R) :
  r_ridge c <= 1 -> 0 <= ridge_factor c adx adz <= 1.
Proof.
  intros Hr. unfold ridge_factor.
  destruct (r_ridge c >? 0) eqn:E; [| lra].
  apply gtb_true in E. cbv zeta.
  set (rx := adx * _ - adz * _).
  assert (He : 0 < Math.exp (- Math.abs rx * 2) <= 1).
  { unfold Math.exp. split; [apply exp_pos |].
    apply exp_nonpos_le_1. unfold Math.abs.
    pose proof (Rabs_pos rx). lra. }
  nra.
Qed.

(** The base of the power lies in (0, 1] wherever the hill is not flat. *)
Lemma hill_base_range (c : RequiredHillConfig) (d : R) :
  0 <= d -> d < r_radius c ->
  0 < 1 - plateau_remap c (d / r_radius c) <= 1.
Proof.
  intros H0 H1.
  pose proof (plateau_remap_range c _ (div_radius_range c d H0 H1)). lra.
Qed.

(** X3: a hill whose asymmetry has no zero component, with height [>= 0],
    roundness [>= 0] and ridge [<= 1], stays between the ground and its
    configured height: every sample has [0 <= height <= peak height],
    whatever the plateau, skirt and rotation. *)
Theorem hill_height_bounds (config : HillConfig) (x z : R) :
  let c := spread DEFAULT_HILL config in
  nonzero_asymmetry c ->
  0 <= r_height c -> 0 <= r_roundness c -> r_ridge c <= 1 ->
  0 <= sample_height (createHillTerrain config x z) <= r_height c.
Proof.
  intros c _ HH Hrho Hridge. unfold createHillTerrain. fold c.
  unfold hillTerrain. cbv zeta.
  set (adx := hill_adx c x z). set (adz := hill_adz c x z).
  set (dist := Math.sqrt _).
  destruct (dist >=? r_radius c + r_skirt c); [cbn [sample_height]; lra |].
  destruct (dist >=? r_radius c) eqn:E; [cbn [sample_height]; lra |].
  apply geb_false in E. cbn [sample_height].
  assert (Hd : 0 <= dist) by (unfold dist, Math.sqrt; apply sqrt_pos).
  pose proof (pow_unit_interval _ (r_roundness c) (hill_base_range c dist Hd E) Hrho) as P.
  pose proof (ridge_factor_range c adx adz Hridge) as F.
  set (p := Math.pow _ _) in *. set (f := ridge_factor c adx adz) in *.
  assert (PF : 0 <= p * f <= 1) by nra.
  nra.
Qed.

Lemma hill_height_bounds_witness :
  0 <= sample_height (createHillTerrain shapedHill 2 3)
    <= r_height (spread DEFAULT_HILL shapedHill).
Proof.
  apply (hill_height_bounds shapedHill 2 3);
    try (cbn; lra); split; cbn; lra.
Defined.

(** ** The plateau *)

(** X4: with a plateau fraction in (0, 1], no ridge and a skirt that is not
    negative, the top of the hill is level: every ground point whose scaled
    distance from the centre is below [plateau * radius] has exactly the
    configured height, whatever the roundness. *)
Theorem hill_plateau_is_level (config : HillConfig) (x z : R) :
  let c := spread DEFAULT_HILL config in
  0 < r_plateau c <= 1 -> r_ridge c <= 0 -> 0 <= r_skirt c ->
  hill_dist c x z < r_plateau c * r_radius c ->
  sample_height (createHillTerrain config x z) = r_height c.
Proof.
  intros c [Hp0 Hp1] Hridge Hskirt Hd.
  pose proof (hill_dist_nonneg c x z) as H0.
  assert (HR : 0 < r_radius c) by nra.
  assert (HdR : hill_dist c x z < r_radius c) by nra.
  unfold createHillTerrain. fold c.
  rewrite hillTerrain_height_profile by exact Hridge.
  unfold hill_profile.
  assert (E1 : (hill_dist c x z >=? r_radius c + r_skirt c) = false)
    by (apply geb_false; lra).
  assert (E2 : (hill_dist c x z >=? r_radius c) = false)
    by (apply geb_false; lra).
  rewrite E1, E2.
  assert (T : plateau_remap c (hill_dist c x z / r_radius c) = 0).
  { unfold plateau_remap.
    assert (Ep : (r_plateau c >? 0) = true) by (apply gtb_true; exact Hp0).
    assert (Et : (hill_dist c x z / r_radius c <? r_plateau c) = true).
    { apply ltb_true. apply Rmult_lt_reg_r with (r_radius c); [exact HR |].
      unfold Rdiv. rewrite Rmult_assoc, Rinv_l by lra. lra. }
    rewrite Ep, Et. reflexivity. }
  rewrite T, pow_pos_base by lra.
  replace (1 - 0) with 1 by ring. rewrite Rpower_one_base. ring.
Qed.

(** [createHillTerrain({ plateau: 0.5 })] *)
Lemma hill_plateau_is_level_witness :
  sample_height
    (createHillTerrain
       (mkHillConfig None None None None None (Some 0.5) None None None None None)
       3 0)
  = 3.
Proof.
  apply (hill_plateau_is_level
           (mkHillConfig None None None None None (Some 0.5) None None None None None)
           3 0); try (cbn; lra).
  rewrite plain_hill_dist by reflexivity.
  rewrite (sqrt_of_square _ 3) by (cbn; lra). cbn. lra.
Defined.

(** ** Symmetry about the centre *)

Section Reflection.

Variable c : RequiredHillConfig.

Lemma hill_adx_reflect (px pz : R) :
  hill_adx c (2 * r_centerX c - px) (2 * r_centerZ c - pz) = - hill_adx c px pz.
Proof. unfold hill_adx, Rdiv. cbv zeta. ring. Qed.

Lemma hill_adz_reflect (px pz : R) :
  hill_adz c (2 * r_centerX c - px) (2 * r_centerZ c - pz) = - hill_adz c px pz.
Proof. unfold hill_adz, Rdiv. cbv zeta. ring. Qed.

Lemma ridge_factor_opp (adx adz : R) :
  ridge_factor c (- adx) (- adz) = ridge_factor c adx adz.
Proof.
  unfold ridge_factor. destruct (r_ridge c >? 0); [| reflexivity]. cbv zeta.
  replace (- adx * Math.cos (- r_ridgeDirection c)
           - - adz * Math.sin (- r_ridgeDirection c))
    with (- (adx * Math.cos (- r_ridgeDirection c)
             - adz * Math.sin (- r_ridgeDirection c))) by ring.
  unfold Math.abs. rewrite Rabs_Ropp. reflexivity.
Qed.

Lemma getHeight_reflect (px pz : R) :
  getHeight c (2 * r_centerX c - px) (2 * r_centerZ c - pz) = getHeight c px pz.
Proof.
  unfold getHeight. cbv zeta.
  rewrite hill_adx_reflect, hill_adz_reflect, ridge_factor_opp.
  replace (- hill_adx c px pz * - hill_adx c px pz
           + - hill_adz c px pz * - hill_adz c px pz)
    with (hill_adx c px pz * hill_adx c px pz
          + hill_adz c px pz * hill_adz c px pz) by ring.
  reflexivity.
Qed.

Lemma hillTerrain_reflect (x z : R) :
  hillTerrain c (2 * r_centerX c - x) (2 * r_centerZ c - z)
  = (let '(y, nx, ny, nz) := hillTerrain c x z in (y, - nx, ny, - nz)).
Proof.
  unfold hillTerrain. cbv zeta.
  rewrite hill_adx_reflect, hill_adz_reflect, ridge_factor_opp.
  replace (- hill_adx c x z * - hill_adx c x z
           + - hill_adz c x z * - hill_adz c x z)
    with (hill_adx c x z * hill_adx c x z
          + hill_adz c x z * hill_adz c x z) by ring.
  case_if; [apply sample_eq; ring |].
  case_if; [apply sample_eq; ring |].
  replace (2 * r_centerX c - x + 0.01) with (2 * r_centerX c - (x - 0.01)) by ring.
  replace (2 * r_centerX c - x - 0.01) with (2 * r_centerX c - (x + 0.01)) by ring.
  replace (2 * r_centerZ c - z + 0.01) with (2 * r_centerZ c - (z - 0.01)) by ring.
  replace (2 * r_centerZ c - z - 0.01) with (2 * r_centerZ c - (z + 0.01)) by ring.
  rewrite !getHeight_reflect.
  set (gxp := getHeight c (x + 0.01) z). set (gxm := getHeight c (x - 0.01) z).
  set (gzp := getHeight c x (z + 0.01)). set (gzm := getHeight c x (z - 0.01)).
  replace ((gxm - gxp) / (2 * 0.01) * ((gxm - gxp) / (2 * 0.01)) + 1
           + (gzm - gzp) / (2 * 0.01) * ((gzm - gzp) / (2 * 0.01)))
    with ((gxp - gxm) / (2 * 0.01) * ((gxp - gxm) / (2 * 0.01)) + 1
          + (gzp - gzm) / (2 * 0.01) * ((gzp - gzm) / (2 * 0.01)))
    by (unfold Rdiv; ring).
  set (len := Math.sqrt _).
  apply sample_eq; unfold Rdiv; ring.
Qed.

End Reflection.

(** X5: every hill is symmetric about its centre: the point opposite to
    [(x, z)] through the centre has the same height, and its normal is the
    normal at [(x, z)] with the x and z components negated. *)
Theorem hill_point_symmetry (config : HillConfig) (x z : R) :
  let c := spread DEFAULT_HILL config in
  createHillTerrain config (2 * r_centerX c - x) (2 * r_centerZ c - z)
  = (let '(y, nx, ny, nz) := createHillTerrain config x z in (y, - nx, ny, - nz)).
Proof.
  intros c. unfold createHillTerrain. apply hillTerrain_reflect.
Qed.

(** ** Normals point upwards *)

Lemma hillTerrain_ny_pos (c : RequiredHillConfig) (x z : R) :
  0 < snd (fst (sample_normal (hillTerrain c x z))).
Proof.
  unfold hillTerrain. cbv zeta.
  case_if; [cbn; lra |]. case_if; [cbn; lra |].
  cbn [sample_normal fst snd].
  match goal with |- 0 < 1 / Math.sqrt (?a * ?a + 1 + ?b * ?b) =>
    destruct (sqrt_sq_sum_pos a b) as [L _] end.
  apply Rdiv_lt_0_compat; lra.
Qed.

Lemma combineTerrains_ny_pos (terrains : list HeightFunction) (x z : R) :
  0 < snd (fst (sample_normal (combineTerrains terrains x z))).
Proof.
  unfold combineTerrains.
  destruct (combine_loop terrains x z (0, 0, 0)) as [[totalY totalNx] totalNz].
  cbn [sample_normal fst snd].
  destruct (sqrt_sq_sum_pos totalNx totalNz) as [L _].
  apply Rdiv_lt_0_compat; lra.
Qed.

(** The normal of each variant of height field has squared length one. *)
Lemma heightField_normal_lengthSq (f : HeightField) (x z : R) :
  THREE.lengthSq (sample_normal (heightFunctionOf f x z)) = 1.
Proof.
  destruct f as [| config | children]; cbn [heightFunctionOf].
  - unfold createFlatTerrain, sample_normal, THREE.lengthSq. ring.
  - apply hillTerrain_unit.
  - apply combineTerrains_unit.
Qed.


Lemma sampleField_asymmetry : all_asymmetry_nonzero sampleField.
Proof.
  unfold sampleField, all_asymmetry_nonzero, nonzero_asymmetry. cbn.
  repeat split; lra.
Qed.


(** A vector of length one is left as it is by [normalize] and by the
    generator's test. *)
Lemma blade_normal_of_unit (nx ny nz : R) :
  THREE.lengthSq (nx, ny, nz) = 1 -> blade_normal nx ny nz = (nx, ny, nz).
Proof.
  intros U.
  assert (N : THREE.normalize (nx, ny, nz) = (nx, ny, nz)).
  { unfold THREE.normalize, THREE.length, Math.sqrt. rewrite U, sqrt_1.
    unfold Js.or_else. destruct (Req_dec_T 1 0) as [E | _]; [lra |].
    unfold THREE.divideScalar, THREE.multiplyScalar.
    apply vector3_eq; field. }
  unfold blade_normal. cbv zeta. rewrite N, U.
  assert (E : (1 <? 0.001) = false) by (apply ltb_false; lra).
  rewrite E. reflexivity.
Qed.


(** * Further properties of the instance generator *)

Section GeneratorMore.

Variable setFromUnitVectors : THREE.Vector3 -> THREE.Vector3 -> THREE.Quaternion.
Variable setFromAxisAngle : THREE.Vector3 -> R -> THREE.Quaternion.
Variable multiply : THREE.Quaternion -> THREE.Quaternion -> THREE.Quaternion.
Variable size : R * R.
Variable bladeHeight : R * R.
Variable heightFunction : HeightFunction.

Local Abbreviation blade_with random :=
  (blade random setFromUnitVectors setFromAxisAngle multiply
     size bladeHeight heightFunction).
Local Abbreviation blades_with random :=
  (blades random setFromUnitVectors setFromAxisAngle multiply
     size bladeHeight heightFunction).

(** Each blade makes four calls of [Math.random]. *)
Lemma blade_calls (random : nat -> R) (calls : nat) :
  snd (blade_with random calls) = (calls + 4)%nat.
Proof.
  unfold blade, Math_random. cbv zeta.
  destruct (heightFunction _ _) as [[[h nx] ny] nz]. cbn [snd]. lia.
Qed.

(** The position of a blade lies on the sampled surface. *)
Lemma blade_on_surface (random : nat -> R) (calls : nat) :
  let '(x, y, z) := position3 (fst (blade_with random calls)) in
  y = sample_height (heightFunction x z).
Proof.
  unfold blade, Math_random. cbv zeta.
  destruct (heightFunction _ _) as [[[h nx] ny] nz] eqn:E.
  cbn [fst position3]. rewrite E. reflexivity.
Qed.

(** A blade depends on its own four draws only. *)
Lemma blade_ext (random random' : nat -> R) (calls calls' : nat) :
  (forall j, (j < 4)%nat -> random (calls + j)%nat = random' (calls' + j)%nat) ->
  fst (blade_with random calls) = fst (blade_with random' calls').
Proof.
  intros H. unfold blade, Math_random. cbv zeta.
  pose proof (H 0%nat ltac:(lia)) as H0. pose proof (H 1%nat ltac:(lia)) as H1.
  pose proof (H 2%nat ltac:(lia)) as H2. pose proof (H 3%nat ltac:(lia)) as H3.
  replace (calls + 0)%nat with calls in H0 by lia.
  replace (calls' + 0)%nat with calls' in H0 by lia.
  replace (calls + 1)%nat with (S calls) in H1 by lia.
  replace (calls' + 1)%nat with (S calls') in H1 by lia.
  replace (calls + 2)%nat with (S (S calls)) in H2 by lia.
  replace (calls' + 2)%nat with (S (S calls')) in H2 by lia.
  replace (calls + 3)%nat with (S (S (S calls))) in H3 by lia.
  replace (calls' + 3)%nat with (S (S (S calls'))) in H3 by lia.
  rewrite H0, H1, H2, H3.
  destruct (heightFunction _ _) as [[[h nx] ny] nz]. reflexivity.
Qed.

(** Blade [k] of the loop is the blade built from draws [4k .. 4k+3]. *)
Lemma blades_nth (random : nat -> R) (n : nat) :
  forall calls k, (k < n)%nat ->
    nth_error (blades_with random n calls) k
    = Some (fst (blade_with random (calls + 4 * k))).
Proof.
  induction n as [| n IH]; intros calls k Hk; [lia |].
  cbn [blades].
  pose proof (blade_calls random calls) as C.
  destruct (blade_with random calls) as [t calls'] eqn:E. cbn [snd] in C. subst calls'.
  destruct k as [| k].
  - cbn [nth_error]. replace (calls + 4 * 0)%nat with calls by lia.
    rewrite E. reflexivity.
  - cbn [nth_error]. rewrite IH by lia. do 3 f_equal. lia.
Qed.

Lemma blades_on_surface (random : nat -> R) (n : nat) :
  forall calls,
    Forall (fun t => let '(x, y, z) := position3 t in
                     y = sample_height (heightFunction x z))
           (blades_with random n calls).
Proof.
  induction n as [| n IH]; intros calls; cbn [blades].
  - constructor.
  - pose proof (blade_on_surface random calls) as B.
    destruct (blade_with random calls) as [t calls'] eqn:E.
    constructor; [exact B | apply IH].
Qed.

End GeneratorMore.

(** X8: whatever the height function, the random draws and the count, every
    blade is planted on the surface: the y coordinate of its position is the
    height the field returns at its ground position [(x, z)]. *)
Theorem blades_stand_on_the_field
    (random : nat -> R)
    (setFromUnitVectors : THREE.Vector3 -> THREE.Vector3 -> THREE.Quaternion)
    (setFromAxisAngle : THREE.Vector3 -> R -> THREE.Quaternion)
    (multiply : THREE.Quaternion -> THREE.Quaternion -> THREE.Quaternion)
    (size bladeHeight : R * R) (heightFunction : HeightFunction)
    (bladeCount : Z) :
  Forall (fun t => let '(x, y, z) := position3 t in
                   y = sample_height (heightFunction x z))
         (instanceTransforms random setFromUnitVectors setFromAxisAngle multiply
            size bladeHeight heightFunction bladeCount).
Proof. apply blades_on_surface. Qed.

(** X9: blade [k] is built from the draws [4k], [4k+1], [4k+2] and [4k+3]
    of [Math.random] and from nothing else of the supply: two supplies that
    agree on these four draws give the same transform [k], whatever the
    other draws and the number of blades after it. *)
Theorem blade_uses_its_own_four_draws
    (random random' : nat -> R)
    (setFromUnitVectors : THREE.Vector3 -> THREE.Vector3 -> THREE.Quaternion)
    (setFromAxisAngle : THREE.Vector3 -> R -> THREE.Quaternion)
    (multiply : THREE.Quaternion -> THREE.Quaternion -> THREE.Quaternion)
    (size bladeHeight : R * R) (heightFunction : HeightFunction)
    (bladeCount bladeCount' : Z) (k : nat) :
  (k < Z.to_nat bladeCount)%nat -> (k < Z.to_nat bladeCount')%nat ->
  (forall j, (j < 4)%nat -> random (4 * k + j)%nat = random' (4 * k + j)%nat) ->
  nth_error
    (instanceTransforms random setFromUnitVectors setFromAxisAngle multiply
       size bladeHeight heightFunction bladeCount) k
  = nth_error
      (instanceTransforms random' setFromUnitVectors setFromAxisAngle multiply
         size bladeHeight heightFunction bladeCount') k
  /\ nth_error
       (instanceTransforms random setFromUnitVectors setFromAxisAngle multiply
          size bladeHeight heightFunction bladeCount) k
     = Some (fst (blade random setFromUnitVectors setFromAxisAngle multiply
                    size bladeHeight heightFunction (4 * k))).
Proof.
  intros Hk Hk' Hdraws. unfold instanceTransforms.
  rewrite !blades_nth by assumption. cbn [Nat.add].
  split; [| reflexivity].
  f_equal. apply blade_ext. exact Hdraws.
Qed.

(** Two supplies that differ everywhere but on draws 4 to 7, and two
    different counts: blade 1 is the same. *)
Lemma blade_uses_its_own_four_draws_witness :
  nth_error
    (instanceTransforms harmonic (THREE.setFromUnitVectors Number_EPSILON)
       THREE.setFromAxisAngle THREE.multiply (10, 10) (0.3, 0.8)
       createFlatTerrain 3) 1
  = nth_error
      (instanceTransforms
         (fun k => if (4 <=? k)%nat && (k <? 8)%nat then harmonic k else 0)
         (THREE.setFromUnitVectors Number_EPSILON)
         THREE.setFromAxisAngle THREE.multiply (10, 10) (0.3, 0.8)
         createFlatTerrain 2) 1
  /\ nth_error
       (instanceTransforms harmonic (THREE.setFromUnitVectors Number_EPSILON)
          THREE.setFromAxisAngle THREE.multiply (10, 10) (0.3, 0.8)
          createFlatTerrain 3) 1
     = Some (fst (blade harmonic (THREE.setFromUnitVectors Number_EPSILON)
                    THREE.setFromAxisAngle THREE.multiply (10, 10) (0.3, 0.8)
                    createFlatTerrain (4 * 1))).
Proof.
  apply (blade_uses_its_own_four_draws harmonic
           (fun k => if (4 <=? k)%nat && (k <? 8)%nat then harmonic k else 0)
           (THREE.setFromUnitVectors Number_EPSILON)
           THREE.setFromAxisAngle THREE.multiply (10, 10) (0.3, 0.8)
           createFlatTerrain 3 2 1).
  - cbn. lia.
  - cbn. lia.
  - intros j Hj.
    destruct j as [| [| [| [| j]]]]; try lia; reflexivity.
Defined.

(** X10: a negative blade count makes the generator throw a [RangeError]
    when it allocates its buffer, before any blade is drawn. *)
Theorem negative_count_throws
    (random : nat -> R)
    (setFromUnitVectors : THREE.Vector3 -> THREE.Vector3 -> THREE.Quaternion)
    (setFromAxisAngle : THREE.Vector3 -> R -> THREE.Quaternion)
    (multiply : THREE.Quaternion -> THREE.Quaternion -> THREE.Quaternion)
    (size bladeHeight : R * R) (heightFunction : HeightFunction)
    (bladeCount : Z) :
  (bladeCount < 0)%Z ->
  instanceMatrices random setFromUnitVectors setFromAxisAngle multiply
    size bladeHeight heightFunction bladeCount
  = Js.Throw Js.RangeError.
Proof.
  intros Hn. unfold instanceMatrices, THREE.new_Float32Array.
  destruct (Z.ltb_spec (bladeCount * 16) 0) as [_ | Hpos]; [reflexivity | lia].
Qed.

Lemma negative_count_throws_witness :
  instanceMatrices harmonic (THREE.setFromUnitVectors Number_EPSILON)
    THREE.setFromAxisAngle THREE.multiply (10, 10) (0.3, 0.8)
    createFlatTerrain (-1)
  = Js.Throw Js.RangeError.
Proof.
  apply (negative_count_throws harmonic (THREE.setFromUnitVectors Number_EPSILON)
           THREE.setFromAxisAngle THREE.multiply (10, 10) (0.3, 0.8)
           createFlatTerrain (-1)).
  lia.
Defined.

(** * Further properties of [combineTerrains] *)

Lemma total_app (l1 l2 : list R) : total (l1 ++ l2) = total l1 + total l2.
Proof.
  unfold total. induction l1 as [| a l1 IH]; cbn [app fold_right].
  - ring.
  - rewrite IH. ring.
Qed.

Lemma total_permutation (l1 l2 : list R) :
  Permutation l1 l2 -> total l1 = total l2.
Proof.
  unfold total.
  induction 1 as [| a l1 l2 _ IH | a b l | l1 l2 l3 _ IH1 _ IH2];
    cbn [fold_right].
  - reflexivity.
  - rewrite IH. reflexivity.
  - ring.
  - congruence.
Qed.

(** The combined sample is a function of the three totals. *)
Lemma combineTerrains_from_totals (terrains : list HeightFunction) (x z : R) :
  combineTerrains terrains x z =
  (let totalY := total (map (fun t => sample_height (t x z)) terrains) in
   let totalNx := total (map (fun t => fst (fst (sample_normal (t x z)))) terrains) in
   let totalNz := total (map (fun t => snd (sample_normal (t x z))) terrains) in
   let len := Math.sqrt (totalNx * totalNx + 1 + totalNz * totalNz) in
   (totalY, totalNx / len, 1 / len, totalNz / len)).
Proof.
  unfold combineTerrains. rewrite combine_loop_totals. cbv zeta.
  rewrite !Rplus_0_l. reflexivity.
Qed.

(** X11: the order of the terrains passed to [combineTerrains] does not
    matter: any rearrangement of the list gives the same sample at every
    ground point. *)
Theorem combineTerrains_order_irrelevant
    (terrains terrains' : list HeightFunction) (x z : R) :
  Permutation terrains terrains' ->
  combineTerrains terrains x z = combineTerrains terrains' x z.
Proof.
  intros P. rewrite !combineTerrains_from_totals. cbv zeta.
  rewrite (total_permutation _ _ (Permutation_map (fun t => sample_height (t x z)) P)).
  rewrite (total_permutation _ _
             (Permutation_map (fun t => fst (fst (sample_normal (t x z)))) P)).
  rewrite (total_permutation _ _
             (Permutation_map (fun t => snd (sample_normal (t x z))) P)).
  reflexivity.
Qed.

Lemma combineTerrains_order_irrelevant_witness :
  combineTerrains
    [createHillTerrain scenarioHill; createHillTerrain offCentreHill;
     createFlatTerrain] 1 2
  = combineTerrains
      [createFlatTerrain; createHillTerrain offCentreHill;
       createHillTerrain scenarioHill] 1 2.
Proof.
  apply (combineTerrains_order_irrelevant
           [createHillTerrain scenarioHill; createHillTerrain offCentreHill;
            createFlatTerrain]
           [createFlatTerrain; createHillTerrain offCentreHill;
            createHillTerrain scenarioHill] 1 2).
  apply Permutation_rev.
Defined.

(** X12: combining no terrain at all gives the flat field, and a flat
    terrain anywhere in the list can be dropped without changing any
    sample. *)
Theorem combineTerrains_flat_is_neutral :
  (forall x z : R, combineTerrains [] x z = createFlatTerrain x z)
  /\ (forall (before after : list HeightFunction) (x z : R),
         combineTerrains (before ++ createFlatTerrain :: after) x z
         = combineTerrains (before ++ after) x z).
Proof.
  split.
  - intros x z. unfold combineTerrains, createFlatTerrain. cbn [combine_loop].
    replace (0 * 0 + 1 + 0 * 0) with 1 by ring.
    unfold Math.sqrt. rewrite sqrt_1. apply sample_eq; lra.
  - intros before after x z. rewrite !combineTerrains_from_totals. cbv zeta.
    rewrite !map_app, !total_app. unfold total. cbn [map fold_right].
    unfold createFlatTerrain. cbn [sample_height sample_normal fst snd].
    rewrite !Rplus_0_l. reflexivity.
Qed.

(** Where every terrain of the list is flat, so is their combination. *)
Lemma combineTerrains_all_flat (terrains : list HeightFunction) (x z : R) :
  Forall (fun t => t x z = (0, 0, 1, 0)) terrains ->
  combineTerrains terrains x z = (0, 0, 1, 0).
Proof.
  intros F. rewrite combineTerrains_from_totals. cbv zeta.
  assert (T : forall g : HeightSample -> R, g (0, 0, 1, 0) = 0 ->
              total (map (fun t => g (t x z)) terrains) = 0).
  { intros g Hg. unfold total.
    induction F as [| t ts Ht _ IH]; cbn [map fold_right].
    - reflexivity.
    - rewrite IH, Ht, Hg. ring. }
  rewrite (T sample_height eq_refl).
  rewrite (T (fun s => fst (fst (sample_normal s))) eq_refl).
  rewrite (T (fun s => snd (sample_normal s)) eq_refl).
  replace (0 * 0 + 1 + 0 * 0) with 1 by ring.
  unfold Math.sqrt. rewrite sqrt_1. apply sample_eq; lra.
Qed.

(** X13: a terrain combined from hills is exactly flat (height 0, normal
    up) at every ground point that lies at or beyond the radius of each of
    the hills. *)
Theorem combined_hills_flat_between_hills (configs : list HillConfig) (x z : R) :
  Forall (fun config =>
            let c := spread DEFAULT_HILL config in
            r_radius c <= hill_dist c x z) configs ->
  combineTerrains (map createHillTerrain configs) x z = (0, 0, 1, 0).
Proof.
  intros F. apply combineTerrains_all_flat.
  apply Forall_map. apply Forall_impl with (2 := F).
  intros config H. cbv zeta in H. unfold createHillTerrain.
  apply hillTerrain_flat_skirt. exact H.
Qed.

(** Two hills, of radius 5 around (0, 0) and of radius 3 around (0, 5), and
    the point (6, 0). *)
Lemma combined_hills_flat_between_hills_witness :
  combineTerrains (map createHillTerrain [scenarioHill; offCentreHill]) 6 0
  = (0, 0, 1, 0).
Proof.
  apply (combined_hills_flat_between_hills [scenarioHill; offCentreHill] 6 0).
  apply Forall_cons; [| apply Forall_cons; [| apply Forall_nil]]; cbv zeta.
  - rewrite plain_hill_dist by reflexivity.
    rewrite (sqrt_of_square _ 6) by (cbn; lra). cbn. lra.
  - rewrite plain_hill_dist by reflexivity. cbn.
    assert (H : 3 * 3 <= (6 - 0) * (6 - 0) + (0 - 5) * (0 - 5)) by lra.
    apply sqrt_le_1_alt in H. rewrite sqrt_square in H by lra.
    unfold Math.sqrt. exact H.
Defined.

(** * Further properties of the wind and of the shaders *)

(** X14: with wind strength 0 the vertex shader displaces no vertex, at
    any height along the blade, at any time and for any other wind
    setting ("0 = no wind"). *)
Theorem no_wind_no_displacement (u : Uniforms) (instanceMatrix : list R)
    (position : THREE.Vector3) :
  uWindStrength u = 0 ->
  vertexShader_pos u instanceMatrix position = position
  /\ vertexShader_displacement u instanceMatrix position = (0, 0).
Proof.
  intros H0. destruct position as [[px py] pz].
  unfold vertexShader_pos, vertexShader_displacement, windDisplacement.
  assert (E : displaced Glsl.snoise u instanceMatrix (px, py, pz) = (px, py, pz)).
  { unfold displaced. cbv zeta. rewrite H0. apply vector3_eq; ring. }
  rewrite E. split; [reflexivity |]. f_equal; ring.
Qed.

Lemma no_wind_no_displacement_witness :
  vertexShader_pos (uniformsAt noWind 7) (repeat 1 16) (0, 1, 0) = (0, 1, 0)
  /\ vertexShader_displacement (uniformsAt noWind 7) (repeat 1 16) (0, 1, 0)
     = (0, 0).
Proof.
  apply (no_wind_no_displacement (uniformsAt noWind 7) (repeat 1 16) (0, 1, 0)).
  reflexivity.
Defined.

(** X15: the wind direction vector handed to the shader has length one for
    every configured direction; direction 0 is the +X axis and direction
    PI/2 the +Z axis (the second component displaces z). *)
Theorem wind_direction_is_unit :
  (forall wind : WindConfig,
      let d := windDirectionOf (windConfigOf wind) in
      fst d * fst d + snd d * snd d = 1)
  /\ windDirectionOf
       (windConfigOf (mkWindConfig None None (Some 0) None None None)) = (1, 0)
  /\ windDirectionOf
       (windConfigOf (mkWindConfig None None (Some (Math.PI / 2)) None None None))
     = (0, 1).
Proof.
  repeat split.
  - intros wind d. unfold d, windDirectionOf, Math.cos, Math.sin. cbn [fst snd].
    pose proof (sin2_cos2 (r_direction (windConfigOf wind))) as H.
    unfold Rsqr in H. lra.
  - unfold windDirectionOf, windConfigOf, Math.cos, Math.sin. cbn.
    rewrite cos_0, sin_0. reflexivity.
  - unfold windDirectionOf, windConfigOf, Math.cos, Math.sin, Math.PI. cbn.
    rewrite cos_PI2, sin_PI2. reflexivity.
Qed.

(** X16: the wind moves only the tip of a blade: the two base vertices of
    the blade geometry stay where they are for every blade width, wind
    setting, time and instance, and the tip keeps its height 1. *)
Theorem wind_moves_only_the_tip (u : Uniforms) (instanceMatrix : list R)
    (bladeWidth : R) :
  exists tip_x tip_z,
    map (vertexShader_pos u instanceMatrix) (bladeGeometry_position bladeWidth)
    = [ (- bladeWidth / 2, 0, 0); (bladeWidth / 2, 0, 0); (tip_x, 1, tip_z) ].
Proof.
  unfold bladeGeometry_position, vertexShader_pos. cbn [map].
  rewrite !displaced_at_root.
  destruct (displaced Glsl.snoise u instanceMatrix (0, 1, 0)) as [[tx ty] tz] eqn:E.
  exists tx, tz.
  assert (Hy : ty = 1).
  { unfold displaced in E. cbv zeta in E. injection E as _ E _. symmetry. exact E. }
  rewrite Hy. reflexivity.
Qed.

(** A vector with non-zero length is normalised to length one. *)
Lemma glsl_normalize_unit (v : Glsl.vec3) :
  0 < Glsl.dot3 v v -> Glsl.dot3 (glsl_normalize v) (glsl_normalize v) = 1.
Proof.
  intros Hv. unfold glsl_normalize.
  set (s := Math.sqrt (Glsl.dot3 v v)).
  assert (Hs : s * s = Glsl.dot3 v v)
    by (unfold s, Math.sqrt; apply sqrt_sqrt; lra).
  assert (Hs0 : s <> 0) by (intros E; rewrite E in Hs; lra).
  destruct v as [[a b] c]. unfold Glsl.map3, Glsl.dot3 in *.
  replace (a / s * (a / s) + b / s * (b / s) + c / s * (c / s))
    with ((a * a + b * b + c * c) / (s * s)) by (field; exact Hs0).
  rewrite Hs. field. lra.
Qed.

(** The scalar product of two vectors of length one is at most one. *)
Lemma dot3_unit_le_1 (v w : Glsl.vec3) :
  Glsl.dot3 v v = 1 -> Glsl.dot3 w w = 1 -> Glsl.dot3 v w <= 1.
Proof.
  destruct v as [[a b] c], w as [[a' b'] c']. unfold Glsl.dot3. intros Hv Hw.
  pose proof (Rle_0_sqr (a - a')) as Ha.
  pose proof (Rle_0_sqr (b - b')) as Hb.
  pose proof (Rle_0_sqr (c - c')) as Hc.
  unfold Rsqr in Ha, Hb, Hc. lra.
Qed.

Lemma lighting_range (vNormal : Glsl.vec3) :
  0 < Glsl.dot3 vNormal vNormal -> 0.6 <= lighting vNormal <= 1.
Proof.
  intros Hn. unfold lighting. cbv zeta.
  assert (Hl : 0 < Glsl.dot3 (0.5, 1.0, 0.3) (0.5, 1.0, 0.3))
    by (unfold Glsl.dot3; lra).
  pose proof (dot3_unit_le_1 _ _ (glsl_normalize_unit _ Hn)
                (glsl_normalize_unit _ Hl)) as D.
  set (d := Glsl.dot3 (glsl_normalize vNormal) _) in *.
  unfold Glsl.max. destruct (d <? 0.0) eqn:E.
  - lra.
  - apply ltb_false in E. lra.
Qed.

(** X17: the fragment shader dims the base-to-tip colour gradient by a
    lighting factor between 0.6 and 1, for every surface normal of non-zero
    length; at the root of a blade (height 0) the gradient is the base
    colour and at the tip (height 1) the tip colour. *)
Theorem fragment_colour_is_dimmed_gradient
    (uBaseColor uTipColor vNormal : Glsl.vec3) :
  0 < Glsl.dot3 vNormal vNormal ->
  0.6 <= lighting vNormal <= 1
  /\ fragmentShader uBaseColor uTipColor 0 vNormal
     = Glsl.map3 (fun c => c * lighting vNormal) uBaseColor
  /\ fragmentShader uBaseColor uTipColor 1 vNormal
     = Glsl.map3 (fun c => c * lighting vNormal) uTipColor.
Proof.
  intros Hn. split; [apply lighting_range; exact Hn |].
  destruct uBaseColor as [[r g] b], uTipColor as [[r' g'] b'].
  unfold fragmentShader, glsl_mix, Glsl.zip3, Glsl.map3. cbv zeta.
  split; apply vector3_eq; ring.
Qed.

Lemma fragment_colour_is_dimmed_gradient_witness :
  0.6 <= lighting (0, 0, 1) <= 1
  /\ fragmentShader (0.1, 0.4, 0.2) (0.3, 0.9, 0.5) 0 (0, 0, 1)
     = Glsl.map3 (fun c => c * lighting (0, 0, 1)) (0.1, 0.4, 0.2)
  /\ fragmentShader (0.1, 0.4, 0.2) (0.3, 0.9, 0.5) 1 (0, 0, 1)
     = Glsl.map3 (fun c => c * lighting (0, 0, 1)) (0.3, 0.9, 0.5).
Proof.
  apply (fragment_colour_is_dimmed_gradient (0.1, 0.4, 0.2) (0.3, 0.9, 0.5) (0, 0, 1)).
  unfold Glsl.dot3. lra.
Defined.

(** The gust envelope of the shader lies between 0 and 1. *)
Lemma gust_envelope_range (a : R) :
  0 <= Math.pow (Math.sin a * 0.5 + 0.5) 4.0 <= 1.
Proof.
  pose proof (SIN_bound a) as [S1 S2]. unfold Math.sin.
  set (g := sin a * 0.5 + 0.5).
  assert (Hg : 0 <= g <= 1) by (unfold g; lra).
  destruct (Rlt_dec 0 g) as [P | N].
  - pose proof (pow_unit_interval g 4.0 (conj P (proj2 Hg)) ltac:(lra)). lra.
  - unfold Math.pow. destruct (Rlt_dec 0 g); [contradiction |].
    destruct (Req_dec_T 4.0 0); lra.
Qed.

(** X18: without turbulence, the displacement of a vertex along the wind
    direction is at most [(1 + gustStrength) * strength * y^2] in absolute
    value, [y] being the vertex's height along the blade, for wind and gust
    strengths that are not negative and a direction vector of length one. *)
Theorem steady_wind_displacement_bound (u : Uniforms) (instanceMatrix : list R)
    (position : THREE.Vector3) :
  uTurbulence u = 0 -> 0 <= uWindStrength u -> 0 <= uGustStrength u ->
  fst (uWindDirection u) * fst (uWindDirection u)
  + snd (uWindDirection u) * snd (uWindDirection u) = 1 ->
  let '(dx, dz) := vertexShader_displacement u instanceMatrix position in
  let y := snd (fst position) in
  Rabs (dx * fst (uWindDirection u) + dz * snd (uWindDirection u))
  <= (1 + uGustStrength u) * uWindStrength u * (y * y).
Proof.
  intros Ht Hs Hg Hd. destruct position as [[px py] pz].
  unfold vertexShader_displacement, windDisplacement, displaced. cbv zeta.
  cbn [fst snd]. rewrite Ht.
  set (wp := worldPos_xz instanceMatrix (px, py, pz)).
  set (dirx := fst (uWindDirection u)) in *.
  set (dirz := snd (uWindDirection u)) in *.
  set (windTime := uTime u * uWindSpeed u).
  pose proof (SIN_bound (windTime * 2.0 + dot2 wp (uWindDirection u) * 0.3)) as [B1 B2].
  pose proof (gust_envelope_range (windTime * uGustFrequency u)) as [G1 G2].
  set (gust := Math.pow _ _) in *.
  unfold Math.sin.
  set (baseWind := sin (windTime * 2.0 + dot2 wp (uWindDirection u) * 0.3)) in *.
  set (n1 := Glsl.snoise _). set (n2 := Glsl.snoise _).
  set (ws := uWindStrength u) in *. set (gs := uGustStrength u) in *.
  match goal with |- Rabs ?e <= _ =>
    replace e with ((baseWind + gust * gs) * ws * (py * py)
                    * (dirx * dirx + dirz * dirz)) by ring
  end.
  rewrite Hd, Rmult_1_r.
  assert (Hy : 0 <= py * py) by nra.
  assert (Hgg : 0 <= gust * gs <= gs) by nra.
  assert (Hw : 0 <= ws * (py * py)) by nra.
  apply Rabs_le. split; nra.
Qed.

Lemma steady_wind_displacement_bound_witness :
  let '(dx, dz) :=
    vertexShader_displacement (uniformsAt steadyWind 2) (repeat 1 16) (0, 1, 0) in
  let y := snd (fst ((0, 1, 0) : THREE.Vector3)) in
  Rabs (dx * fst (uWindDirection (uniformsAt steadyWind 2))
        + dz * snd (uWindDirection (uniformsAt steadyWind 2)))
  <= (1 + uGustStrength (uniformsAt steadyWind 2))
     * uWindStrength (uniformsAt steadyWind 2) * (y * y).
Proof.
  apply (steady_wind_displacement_bound (uniformsAt steadyWind 2) (repeat 1 16)
           (0, 1, 0)).
  - reflexivity.
  - cbn. lra.
  - cbn. lra.
  - cbn. unfold Math.cos, Math.sin. rewrite cos_0, sin_0. ring.
Defined.

(** * Properties of the clouds *)

Section CloudFacts.

Variable random : nat -> R.
Variable textures : nat.

Lemma instanceData_loop_app (n : nat) :
  forall calls data,
    instanceData_loop random textures n calls data
    = data ++ instanceData_loop random textures n calls [].
Proof.
  induction n as [| n IH]; intros calls data; cbn [instanceData_loop].
  - rewrite app_nil_r. reflexivity.
  - destruct (cloud random textures calls) as [c calls'].
    rewrite (IH calls' (data ++ [c])), (IH calls' ([] ++ [c])).
    rewrite <- app_assoc. reflexivity.
Qed.

Lemma instanceData_loop_length (n : nat) :
  forall calls, length (instanceData_loop random textures n calls []) = n.
Proof.
  induction n as [| n IH]; intros calls; cbn [instanceData_loop].
  - reflexivity.
  - destruct (cloud random textures calls) as [c calls'].
    rewrite instanceData_loop_app, length_app, IH. reflexivity.
Qed.

Hypothesis random_range : forall k, 0 <= random k < 1.
Hypothesis some_texture : (0 < textures)%nat.

Lemma texture_index_range (r : R) :
  0 <= r < 1 ->
  (0 <= Math_floor (r * INR textures) < Z.of_nat textures)%Z.
Proof.
  intros [H0 H1]. unfold Math_floor.
  assert (HT : 0 < INR textures) by (apply lt_0_INR; exact some_texture).
  pose proof (Zfloor_bound (r * INR textures)) as [B1 B2].
  split.
  - apply (Zfloor_lub 0). cbn. nra.
  - apply lt_IZR. rewrite <- INR_IZR_INZ. nra.
Qed.

Lemma cloud_bounds (calls : nat) :
  cloud_in_bounds textures (fst (cloud random textures calls)).
Proof.
  unfold cloud, Math_random. cbv zeta. cbn [fst].
  unfold cloud_in_bounds.
  cbn [cloud_position cloud_size textureIndex driftSpeed driftDirection initialX].
  pose proof (random_range calls).
  pose proof (random_range (S calls)).
  pose proof (random_range (S (S calls))).
  pose proof (random_range (S (S (S calls)))).
  pose proof (texture_index_range _ (random_range (S (S (S (S calls)))))).
  pose proof (random_range (S (S (S (S (S calls)))))).
  pose proof (random_range (S (S (S (S (S (S calls))))))).
  pose proof PI_RGT_0 as HPI. unfold Math.PI, MIN_SIZE, MAX_SIZE.
  repeat split; try lia; try nra.
Qed.

Lemma instanceData_loop_bounds (n : nat) :
  forall calls,
    Forall (cloud_in_bounds textures) (instanceData_loop random textures n calls []).
Proof.
  induction n as [| n IH]; intros calls; cbn [instanceData_loop].
  - constructor.
  - pose proof (cloud_bounds calls) as B.
    destruct (cloud random textures calls) as [c calls'].
    rewrite instanceData_loop_app. cbn [app fst] in *.
    constructor; [exact B | apply IH].
Qed.

End CloudFacts.

(** X19: for random draws in [[0, 1)] and at least one texture, the cloud
    generator returns [count] clouds (none for a count that is zero or
    negative, without throwing), each with x in [[-60, 60)], y in
    [[15, 30)], z in [(-60, -10]], size in [[20, 40)], drift speed in
    [[0.1, 0.4)], drift direction in [[0, 2 PI)], its initial x equal to
    the x of its position, and a texture index for which a material
    exists. *)
Theorem clouds_count_and_bounds (random : nat -> R) (M : Type)
    (materials : list M) (count : Z) :
  (forall k, 0 <= random k < 1) -> (0 < length materials)%nat ->
  let data := instanceData random (length materials) count in
  length data = Z.to_nat count
  /\ Forall (cloud_in_bounds (length materials)) data
  /\ Forall (fun c => exists m, material_at materials (textureIndex c) = Some m) data.
Proof.
  intros Hr Hm data. unfold data, instanceData.
  pose proof (instanceData_loop_bounds random (length materials) Hr Hm
                (Z.to_nat count) 0) as B.
  repeat split.
  - apply instanceData_loop_length.
  - exact B.
  - apply Forall_impl with (2 := B). intros c Hc.
    unfold cloud_in_bounds in Hc.
    destruct (cloud_position c) as [[x y] z].
    destruct Hc as (_ & _ & _ & _ & [I0 I1] & _).
    unfold material_at.
    destruct (Z.ltb_spec (textureIndex c) 0) as [N | _]; [lia |].
    destruct (nth_error materials (Z.to_nat (textureIndex c))) as [m |] eqn:E.
    + exists m. reflexivity.
    + apply nth_error_None in E. lia.
Qed.

(** Twenty clouds, the default, with the four textures of the component. *)
Lemma clouds_count_and_bounds_witness :
  let data := instanceData harmonic (length [1%nat; 2%nat; 3%nat; 4%nat]) 20 in
  length data = Z.to_nat 20
  /\ Forall (cloud_in_bounds (length [1%nat; 2%nat; 3%nat; 4%nat])) data
  /\ Forall (fun c => exists m,
                 material_at [1%nat; 2%nat; 3%nat; 4%nat] (textureIndex c) = Some m)
            data.
Proof.
  apply (clouds_count_and_bounds harmonic nat [1%nat; 2%nat; 3%nat; 4%nat] 20).
  - exact harmonic_range.
  - cbn. lia.
Defined.

(** X20: a cloud drifts along x only within 3 units of its initial x, at
    every clock time, and at clock time 0 it is at its initial x. *)
Theorem cloud_drift_is_bounded (data : CloudInstanceData) (elapsedTime : R) :
  Rabs (cloud_x data elapsedTime - initialX data) <= 3
  /\ cloud_x data 0 = initialX data.
Proof.
  unfold cloud_x, Math.sin, Math.cos. cbv zeta. split.
  - pose proof (SIN_bound (elapsedTime * driftSpeed data)) as [S1 S2].
    pose proof (COS_bound (driftDirection data)) as [C1 C2].
    set (s := sin _) in *. set (c := cos _) in *.
    replace (initialX data + c * (s * 3) - initialX data) with (3 * (c * s)) by ring.
    apply Rabs_le. split; nra.
  - rewrite Rmult_0_l, sin_0. ring.
Qed.

(** * Properties of the clone patch *)

(** X21: the patched [clone] never throws: it returns the original clone
    wherever the original succeeds, and where the original throws it
    returns a placeholder that carries the object's position, rotation,
    scale and visibility, is named after it, has no [clone] of its own, has
    no children unless [recursive] is [true] (in particular when the
    argument is left out) and never has more children than the object. *)
Theorem patched_clone_never_throws
    (originalClone : Object3D -> option bool -> option Object3D)
    (this : Object3D) (recursive : option bool) :
  exists cloned,
    patchedClone originalClone this recursive = Some cloned
    /\ (forall c, originalClone this recursive = Some c -> cloned = c)
    /\ (originalClone this recursive = None ->
        obj_name cloned = Names.placeholder_name (obj_name this)
        /\ obj_position cloned = obj_position this
        /\ obj_rotation cloned = obj_rotation this
        /\ obj_scale cloned = obj_scale this
        /\ obj_visible cloned = obj_visible this
        /\ obj_ownClone cloned = None
        /\ (recursive <> Some true -> obj_children cloned = [])
        /\ (length (obj_children cloned) <= length (obj_children this))%nat).
Proof.
  destruct this as [name position rotation scale visible children ownClone].
  cbn [patchedClone].
  destruct (originalClone _ recursive) as [c0 |] eqn:E.
  - exists c0. split; [reflexivity |].
    split; [intros c H; congruence | intros H; discriminate].
  - eexists. split; [reflexivity |]. split; [intros c H; discriminate |].
    intros _. cbn [obj_name obj_position obj_rotation obj_scale obj_visible
                   obj_ownClone obj_children].
    repeat split.
    + intros Hr. destruct recursive as [[|] |]; [contradiction | |]; reflexivity.
    + destruct (truthy recursive); [| cbn; lia]. clear E.
      induction children as [| ch chs IH]; cbn [flat_map length]; [lia |].
      rewrite length_app.
      destruct (match obj_ownClone ch with
                | Some clone => clone (Some true)
                | None => patchedClone originalClone ch (Some true)
                end); cbn [length]; lia.
Qed.

(** Where the original clone throws on every object, the recursive patched
    clone of a tree without own [clone] methods is its tree of
    placeholders. *)
Lemma patchedClone_placeholder_tree
    (originalClone : Object3D -> option bool -> option Object3D) :
  (forall o r, originalClone o r = None) ->
  forall this : Object3D,
    inherits_clone this = true ->
    patchedClone originalClone this (Some true) = Some (placeholder_tree this).
Proof.
  intros Hfail. fix IH 1. intros this.
  destruct this as [name position rotation scale visible children ownClone].
  cbn [inherits_clone patchedClone placeholder_tree truthy].
  rewrite Hfail. destruct ownClone as [f |]; [discriminate |].
  intros Hc. do 2 f_equal.
  induction children as [| ch chs IHl]; cbn [flat_map map]; [reflexivity |].
  cbn [forallb] in Hc. apply andb_prop in Hc. destruct Hc as [Hch Hchs].
  assert (Hown : obj_ownClone ch = None).
  { destruct ch as [? ? ? ? ? ? own]. cbn in Hch |- *.
    destruct own; [discriminate | reflexivity]. }
  rewrite Hown, (IH ch Hch), (IHl Hchs). reflexivity.
Qed.

(** X22: when the original clone throws on every object, the recursive
    patched clone of a hierarchy in which no object has a [clone] method of
    its own is the hierarchy of placeholders of the same shape: each object
    is replaced by a placeholder with its position, rotation, scale and
    visibility, and no child is lost. *)
Theorem placeholder_hierarchy_mirrors_object
    (originalClone : Object3D -> option bool -> option Object3D)
    (this : Object3D) :
  (forall o r, originalClone o r = None) ->
  inherits_clone this = true ->
  patchedClone originalClone this (Some true) = Some (placeholder_tree this).
Proof.
  intros Hfail Hin. apply patchedClone_placeholder_tree; assumption.
Qed.

Lemma placeholder_hierarchy_mirrors_object_witness :
  patchedClone (fun _ _ => None) Samples.sampleTree (Some true)
  = Some (placeholder_tree Samples.sampleTree).
Proof.
  apply (placeholder_hierarchy_mirrors_object (fun _ _ => None) Samples.sampleTree).
  - intros o r. reflexivity.
  - reflexivity.
Defined.

(** * Properties of the application store *)

Lemma store_run_characterised (actions : list Store.action) :
  forall state : Store.AppState,
    Store.run state actions
    = Store.mkAppState
        (Store.lastSection actions (Store.currentSection state))
        (xorb (Store.isDarkMode state) (Nat.odd (Store.toggles actions)))
        (Store.lastPosition actions (Store.sequencePosition state)).
Proof.
  induction actions as [| a rest IH]; intros [section dark position].
  - cbn. rewrite xorb_false_r. reflexivity.
  - change (Store.run (Store.mkAppState section dark position) (a :: rest))
      with (Store.run (Store.dispatch (Store.mkAppState section dark position) a) rest).
    rewrite IH. destruct a as [s' | | p'];
      cbn [Store.dispatch Store.setCurrentSection Store.toggleDarkMode
           Store.setSequencePosition Store.set override
           Store.p_currentSection Store.p_isDarkMode Store.p_sequencePosition
           Store.currentSection Store.isDarkMode Store.sequencePosition
           Store.lastSection Store.lastPosition Store.toggles];
      try reflexivity.
    f_equal. rewrite Nat.odd_succ, <- Nat.negb_odd.
    destruct dark, (Nat.odd (Store.toggles rest)); reflexivity.
Qed.

(** X23: after any sequence of store actions, from any state, the
    selectors return the last section set (or the one before, if none was
    set), the last sequence position set (likewise), and a dark mode flag
    that is the one before flipped once for each toggle, so an even number
    of toggles restores it. *)
Theorem store_selectors_after_actions (state : Store.AppState)
    (actions : list Store.action) :
  let state' := Store.run state actions in
  Store.selectCurrentSection state'
  = Store.lastSection actions (Store.currentSection state)
  /\ Store.selectSequencePosition state'
     = Store.lastPosition actions (Store.sequencePosition state)
  /\ Store.selectIsDarkMode state'
     = xorb (Store.isDarkMode state) (Nat.odd (Store.toggles actions)).
Proof.
  intros state'. unfold state'. rewrite store_run_characterised.
  repeat split.
Qed.

(** * Properties of the responsive settings and of the scroll binding *)



Module ControlFacts.

Import String.
Local Open Scope string_scope.

Lemma controls_modes (events : list Controls.event) :
  forall s : Controls.State,
    Controls.orbitMode (Controls.run s events)
    = xorb (Controls.orbitMode s)
           (Nat.odd (Controls.presses "o" "O" events))
    /\ Controls.enableScrollBinding (Controls.run s events)
       = xorb (Controls.enableScrollBinding s)
              (Nat.odd (Controls.presses "e" "E" events)).
Proof.
  induction events as [| e rest IH]; intros s.
  - cbn. rewrite !xorb_false_r. split; reflexivity.
  - change (Controls.run s (e :: rest)) with (Controls.run (Controls.step s e) rest).
    destruct (IH (Controls.step s e)) as [IH1 IH2]. rewrite IH1, IH2.
    destruct e as [key | sheet scroll].
    + cbn [Controls.step Controls.presses]. unfold Controls.handleKeyPress.
      destruct (String.eqb key "o" || String.eqb key "O")%bool;
        destruct (String.eqb key "e" || String.eqb key "E")%bool;
        cbn [Controls.orbitMode Controls.enableScrollBinding];
        rewrite ?Nat.odd_succ, <- ?Nat.negb_odd;
        split;
        try reflexivity;
        match goal with
        | |- xorb (negb ?a) ?b = xorb ?a (negb ?b) => destruct a, b; reflexivity
        end.
    + cbn [Controls.step Controls.presses]. unfold Controls.useFrame.
      destruct sheet, scroll; try (split; reflexivity).
      destruct (negb (Controls.enableScrollBinding s) || Controls.orbitMode s)%bool;
        split; reflexivity.
Qed.

Lemma controls_position_range (maxLength : R) (events : list Controls.event) :
  forall s : Controls.State,
    Controls.frames_in_range maxLength events ->
    0 <= Controls.sequence_position s <= maxLength ->
    0 <= Controls.sequence_position (Controls.run s events) <= maxLength.
Proof.
  induction events as [| e rest IH]; intros s F Hs.
  - exact Hs.
  - change (Controls.run s (e :: rest)) with (Controls.run (Controls.step s e) rest).
    unfold Controls.frames_in_range in F. inversion F as [| e' rest' He Hrest]; subst.
    apply IH; [exact Hrest |].
    destruct e as [key | sheet scroll].
    + cbn [Controls.step]. unfold Controls.handleKeyPress.
      destruct (String.eqb key "o" || String.eqb key "O")%bool;
        destruct (String.eqb key "e" || String.eqb key "E")%bool; exact Hs.
    + cbn [Controls.step]. unfold Controls.useFrame.
      destruct sheet as [len |], scroll as [off |]; try exact Hs.
      destruct (negb (Controls.enableScrollBinding s) || Controls.orbitMode s)%bool;
        [exact Hs |].
      cbn [Controls.sequence_position]. nra.
Qed.

(** A frame in orbit mode, or with the binding disabled, leaves the
    timeline where it is. *)
Lemma frame_ignored (sheet scroll : option R) (s : Controls.State) :
  Controls.orbitMode s = true \/ Controls.enableScrollBinding s = false ->
  Controls.useFrame sheet scroll s = s.
Proof.
  intros H. unfold Controls.useFrame. destruct sheet, scroll; try reflexivity.
  destruct H as [-> | ->]; [rewrite orb_true_r | cbn]; reflexivity.
Qed.

(** X25: over any sequence of key presses and frames, from any state, the
    orbit mode is flipped once per press of 'o' or 'O' and the scroll
    binding once per press of 'e' or 'E', and the timeline position stays
    in [[0, maxLength]] when it starts there and every frame has a scroll
    offset in [[0, 1]] and a sequence length in [[0, maxLength]]. *)
Theorem controls_after_events (maxLength : R) (s : Controls.State)
    (events : list Controls.event) :
  Controls.frames_in_range maxLength events ->
  0 <= Controls.sequence_position s <= maxLength ->
  Controls.orbitMode (Controls.run s events)
  = xorb (Controls.orbitMode s)
         (Nat.odd (Controls.presses "o" "O" events))
  /\ Controls.enableScrollBinding (Controls.run s events)
     = xorb (Controls.enableScrollBinding s)
            (Nat.odd (Controls.presses "e" "E" events))
  /\ 0 <= Controls.sequence_position (Controls.run s events) <= maxLength.
Proof.
  intros F Hs.
  destruct (controls_modes events s) as [M1 M2].
  split; [exact M1 |]. split; [exact M2 |].
  apply controls_position_range; assumption.
Qed.

(** The orbit mode is switched on, a frame passes, it is switched off, and
    a frame moves the timeline of length 10 to the middle. *)
Lemma controls_after_events_witness :
  Controls.orbitMode
    (Controls.run (Controls.initial 0)
       [Controls.KeyDown "o"; Controls.Frame (Some 10) (Some 0.5);
        Controls.KeyDown "O"; Controls.Frame (Some 10) (Some 0.5)])
  = xorb (Controls.orbitMode (Controls.initial 0))
         (Nat.odd (Controls.presses "o" "O"
                     [Controls.KeyDown "o"; Controls.Frame (Some 10) (Some 0.5);
                      Controls.KeyDown "O"; Controls.Frame (Some 10) (Some 0.5)]))
  /\ Controls.enableScrollBinding
       (Controls.run (Controls.initial 0)
          [Controls.KeyDown "o"; Controls.Frame (Some 10) (Some 0.5);
           Controls.KeyDown "O"; Controls.Frame (Some 10) (Some 0.5)])
     = xorb (Controls.enableScrollBinding (Controls.initial 0))
            (Nat.odd (Controls.presses "e" "E"
                        [Controls.KeyDown "o"; Controls.Frame (Some 10) (Some 0.5);
                         Controls.KeyDown "O"; Controls.Frame (Some 10) (Some 0.5)]))
  /\ 0 <= Controls.sequence_position
            (Controls.run (Controls.initial 0)
               [Controls.KeyDown "o"; Controls.Frame (Some 10) (Some 0.5);
                Controls.KeyDown "O"; Controls.Frame (Some 10) (Some 0.5)])
       <= 10.
Proof.
  apply (controls_after_events 10 (Controls.initial 0)
           [Controls.KeyDown "o"; Controls.Frame (Some 10) (Some 0.5);
            Controls.KeyDown "O"; Controls.Frame (Some 10) (Some 0.5)]).
  - unfold Controls.frames_in_range.
    apply Forall_cons; [exact I |].
    apply Forall_cons; [split; lra |].
    apply Forall_cons; [exact I |].
    apply Forall_cons; [split; lra |].
    apply Forall_nil.
  - cbn. lra.
Defined.

End ControlFacts.

(** * Further properties of the terrain mesh *)

Lemma plane_vertices_length (width height : R) (gridX gridY : nat) :
  length (Plane.vertices width height gridX gridY)
  = ((gridX + 1) * (gridY + 1))%nat.
Proof.
  unfold Plane.vertices.
  assert (H : forall (rows : list nat),
             length (flat_map
                       (fun iy => map (Plane.vertex width height gridX gridY iy)
                                      (seq 0 (gridX + 1))) rows)
             = ((gridX + 1) * length rows)%nat).
  { induction rows as [| r rows IH]; cbn [flat_map length]; [lia |].
    rewrite length_app, length_map, length_seq, IH. lia. }
  rewrite H, length_seq. reflexivity.
Qed.

(** X26: the terrain geometry keeps the grid of the plane it is built
    from: it has [(terrainSegments + 1)^2] vertices with the x and y
    coordinates of the plane's vertices, in order, and in the geometry's own
    frame the third coordinate of every vertex is the height the field
    returns at its first two coordinates. *)
Theorem terrain_geometry_is_displaced_grid
    (computeVertexNormals : BufferGeometry -> list THREE.Vector3)
    (size : R * R) (terrainSegments : nat) (heightFunction : HeightFunction) :
  let positions :=
    geo_position (terrainGeometry computeVertexNormals size terrainSegments
                    heightFunction) in
  length positions = ((terrainSegments + 1) * (terrainSegments + 1))%nat
  /\ map (fun v : THREE.Vector3 => fst v) positions
     = map (fun v : THREE.Vector3 => fst v)
           (Plane.vertices (fst size) (snd size) terrainSegments terrainSegments)
  /\ Forall (fun v => let '(x, y, z) := v in
                      z = sample_height (heightFunction x y)) positions.
Proof.
  intros positions. unfold positions, terrainGeometry. cbv zeta.
  cbn [geo_position PlaneGeometry].
  repeat split.
  - rewrite displace_map, length_map. apply plane_vertices_length.
  - rewrite displace_map, map_map. apply map_ext.
    intros [[x y] z]. reflexivity.
  - apply displace_heights.
Qed.

(** X27: for a height field that is symmetric in z, the terrain mesh as
    shown in the scene agrees with the field and with the blades: each of
    its vertices [(X, Y, Z)] has [Y] equal to the height of the field at
    [(X, Z)]. *)
Theorem symmetric_field_mesh_agrees
    (computeVertexNormals : BufferGeometry -> list THREE.Vector3)
    (size : R * R) (terrainSegments : nat) (heightFunction : HeightFunction) :
  (forall x z, sample_height (heightFunction x (- z))
               = sample_height (heightFunction x z)) ->
  Forall (fun v => let '(X, Y, Z) := v in
                   Y = sample_height (heightFunction X Z))
         (terrainMeshVertices computeVertexNormals size terrainSegments
            heightFunction).
Proof.
  intros Hsym.
  apply Forall_impl
    with (2 := terrainMeshVertices_heights computeVertexNormals size
                 terrainSegments heightFunction).
  intros [[X Y] Z] H. rewrite <- Hsym. exact H.
Qed.

(** The default hill, centred on the origin and not rotated, is symmetric
    in z. *)
Lemma defaultHill_symmetric_in_z (x z : R) :
  sample_height (createHillTerrain emptyHillConfig x (- z))
  = sample_height (createHillTerrain emptyHillConfig x z).
Proof.
  unfold createHillTerrain.
  set (c := spread DEFAULT_HILL emptyHillConfig).
  rewrite !hillTerrain_height_profile by (cbn; lra).
  f_equal. rewrite !plain_hill_dist by reflexivity.
  f_equal. cbn. ring.
Qed.

Lemma symmetric_field_mesh_agrees_witness :
  Forall (fun v => let '(X, Y, Z) := v in
                   Y = sample_height (createHillTerrain emptyHillConfig X Z))
         (terrainMeshVertices (fun geo => geo_normal geo) (50, 50) 64
            (createHillTerrain emptyHillConfig)).
Proof.
  apply (symmetric_field_mesh_agrees (fun geo => geo_normal geo) (50, 50) 64
           (createHillTerrain emptyHillConfig)).
  exact defaultHill_symmetric_in_z.
Defined.

(** ** The hill under its cone *)

(** A power of a base in (0, 1] with an exponent of at least 1 is at most
    the base. *)
Lemma pow_le_base (b e : R) : 0 < b <= 1 -> 1 <= e -> Math.pow b e <= b.
Proof.
  intros [Hb0 Hb1] He. rewrite pow_pos_base by exact Hb0.
  assert (Hln : ln b <= 0).
  { destruct (Req_dec_T b 1) as [-> | N]; [rewrite ln_1; lra |].
    rewrite <- ln_1. apply Rlt_le, ln_increasing; lra. }
  rewrite <- (exp_ln b Hb0) at 2. unfold Rpower.
  destruct (Req_dec_T (e * ln b) (ln b)) as [-> | N]; [lra |].
  apply Rlt_le, exp_increasing. nra.
Qed.

(** X28: a hill without plateau, with height [>= 0], roundness [>= 1] and
    ridge [<= 1], lies under the cone of the same height and radius: at
    scaled distance [dist <= radius] from the centre its height is at most
    [height * (1 - dist / radius)], so it comes down to the ground at the
    rim without a step. *)
Theorem hill_under_cone (config : HillConfig) (x z : R) :
  let c := spread DEFAULT_HILL config in
  0 <= r_height c -> 1 <= r_roundness c -> r_plateau c <= 0 -> r_ridge c <= 1 ->
  0 < r_radius c -> hill_dist c x z <= r_radius c ->
  sample_height (createHillTerrain config x z)
  <= r_height c * (1 - hill_dist c x z / r_radius c).
Proof.
  intros c HH Hrho Hp Hridge HR Hd. unfold createHillTerrain. fold c.
  pose proof (hill_dist_nonneg c x z) as H0.
  assert (Hq : 0 <= 1 - hill_dist c x z / r_radius c).
  { assert (hill_dist c x z / r_radius c <= 1).
    { apply Rmult_le_reg_r with (r_radius c); [exact HR |].
      unfold Rdiv. rewrite Rmult_assoc, Rinv_l by lra. lra. }
    lra. }
  unfold hillTerrain. cbv zeta.
  change (Math.sqrt (hill_adx c x z * hill_adx c x z + hill_adz c x z * hill_adz c x z))
    with (hill_dist c x z).
  set (d := hill_dist c x z) in *.
  destruct (d >=? r_radius c + r_skirt c); [cbn [sample_height]; nra |].
  destruct (d >=? r_radius c) eqn:E; [cbn [sample_height]; nra |].
  apply geb_false in E. cbn [sample_height].
  rewrite plateau_remap_off by exact Hp.
  pose proof (div_radius_range c d H0 E) as T.
  pose proof (pow_le_base (1 - d / r_radius c) (r_roundness c) ltac:(lra) Hrho) as P.
  pose proof (pow_nonneg (1 - d / r_radius c) (r_roundness c)) as P0.
  pose proof (ridge_factor_range c (hill_adx c x z) (hill_adz c x z) Hridge) as F.
  set (p := Math.pow _ _) in *. set (f := ridge_factor c _ _) in *.
  assert (PF : p * f <= 1 - d / r_radius c) by nra.
  nra.
Qed.

Lemma hill_under_cone_witness :
  sample_height (createHillTerrain emptyHillConfig 5 0)
  <= r_height (spread DEFAULT_HILL emptyHillConfig)
     * (1 - hill_dist (spread DEFAULT_HILL emptyHillConfig) 5 0
            / r_radius (spread DEFAULT_HILL emptyHillConfig)).
Proof.
  apply (hill_under_cone emptyHillConfig 5 0); try (cbn; lra).
  rewrite plain_hill_dist by reflexivity.
  rewrite (sqrt_of_square _ 5) by (cbn; lra). cbn. lra.
Defined.

(** * Height fields over the numbers with infinities and NaN *)

Lemma ext_div_finite (a b : R) :
  b <> 0 -> Ext.div (Ext.Finite a) (Ext.Finite b) = Ext.Finite (a / b).
Proof.
  intros Hb. unfold Ext.div.
  destruct (Req_dec_T b 0); [contradiction | reflexivity].
Qed.

Lemma ext_sqrt_finite (a : R) :
  0 <= a -> Ext.sqrt (Ext.Finite a) = Ext.Finite (Math.sqrt a).
Proof.
  intros Ha. unfold Ext.sqrt. destruct (Rlt_dec a 0); [lra | reflexivity].
Qed.

Lemma ext_pow_finite (b e : R) :
  0 < b -> Ext.pow (Ext.Finite b) e = Ext.Finite (Math.pow b e).
Proof.
  intros Hb. rewrite pow_pos_base by exact Hb. unfold Ext.pow.
  destruct (Req_dec_T e 0) as [-> | _].
  - rewrite Rpower_O by exact Hb. reflexivity.
  - destruct (Rlt_dec 0 b); [reflexivity | contradiction].
Qed.

(** ** A hill whose asymmetry has no zero component stays finite *)

Section FiniteHill.

Variable c : RequiredHillConfig.
Hypothesis asymmetry_ok : nonzero_asymmetry c.

Lemma ext_hill_adx (x z : R) :
  Ext.hill_adx c x z = Ext.Finite (hill_adx c x z).
Proof.
  unfold Ext.hill_adx, Ext.hill_rdx, hill_adx. cbv zeta.
  apply ext_div_finite. apply asymmetry_ok.
Qed.

Lemma ext_hill_adz (x z : R) :
  Ext.hill_adz c x z = Ext.Finite (hill_adz c x z).
Proof.
  unfold Ext.hill_adz, Ext.hill_rdz, hill_adz. cbv zeta.
  apply ext_div_finite. apply asymmetry_ok.
Qed.

Lemma ext_hill_dist (x z : R) :
  Ext.hill_dist c x z = Ext.Finite (hill_dist c x z).
Proof.
  unfold Ext.hill_dist, hill_dist. cbv zeta.
  rewrite ext_hill_adx, ext_hill_adz. cbn [Ext.mul Ext.add].
  apply ext_sqrt_finite. nra.
Qed.

Lemma ext_plateau_remap (t : R) :
  0 <= t < 1 ->
  Ext.plateau_remap c (Ext.Finite t) = Ext.Finite (plateau_remap c t).
Proof.
  intros [H0 H1]. unfold Ext.plateau_remap, plateau_remap. cbn [Ext.ltb].
  destruct (r_plateau c >? 0) eqn:Ep; cbn [andb]; [| reflexivity].
  destruct (t <? r_plateau c) eqn:Et; [reflexivity |].
  apply ltb_false in Et. cbn [Ext.sub].
  apply ext_div_finite. lra.
Qed.

Lemma ext_ridge_factor (adx adz : R) :
  Ext.ridge_factor c (Ext.Finite adx) (Ext.Finite adz)
  = Ext.Finite (ridge_factor c adx adz).
Proof.
  unfold Ext.ridge_factor, ridge_factor.
  destruct (r_ridge c >? 0); reflexivity.
Qed.

Lemma ext_getHeight (px pz : R) :
  Ext.getHeight c px pz = Ext.Finite (getHeight c px pz).
Proof.
  unfold Ext.getHeight, getHeight. cbv zeta.
  rewrite ext_hill_adx, ext_hill_adz.
  set (a := hill_adx c px pz). set (b := hill_adz c px pz).
  cbn [Ext.mul Ext.add]. rewrite ext_sqrt_finite by nra.
  set (d := Math.sqrt (a * a + b * b)).
  assert (Hd : 0 <= d) by (unfold d, Math.sqrt; apply sqrt_pos).
  cbn [Ext.geb].
  destruct (d >=? r_radius c) eqn:E; [reflexivity |].
  apply geb_false in E.
  rewrite ext_div_finite by lra.
  rewrite ext_plateau_remap by (apply div_radius_range; assumption).
  rewrite ext_ridge_factor. cbn [Ext.sub].
  rewrite ext_pow_finite by (pose proof (hill_base_range c d Hd E); lra).
  reflexivity.
Qed.

(** The sample of the hill is the sample of finite numbers computed over
    the reals. *)
Lemma ext_hillTerrain (x z : R) :
  Ext.hillTerrain c x z = Ext.of_sample (hillTerrain c x z).
Proof.
  unfold Ext.hillTerrain, hillTerrain. cbv zeta.
  rewrite !ext_getHeight, ext_hill_adx, ext_hill_adz.
  set (a := hill_adx c x z). set (b := hill_adz c x z).
  cbn [Ext.mul Ext.add]. rewrite ext_sqrt_finite by nra.
  set (d := Math.sqrt (a * a + b * b)).
  assert (Hd : 0 <= d) by (unfold d, Math.sqrt; apply sqrt_pos).
  cbn [Ext.geb].
  destruct (d >=? r_radius c + r_skirt c); [reflexivity |].
  destruct (d >=? r_radius c) eqn:E; [reflexivity |].
  apply geb_false in E.
  rewrite ext_div_finite by lra.
  rewrite ext_plateau_remap by (apply div_radius_range; assumption).
  rewrite ext_ridge_factor. cbn [Ext.sub].
  rewrite ext_pow_finite by (pose proof (hill_base_range c d Hd E); lra).
  rewrite !ext_div_finite by lra.
  set (dhdx := (getHeight c (x + 0.01) z - getHeight c (x - 0.01) z) / (2 * 0.01)).
  set (dhdz := (getHeight c x (z + 0.01) - getHeight c x (z - 0.01)) / (2 * 0.01)).
  cbn [Ext.mul Ext.add Ext.neg].
  destruct (sqrt_sq_sum_pos dhdx dhdz) as [L _].
  rewrite ext_sqrt_finite by nra.
  rewrite !ext_div_finite by lra.
  reflexivity.
Qed.

End FiniteHill.

(** ** Combined fields of finite children *)

Lemma ext_combine_loop (children : list HeightField) (x z : R) :
  Forall (fun f => Ext.heightFunctionOf f x z
                   = Ext.of_sample (heightFunctionOf f x z)) children ->
  forall totalY totalNx totalNz : R,
    Ext.combine_loop (map Ext.heightFunctionOf children) x z
      (Ext.Finite totalY, Ext.Finite totalNx, Ext.Finite totalNz)
    = (let '(y, nx, nz) :=
         combine_loop (map heightFunctionOf children) x z
           (totalY, totalNx, totalNz) in
       (Ext.Finite y, Ext.Finite nx, Ext.Finite nz)).
Proof.
  induction 1 as [| f rest Hf _ IH]; intros totalY totalNx totalNz.
  - reflexivity.
  - cbn [map Ext.combine_loop combine_loop]. rewrite Hf.
    destruct (heightFunctionOf f x z) as [[[y nx] ny] nz].
    cbn [Ext.of_sample Ext.add]. apply IH.
Qed.

Lemma ext_combineTerrains (children : list HeightField) (x z : R) :
  Forall (fun f => Ext.heightFunctionOf f x z
                   = Ext.of_sample (heightFunctionOf f x z)) children ->
  Ext.combineTerrains (map Ext.heightFunctionOf children) x z
  = Ext.of_sample (combineTerrains (map heightFunctionOf children) x z).
Proof.
  intros H. unfold Ext.combineTerrains, combineTerrains.
  rewrite (ext_combine_loop children x z H).
  destruct (combine_loop (map heightFunctionOf children) x z (0, 0, 0))
    as [[totalY totalNx] totalNz].
  cbn [Ext.mul Ext.add].
  destruct (sqrt_sq_sum_pos totalNx totalNz) as [L _].
  rewrite ext_sqrt_finite by nra.
  rewrite !ext_div_finite by lra.
  reflexivity.
Qed.

(** Every variant of height field whose hills have an asymmetry without
    zero component returns samples of finite numbers: those computed over
    the reals. *)
Lemma ext_heightFunctionOf :
  forall f : HeightField,
    all_asymmetry_nonzero f ->
    forall x z : R,
      Ext.heightFunctionOf f x z = Ext.of_sample (heightFunctionOf f x z).
Proof.
  fix IH 1. intros f.
  destruct f as [| config | children]; intros W x z.
  - reflexivity.
  - cbn [Ext.heightFunctionOf heightFunctionOf].
    unfold Ext.createHillTerrain, createHillTerrain.
    apply ext_hillTerrain. exact W.
  - cbn [Ext.heightFunctionOf heightFunctionOf].
    apply ext_combineTerrains. cbn [all_asymmetry_nonzero] in W.
    induction children as [| child rest IHl]; constructor.
    + apply IH. apply W.
    + apply IHl. apply W.
Qed.

Lemma ext_sample_normal (s : HeightSample) :
  Ext.sample_normal (Ext.of_sample s) = Ext.of_vector (sample_normal s).
Proof. destruct s as [[[y nx] ny] nz]. reflexivity. Qed.



(** ** A hill with a zero asymmetry component *)

Section CollapsedHill.

Variable c : RequiredHillConfig.
Hypothesis asymmetry_x : fst (r_asymmetry c) = 0.

(** On the line [rdx = 0] the local x coordinate is [0 / 0]. *)
Lemma ext_hill_adx_on_line (x z : R) :
  Ext.hill_rdx c x z = 0 -> Ext.hill_adx c x z = Ext.NaN.
Proof.
  intros H. unfold Ext.hill_adx, Ext.div. rewrite asymmetry_x, H.
  destruct (Req_dec_T 0 0) as [_ | N]; [reflexivity | contradiction].
Qed.

(** Off that line it is an infinity. *)
Lemma ext_hill_adx_off_line (x z : R) :
  Ext.hill_rdx c x z <> 0 ->
  Ext.hill_adx c x z = Ext.PosInfinity \/ Ext.hill_adx c x z = Ext.NegInfinity.
Proof.
  intros H. unfold Ext.hill_adx, Ext.div. rewrite asymmetry_x.
  destruct (Req_dec_T 0 0) as [_ | N]; [| contradiction].
  destruct (Req_dec_T (Ext.hill_rdx c x z) 0); [contradiction |].
  destruct (Rlt_dec 0 (Ext.hill_rdx c x z)); [left | right]; reflexivity.
Qed.

Lemma ext_add_NaN_l (a : Ext.number) : Ext.add Ext.NaN a = Ext.NaN.
Proof. destruct a; reflexivity. Qed.

Lemma ext_add_NaN_r (a : Ext.number) : Ext.add a Ext.NaN = Ext.NaN.
Proof. destruct a; reflexivity. Qed.

Lemma ext_mul_NaN_r (a : Ext.number) : Ext.mul a Ext.NaN = Ext.NaN.
Proof. destruct a; reflexivity. Qed.

Lemma ext_div_NaN_r (a : Ext.number) : Ext.div a Ext.NaN = Ext.NaN.
Proof. destruct a; reflexivity. Qed.

Lemma ext_plateau_remap_NaN : Ext.plateau_remap c Ext.NaN = Ext.NaN.
Proof.
  unfold Ext.plateau_remap. cbn [Ext.ltb]. rewrite andb_false_r.
  destruct (r_plateau c >? 0); reflexivity.
Qed.

(** On the line the inner helper returns NaN, for a roundness other than
    0. *)
Lemma ext_getHeight_on_line (px pz : R) :
  r_roundness c <> 0 ->
  Ext.hill_rdx c px pz = 0 -> Ext.getHeight c px pz = Ext.NaN.
Proof.
  intros Hrho H. unfold Ext.getHeight. cbv zeta.
  rewrite (ext_hill_adx_on_line px pz H).
  cbn [Ext.mul]. rewrite ext_add_NaN_l. cbn [Ext.sqrt Ext.geb Ext.div].
  rewrite ext_plateau_remap_NaN. cbn [Ext.sub].
  unfold Ext.pow. destruct (Req_dec_T (r_roundness c) 0); [contradiction |].
  cbn [Ext.mul]. reflexivity.
Qed.

Lemma ext_hillTerrain_off_line (x z : R) :
  snd (r_asymmetry c) <> 0 ->
  Ext.hill_rdx c x z <> 0 ->
  Ext.hillTerrain c x z
  = (Ext.Finite 0, Ext.Finite 0, Ext.Finite 1, Ext.Finite 0).
Proof.
  intros Hz H. unfold Ext.hillTerrain. cbv zeta.
  assert (Az : Ext.hill_adz c x z
               = Ext.Finite (Ext.hill_rdz c x z / snd (r_asymmetry c)))
    by (apply ext_div_finite; exact Hz).
  rewrite Az.
  destruct (ext_hill_adx_off_line x z H) as [E | E]; rewrite E; reflexivity.
Qed.

Lemma ext_hillTerrain_on_line (x z : R) :
  r_roundness c <> 0 ->
  Ext.hill_rdx c x z = 0 ->
  Ext.sample_height (Ext.hillTerrain c x z) = Ext.NaN.
Proof.
  intros Hrho H. unfold Ext.hillTerrain. cbv zeta.
  rewrite (ext_hill_adx_on_line x z H).
  cbn [Ext.mul]. rewrite ext_add_NaN_l. cbn [Ext.sqrt Ext.geb Ext.div].
  rewrite ext_plateau_remap_NaN. cbn [Ext.sub Ext.sample_height].
  unfold Ext.pow. destruct (Req_dec_T (r_roundness c) 0); [contradiction |].
  cbn [Ext.mul]. reflexivity.
Qed.

End CollapsedHill.

(** The hill [createHillTerrain({ asymmetry: [0, 1] })] is not rotated: its
    line [rdx = 0] is [x = 0]. *)
Lemma zeroAsymmetryHill_rdx (x z : R) :
  Ext.hill_rdx (spread DEFAULT_HILL zeroAsymmetryHill) x z = x.
Proof.
  unfold Ext.hill_rdx, Math.cos, Math.sin. cbv zeta.
  cbn [spread DEFAULT_HILL zeroAsymmetryHill override
       r_rotation r_centerX r_centerZ rotation centerX centerZ].
  rewrite Ropp_0, cos_0, sin_0. ring.
Qed.




(** X30: a zero first component of the asymmetry collapses the hill.  With
    [asymmetry[0] = 0], [asymmetry[1]] not zero and a roundness other than
    0, the hill returns flat ground at every point off the line [rdx = 0]
    through its centre, where the scaled distance is infinite, and a height
    of NaN at every point of that line, where it is [0 / 0]. *)
Theorem zero_asymmetry_collapses_hill (config : HillConfig) (x z : R) :
  let c := spread DEFAULT_HILL config in
  fst (r_asymmetry c) = 0 -> snd (r_asymmetry c) <> 0 ->
  r_roundness c <> 0 ->
  (Ext.hill_rdx c x z <> 0 ->
   Ext.hill_dist c x z = Ext.PosInfinity
   /\ Ext.createHillTerrain config x z
      = (Ext.Finite 0, Ext.Finite 0, Ext.Finite 1, Ext.Finite 0))
  /\ (Ext.hill_rdx c x z = 0 ->
      Ext.hill_dist c x z = Ext.NaN
      /\ Ext.sample_height (Ext.createHillTerrain config x z) = Ext.NaN).
Proof.
  intros c A Hz Hrho. unfold Ext.createHillTerrain. fold c.
  split; intros H; split.
  - unfold Ext.hill_dist. cbv zeta.
    assert (Az : Ext.hill_adz c x z
                 = Ext.Finite (Ext.hill_rdz c x z / snd (r_asymmetry c)))
      by (apply ext_div_finite; exact Hz).
    rewrite Az.
    destruct (ext_hill_adx_off_line c A x z H) as [E | E]; rewrite E; reflexivity.
  - apply ext_hillTerrain_off_line; assumption.
  - unfold Ext.hill_dist. cbv zeta.
    rewrite (ext_hill_adx_on_line c A x z H).
    cbn [Ext.mul]. rewrite ext_add_NaN_l. reflexivity.
  - apply ext_hillTerrain_on_line; assumption.
Qed.

Lemma zero_asymmetry_collapses_hill_witness :
  (Ext.hill_rdx (spread DEFAULT_HILL zeroAsymmetryHill) 0 5 <> 0 ->
   Ext.hill_dist (spread DEFAULT_HILL zeroAsymmetryHill) 0 5 = Ext.PosInfinity
   /\ Ext.createHillTerrain zeroAsymmetryHill 0 5
      = (Ext.Finite 0, Ext.Finite 0, Ext.Finite 1, Ext.Finite 0))
  /\ (Ext.hill_rdx (spread DEFAULT_HILL zeroAsymmetryHill) 0 5 = 0 ->
      Ext.hill_dist (spread DEFAULT_HILL zeroAsymmetryHill) 0 5 = Ext.NaN
      /\ Ext.sample_height (Ext.createHillTerrain zeroAsymmetryHill 0 5)
         = Ext.NaN).
Proof.
  apply (zero_asymmetry_collapses_hill zeroAsymmetryHill 0 5).
  - reflexivity.
  - cbn. lra.
  - cbn. lra.
Defined.
